(** * EPP_DETECCION: the real-time detection session manager

    A shallow embedding of the three pieces of the repository that the
    session manager is made of, and the properties proved about them:

    - [Aggregator]: the Node microservice ([CLASS_MAPPING],
      [processDetections], [validateCompletePPE]);
    - [PPEWebSocket]: the transport class of [services/ppeService.ts];
    - [Dashboard]: the React component of [components/Dashboard.tsx]
      (detection handler, adaptive scheduler, pause / resume / stop).

    Conventions of the embedding.

    - Labels are ASCII strings; lower-casing acts on [A-Z].
    - Clock readings, latencies and lengths are integers.  The quotients
      the code forms from them ([length / 1024], [n / 8 * 100], the mean of
      at most ten latencies) are kept as rationals: the comparisons and
      the two-decimal rendering the code applies to them give the same
      result on the rational as on its double.
    - An object used as a map is an association list in insertion order;
      a lookup in an object literal also sees the two lower-case members
      every object inherits ([constructor], [__proto__]).
    - React state and refs are fields of one record; a closure that
      captured a state value carries that value.
    - A timer is an entry in a pool of pending timers; the environment
      fires any pending entry at any time, so delays order nothing.
    - What a component does to its collaborators (socket writes, captures,
      alerts, scheduled reconnects) is appended to a trace.
    - A function that can raise returns an option: [None] is the
      exception ([processDetections] on a [null] where it reads a
      property).
    - [connect()] replaces the socket without closing the one it held;
      the open and close events of a replaced socket are events of their
      own, since its handlers still act on the object. *)

From Stdlib Require Import List String Ascii Bool Arith ZArith QArith Qround Qabs Lia Lqa.
From Stdlib Require Import DecimalString.
Import ListNotations.

Set Implicit Arguments.

Local Open Scope string_scope.
Local Open Scope list_scope.

(* ================================================================== *)
(** ** JavaScript primitives used by the sources *)

Module Js.

(** [String.prototype.toLowerCase] on labels.  Labels are ASCII class
    names; bytes outside [A-Z] are left as they are. *)
Definition lower_ascii (c : ascii) : ascii :=
  let n := nat_of_ascii c in
  if (65 <=? n)%nat && (n <=? 90)%nat then ascii_of_nat (n + 32) else c.

Fixpoint toLowerCase (s : string) : string :=
  match s with
  | EmptyString => EmptyString
  | String c r => String (lower_ascii c) (toLowerCase r)
  end.

(** A string is truthy when it is not empty. *)
Definition truthy_string (s : string) : bool :=
  match s with EmptyString => false | _ => true end.

(** [a || b] on optional strings ([undefined] and [''] are falsy). *)
Definition or_string (a : option string) (b : string) : string :=
  match a with
  | Some s => if truthy_string s then s else b
  | None => b
  end.

(** Own-property lookup in an object literal kept as an association
    list. *)
Fixpoint own (A : Type) (k : string) (o : list (string * A)) : option A :=
  match o with
  | [] => None
  | (k', v) :: r => if String.eqb k k' then Some v else own k r
  end.

(** The only members of [Object.prototype] whose names contain no
    upper-case letter; a lower-cased key can reach no other inherited
    member. *)
Inductive Inherited := ObjectFunction | ObjectPrototype.

Definition inherited (k : string) : option Inherited :=
  if String.eqb k "constructor" then Some ObjectFunction
  else if String.eqb k "__proto__" then Some ObjectPrototype
  else None.

(** [Array.prototype.includes] on strings. *)
Definition includes (l : list string) (s : string) : bool :=
  existsb (String.eqb s) l.

(** [Array.prototype.slice(0, e)]: a negative [e] counts from the end. *)
Definition slice0 (A : Type) (e : Z) (l : list A) : list A :=
  let len := Z.of_nat (List.length l) in
  let stop := if (e <? 0)%Z then Z.max (len + e) 0 else Z.min e len in
  firstn (Z.to_nat stop) l.

(** [Array.prototype.join]. *)
Definition join (sep : string) (l : list string) : string :=
  String.concat sep l.

Definition decimal (n : Z) : string :=
  NilZero.string_of_uint (N.to_uint (Z.to_N n)).

Definition two_digits (n : Z) : string :=
  decimal (n / 10) ++ decimal (n mod 10).

(** [Number.prototype.toFixed(2)]: the integer [n] nearest to [100 x]
    (the larger one on a tie), printed with two decimals. *)
Definition toFixed2 (x : Q) : string :=
  let n := Qfloor (Qabs x * 100 + (1 # 2)) in
  (if Qle_bool 0 x then "" else "-")
    ++ decimal (n / 100) ++ "." ++ two_digits (n mod 100).

End Js.

(* ================================================================== *)
(** ** The aggregation microservice *)

Module Aggregator.

Definition EPP_CLASSES : list string :=
  [ "barbijo"; "botas"; "camisa_jean"; "casco";
    "chaleco"; "guantes"; "lentes"; "pantalon" ].

Definition CLASS_MAPPING : list (string * string) :=
  [ ("mask", "barbijo"); ("masks", "barbijo");
    ("boot", "botas"); ("boots", "botas");
    ("shirt", "camisa_jean"); ("shirts", "camisa_jean");
    ("helmet", "casco"); ("helmets", "casco"); ("cascos", "casco");
    ("vest", "chaleco"); ("vests", "chaleco");
    ("glove", "guantes"); ("gloves", "guantes");
    ("glasses", "lentes"); ("glass", "lentes");
    ("pant", "pantalon"); ("pants", "pantalon");
    ("barbijo", "barbijo"); ("botas", "botas");
    ("camisa_jean", "camisa_jean"); ("casco", "casco");
    ("chaleco", "chaleco"); ("guantes", "guantes");
    ("lentes", "lentes"); ("pantalon", "pantalon") ].

(** What [CLASS_MAPPING[k] || k] can evaluate to: a string, or one of
    the two objects every object literal inherits. *)
Inductive ClassName :=
| Label (s : string)
| Native (o : Js.Inherited).

(** [CLASS_MAPPING[originalClass] || originalClass].  The table is a
    plain object literal, so the lookup also sees [Object.prototype]. *)
Definition className_of (originalClass : string) : ClassName :=
  match Js.own originalClass CLASS_MAPPING with
  | Some c => if Js.truthy_string c then Label c else Label originalClass
  | None =>
      match Js.inherited originalClass with
      | Some o => Native o
      | None => Label originalClass
      end
  end.

(** The property key a class name becomes in [groupedDetections[className]]
    (ToString of the value). *)
Definition propertyKey (c : ClassName) : string :=
  match c with
  | Label s => s
  | Native Js.ObjectFunction => "function Object() { [native code] }"
  | Native Js.ObjectPrototype => "[object Object]"
  end.

(** One entry of the upstream prediction array: an object whose [class]
    and [class_name], where present, are strings. *)
Record Prediction := {
  p_class : option string;
  p_class_name : option string;
  p_confidence : Q;
  p_x : Q; p_y : Q; p_width : Q; p_height : Q
}.

Record Bbox := { bx : Q; by_ : Q; bwidth : Q; bheight : Q }.

Record Item := {
  confidence : Q;
  bbox : Bbox;
  originalClass : string
}.

Record ClassAggregate := {
  count : nat;
  avgConfidence : Q;
  detections : list Item
}.

(** Normalisation of a raw label: lower-casing, then the table. *)
Definition normalizeLabel (label : string) : ClassName :=
  className_of (Js.toLowerCase label).

(** [det.class || det.class_name || ''] *)
Definition rawLabel (det : Prediction) : string :=
  Js.or_string (p_class det) (Js.or_string (p_class_name det) "").

(** [(det.class || det.class_name || '').toLowerCase()] *)
Definition originalClass_of (det : Prediction) : string :=
  Js.toLowerCase (rawLabel det).

Definition item_of (det : Prediction) : Item :=
  {| confidence := p_confidence det;
     bbox := {| bx := p_x det; by_ := p_y det;
                bwidth := p_width det; bheight := p_height det |};
     originalClass := originalClass_of det |}.

Definition normalize (det : Prediction) : ClassName :=
  normalizeLabel (rawLabel det).

(** [if (!grouped[k]) grouped[k] = []; grouped[k].push(it)] *)
Fixpoint push_group (k : string) (it : Item) (g : list (string * list Item))
  : list (string * list Item) :=
  match g with
  | [] => [(k, [it])]
  | (k', its) :: r =>
      if String.eqb k k' then (k', its ++ [it]) :: r
      else (k', its) :: push_group k it r
  end.

Definition group_step (g : list (string * list Item)) (det : Prediction) :=
  push_group (propertyKey (normalize det)) (item_of det) g.

(** The groups in the order their keys were first used.  (An engine lists
    keys that look like array indices first; nothing below depends on the
    order of the groups.) *)
Definition groupedDetections (dets : list Prediction) : list (string * list Item) :=
  fold_left group_step dets [].

Definition sum_confidence (items : list Item) : Q :=
  fold_left (fun sum item => sum + confidence item) items 0.

Definition aggregate (items : list Item) : ClassAggregate :=
  {| count := List.length items;
     avgConfidence := sum_confidence items / inject_Z (Z.of_nat (List.length items));
     detections := items |}.

(** An element of the prediction array: a detection object, or a value
    the grouping callback raises on ([null], or a label that is truthy
    but no string and so has no [toLowerCase]). *)
Inductive Element :=
| ERaises
| EObject (det : Prediction).

(** The three shapes [outputs[0].predictions] is accepted or refused in. *)
Inductive PredictionsBlock :=
| PArray (l : list Element)
| PNested (l : list Element)
| POther.

(** What [outputs[0]] evaluates to: [null] or [undefined], or a value
    whose [predictions] property is read. *)
Inductive Output :=
| ONull
| OValue (predictions : PredictionsBlock).

(** The parsed body handed to [processDetections]: [null], or a value
    whose [outputs] property is read; [outputs] is [None] when the
    property is absent, falsy or without a truthy [length]. *)
Inductive RoboflowResponse :=
| RNull
| RValue (outputs : option (list Output)).

Record Processed := {
  totalDetections : nat;
  detectionsByClass : list (string * ClassAggregate);
  allDetections : list Prediction
}.

Definition empty_result : Processed :=
  {| totalDetections := 0; detectionsByClass := []; allDetections := [] |}.

Definition process_array (detectionsArray : list Prediction) : Processed :=
  {| totalDetections := List.length detectionsArray;
     detectionsByClass :=
       map (fun kv => (fst kv, aggregate (snd kv))) (groupedDetections detectionsArray);
     allDetections := detectionsArray |}.

(** The detection objects of an array, unless the callback raises on
    one of its elements. *)
Fixpoint objects (l : list Element) : option (list Prediction) :=
  match l with
  | [] => Some []
  | ERaises :: _ => None
  | EObject det :: r => option_map (cons det) (objects r)
  end.

(** [processDetections(roboflowResponse)].  [None] is the [TypeError]
    raised by a property access on [null] or [undefined] or by a call of
    a missing [toLowerCase]; nothing in the function catches it, the
    routes answer it with status 500. *)
Definition processDetections (r : RoboflowResponse) : option Processed :=
  match r with
  | RNull => None
  | RValue None | RValue (Some []) => Some empty_result
  | RValue (Some (ONull :: _)) => None
  | RValue (Some (OValue (PArray l) :: _)) => option_map process_array (objects l)
  | RValue (Some (OValue (PNested l) :: _)) => option_map process_array (objects l)
  | RValue (Some (OValue POther :: _)) => Some empty_result
  end.

Record Validation := {
  isComplete : bool;
  detected : list string;
  missing : list string;
  completionRate : string
}.

(** The number that [completionRate] prints. *)
Definition completion_value (n : nat) : Q :=
  inject_Z (Z.of_nat n) / inject_Z (Z.of_nat (List.length EPP_CLASSES)) * 100.

Definition validateCompletePPE (A : Type) (detectionsByClass : list (string * A))
  : Validation :=
  let detected := map fst detectionsByClass in
  let missing := filter (fun cls => negb (Js.includes detected cls)) EPP_CLASSES in
  {| isComplete := (List.length missing =? 0)%nat;
     detected := detected;
     missing := missing;
     completionRate := Js.toFixed2 (completion_value (List.length detected)) |}.

End Aggregator.

(* ================================================================== *)
(** ** The wire contract of [services/ppeService.ts] *)

Module PPEService.

Record PPEStatus := {
  casco : bool;
  lentes : bool;
  guantes : bool;
  botas : bool;
  chaleco : bool;
  camisa : bool;
  pantalon : bool;
  barbijo : bool;
  epp_completo : bool
}.

Record Detection := {
  d_class : string;
  d_confidence : Q;
  d_bbox : list Q
}.

Record BodyRegion := {
  r_name : string;
  r_bbox : list Q;
  r_keypoints : list (list Q);
  r_confidence : Q
}.

(** The response as it arrives: the interface declares [ppe_status] and
    [detections] as mandatory, but the handler tests them at run time, so
    they are optional here. *)
Record DetectionResponse := {
  ppe_status : option PPEStatus;
  detections : option (list Detection);
  is_compliant : bool;
  has_person : option bool;
  body_regions : option (list BodyRegion);
  image_width : option Z;
  image_height : option Z
}.

End PPEService.

(* ================================================================== *)
(** ** The transport: class [PPEWebSocket] *)

Module PPEWebSocket.

Import PPEService.

Inductive ReadyState := CONNECTING | OPEN | CLOSING | CLOSED.

(** What is written on the socket. *)
Inductive Frame :=
| Request (image : string) (confidence : Q)
| Ping
| Pong (timestamp : Z).

(** What the object does to the outside world. *)
Inductive Effect :=
| NewSocket
| Transmit (f : Frame)
| CloseCall (code : Z)
| SetTimeoutConnect (delay : Z).

(** The fields of the class, the reconnect timeouts that have not fired
    yet, and the effects so far (oldest first). *)
Record t := {
  ws : option ReadyState;
  reconnectAttempts : nat;
  currentDelayIndex : nat;
  heartbeatInterval : option Z;
  stableConnectionTimer : option Z;
  connectionStartTime : Z;
  isManualDisconnect : bool;
  pendingReconnects : list Z;
  trace : list Effect
}.

Definition set_ws (v : option ReadyState) (s : t) : t :=
  {| ws := v; reconnectAttempts := reconnectAttempts s;
     currentDelayIndex := currentDelayIndex s;
     heartbeatInterval := heartbeatInterval s;
     stableConnectionTimer := stableConnectionTimer s;
     connectionStartTime := connectionStartTime s;
     isManualDisconnect := isManualDisconnect s;
     pendingReconnects := pendingReconnects s; trace := trace s |}.

Definition set_reconnectAttempts (v : nat) (s : t) : t :=
  {| ws := ws s; reconnectAttempts := v;
     currentDelayIndex := currentDelayIndex s;
     heartbeatInterval := heartbeatInterval s;
     stableConnectionTimer := stableConnectionTimer s;
     connectionStartTime := connectionStartTime s;
     isManualDisconnect := isManualDisconnect s;
     pendingReconnects := pendingReconnects s; trace := trace s |}.

Definition set_currentDelayIndex (v : nat) (s : t) : t :=
  {| ws := ws s; reconnectAttempts := reconnectAttempts s;
     currentDelayIndex := v; heartbeatInterval := heartbeatInterval s;
     stableConnectionTimer := stableConnectionTimer s;
     connectionStartTime := connectionStartTime s;
     isManualDisconnect := isManualDisconnect s;
     pendingReconnects := pendingReconnects s; trace := trace s |}.

Definition set_heartbeatInterval (v : option Z) (s : t) : t :=
  {| ws := ws s; reconnectAttempts := reconnectAttempts s;
     currentDelayIndex := currentDelayIndex s; heartbeatInterval := v;
     stableConnectionTimer := stableConnectionTimer s;
     connectionStartTime := connectionStartTime s;
     isManualDisconnect := isManualDisconnect s;
     pendingReconnects := pendingReconnects s; trace := trace s |}.

Definition set_stableConnectionTimer (v : option Z) (s : t) : t :=
  {| ws := ws s; reconnectAttempts := reconnectAttempts s;
     currentDelayIndex := currentDelayIndex s;
     heartbeatInterval := heartbeatInterval s; stableConnectionTimer := v;
     connectionStartTime := connectionStartTime s;
     isManualDisconnect := isManualDisconnect s;
     pendingReconnects := pendingReconnects s; trace := trace s |}.

Definition set_connectionStartTime (v : Z) (s : t) : t :=
  {| ws := ws s; reconnectAttempts := reconnectAttempts s;
     currentDelayIndex := currentDelayIndex s;
     heartbeatInterval := heartbeatInterval s;
     stableConnectionTimer := stableConnectionTimer s;
     connectionStartTime := v; isManualDisconnect := isManualDisconnect s;
     pendingReconnects := pendingReconnects s; trace := trace s |}.

Definition set_isManualDisconnect (v : bool) (s : t) : t :=
  {| ws := ws s; reconnectAttempts := reconnectAttempts s;
     currentDelayIndex := currentDelayIndex s;
     heartbeatInterval := heartbeatInterval s;
     stableConnectionTimer := stableConnectionTimer s;
     connectionStartTime := connectionStartTime s;
     isManualDisconnect := v; pendingReconnects := pendingReconnects s;
     trace := trace s |}.

Definition set_pendingReconnects (v : list Z) (s : t) : t :=
  {| ws := ws s; reconnectAttempts := reconnectAttempts s;
     currentDelayIndex := currentDelayIndex s;
     heartbeatInterval := heartbeatInterval s;
     stableConnectionTimer := stableConnectionTimer s;
     connectionStartTime := connectionStartTime s;
     isManualDisconnect := isManualDisconnect s; pendingReconnects := v;
     trace := trace s |}.

Definition set_trace (v : list Effect) (s : t) : t :=
  {| ws := ws s; reconnectAttempts := reconnectAttempts s;
     currentDelayIndex := currentDelayIndex s;
     heartbeatInterval := heartbeatInterval s;
     stableConnectionTimer := stableConnectionTimer s;
     connectionStartTime := connectionStartTime s;
     isManualDisconnect := isManualDisconnect s;
     pendingReconnects := pendingReconnects s; trace := v |}.

Definition reconnectDelays : list Z := [2000; 5000; 10000; 30000]%Z.

Definition new : t :=
  {| ws := None; reconnectAttempts := 0; currentDelayIndex := 0;
     heartbeatInterval := None; stableConnectionTimer := None;
     connectionStartTime := 0; isManualDisconnect := false;
     pendingReconnects := []; trace := [] |}.

Definition emit (e : Effect) (s : t) : t := set_trace (trace s ++ [e]) s.

(** [connect()]: the URL is a constant, so the constructor does not throw. *)
Definition connect (s : t) : t :=
  emit NewSocket (set_ws (Some CONNECTING) (set_isManualDisconnect false s)).

Definition isConnected (s : t) : bool :=
  match ws s with Some OPEN => true | _ => false end.

Definition stopHeartbeat (s : t) : t := set_heartbeatInterval None s.

Definition startHeartbeat (s : t) : t :=
  set_heartbeatInterval (Some 30000%Z) (stopHeartbeat s).

Definition stopStableConnectionTimer (s : t) : t :=
  set_stableConnectionTimer None s.

Definition startStableConnectionTimer (s : t) : t :=
  set_stableConnectionTimer (Some (5 * 60 * 1000)%Z) (stopStableConnectionTimer s).

(** [attemptReconnect()].  An index past the ladder would read [undefined],
    which [setTimeout] takes as 0. *)
Definition attemptReconnect (s : t) : t :=
  let s1 := set_reconnectAttempts (S (reconnectAttempts s)) s in
  let delay := nth (currentDelayIndex s1) reconnectDelays 0%Z in
  let s2 :=
    if (currentDelayIndex s1 <? List.length reconnectDelays - 1)%nat
    then set_currentDelayIndex (S (currentDelayIndex s1)) s1
    else s1 in
  emit (SetTimeoutConnect delay)
       (set_pendingReconnects (pendingReconnects s2 ++ [delay]) s2).

(** [imageData.length / 1024] *)
Definition payloadKB (imageData : string) : Q :=
  inject_Z (Z.of_nat (String.length imageData)) / 1024.

(** [imageData.length / 1024 > 5000] *)
Definition tooLarge (imageData : string) : bool :=
  negb (Qle_bool (payloadKB imageData) 5000).

(** [send(imageData, confidence)]; [throws] says whether the socket's own
    [send] raises. *)
Definition send (imageData : string) (confidence : Q) (throws : bool) (s : t) : t :=
  match ws s with
  | None => if isManualDisconnect s then s else connect s
  | Some CONNECTING => s
  | Some CLOSING | Some CLOSED =>
      if isManualDisconnect s then s else connect s
  | Some OPEN =>
      if tooLarge imageData then s
      else if throws
           then (if isManualDisconnect s then s else attemptReconnect s)
           else emit (Transmit (Request imageData confidence)) s
  end.

Definition disconnect (s : t) : t :=
  let s1 := stopStableConnectionTimer (stopHeartbeat (set_isManualDisconnect true s)) in
  let s2 :=
    match ws s1 with
    | None => s1
    | Some st =>
        let s' := match st with
                  | OPEN | CONNECTING => emit (CloseCall 1000) s1
                  | _ => s1
                  end in
        set_ws None s'
    end in
  set_currentDelayIndex 0 (set_reconnectAttempts 0 s2).

Definition sendPong (now : Z) (throws : bool) (s : t) : t :=
  if isConnected s && negb throws then emit (Transmit (Pong now)) s else s.

(** A decoded incoming message, by its discriminator. *)
Inductive Incoming :=
| Unparsable
| TypeConnected
| TypeProcessing
| TypePing
| TypePong
| Result (data : DetectionResponse).

(** What the runtime delivers to the object.  [Opened] and [Closed] are
    events of the socket the object holds.  [connect()] replaces that
    socket without closing it, and the handlers of a replaced socket
    still act on the object: [StaleOpened] and [StaleClosed] are its open
    and its close (its messages and errors are handled like any other). *)
Inductive Event :=
| Opened
| Received (m : Incoming) (throws : bool)
| Errored
| Closed (code : Z)
| ReconnectDue (delay : Z)
| StableElapsed
| HeartbeatTick (throws : bool)
| StaleOpened
| StaleClosed (code : Z).

Fixpoint remove_one (d : Z) (l : list Z) : list Z :=
  match l with
  | [] => []
  | x :: r => if (x =? d)%Z then r else x :: remove_one d r
  end.

Section Handlers.

(** The owner of the socket and the four callbacks given to the
    constructor (the last three are optional). *)
Variable Host : Type.
Variable onMessageCallback : DetectionResponse -> Host -> Host.
Variable onErrorCallback : option (Host -> Host).
Variable onConnectCallback : option (Host -> Host).
Variable onDisconnectCallback : option (Host -> Host).

Definition call (f : option (Host -> Host)) (h : Host) : Host :=
  match f with Some g => g h | None => h end.

Definition onopen (now : Z) (sh : t * Host) : t * Host :=
  let s := fst sh in
  (startStableConnectionTimer (startHeartbeat (set_connectionStartTime now s)),
   call onConnectCallback (snd sh)).

Definition onmessage (now : Z) (m : Incoming) (throws : bool) (sh : t * Host)
  : t * Host :=
  match m with
  | Unparsable | TypeConnected | TypeProcessing | TypePong => sh
  | TypePing => (sendPong now throws (fst sh), snd sh)
  | Result data => (fst sh, onMessageCallback data (snd sh))
  end.

Definition onerror (sh : t * Host) : t * Host :=
  (fst sh, call onErrorCallback (snd sh)).

Definition onclose (code : Z) (sh : t * Host) : t * Host :=
  let s := stopStableConnectionTimer (stopHeartbeat (fst sh)) in
  let h := call onDisconnectCallback (snd sh) in
  (if isManualDisconnect s then s else attemptReconnect s, h).

(** The heartbeat interval fires. *)
Definition heartbeat (throws : bool) (s : t) : t :=
  match heartbeatInterval s with
  | None => s
  | Some _ =>
      if isConnected s
      then (if throws then connect s else emit (Transmit Ping) s)
      else s
  end.

(** The stable-connection timeout fires.  (The field keeps the spent
    timer id in the source; only whether the timer is pending matters.) *)
Definition stableElapsed (s : t) : t :=
  match stableConnectionTimer s with
  | None => s
  | Some _ =>
      set_stableConnectionTimer None
        (set_currentDelayIndex 0 (set_reconnectAttempts 0 s))
  end.

(** A reconnect timeout fires. *)
Definition reconnectDue (delay : Z) (s : t) : t :=
  if existsb (Z.eqb delay) (pendingReconnects s)
  then connect (set_pendingReconnects (remove_one delay (pendingReconnects s)) s)
  else s.

(** The socket the object holds moves to its next [readyState] before its
    handler runs; a replaced socket's handler finds [ws] as it is. *)
Definition handle (now : Z) (e : Event) (sh : t * Host) : t * Host :=
  let s := fst sh in
  match e with
  | Opened =>
      match ws s with
      | Some CONNECTING => onopen now (set_ws (Some OPEN) s, snd sh)
      | _ => sh
      end
  | Received m throws => onmessage now m throws sh
  | Errored => onerror sh
  | Closed code =>
      match ws s with
      | Some _ => onclose code (set_ws (Some CLOSED) s, snd sh)
      | None => onclose code sh
      end
  | ReconnectDue delay => (reconnectDue delay s, snd sh)
  | StableElapsed => (stableElapsed s, snd sh)
  | HeartbeatTick throws => (heartbeat throws s, snd sh)
  | StaleOpened => onopen now sh
  | StaleClosed code => onclose code sh
  end.

Definition run (events : list (Z * Event)) (sh : t * Host) : t * Host :=
  fold_left (fun sh ne => handle (fst ne) (snd ne) sh) events sh.

End Handlers.

(** The delays of the reconnects scheduled so far, oldest first. *)
Definition scheduled (s : t) : list Z :=
  flat_map (fun e => match e with SetTimeoutConnect d => [d] | _ => [] end)
           (trace s).

Definition isClosure (ne : Z * Event) : bool :=
  match snd ne with Closed _ | StaleClosed _ => true | _ => false end.

Definition isStableElapsed (ne : Z * Event) : bool :=
  match snd ne with StableElapsed => true | _ => false end.

(** The backoff ladder in the words of the specification: 2 s, 5 s, 10 s,
    30 s, the last value repeating. *)
Definition spec_backoff (failure : nat) : Z :=
  match failure with
  | O => 2000
  | S O => 5000
  | S (S O) => 10000
  | _ => 30000
  end%Z.

Definition spec_ladder (failures : nat) : list Z :=
  map spec_backoff (seq 0 failures).

End PPEWebSocket.
(* ================================================================== *)
(** ** The session manager: component [Dashboard] *)

Module Dashboard.

Import PPEService.

(** What the component reads from its camera configuration context and
    from the locale: the history bound, the alert settings, and the
    es-ES renderings of a date. *)
Record Config := {
  history_maxRecords : Z;
  alerts_type : string;
  alerts_volume : Q;
  alerts_repeatInterval : Z;
  toLocaleDateString : Z -> string;
  toLocaleTimeString : Z -> string
}.

Inductive Estado := Completo | Incompleto.

Record DetectionRecord := {
  id : string;
  fecha : string;
  hora : string;
  estado : Estado;
  faltantes : string;
  rec_ppeStatus : option PPEStatus
}.

(** Which scheduler armed a timeout.  The one of [startDetection] closes
    over the [isPaused] of the render in which the button was clicked; the
    one of [handleResume] reads no gate state. *)
Inductive Chain :=
| FromStart (isPaused : bool)
| FromResume.

Record Timer := {
  timer_id : nat;
  timer_delay : Z;
  timer_chain : Chain
}.

(** What the component does to its collaborators. *)
Inductive Action :=
| Capture (imageData : option string)
| AlertTrigger (type : string) (volume : Q) (repeatInterval : Z)
| AlertReset
| WindowAlert.

(** React state, refs, and the world around them (pending timeouts, the
    next timer id, the actions so far, oldest first). *)
Record Dash := {
  ppeStatus : PPEStatus;
  isDetecting : bool;
  isConnected : bool;
  detectionRecords : list DetectionRecord;
  cameraActive : bool;
  hasDetection : bool;
  detections : list Detection;
  bodyRegions : list BodyRegion;
  processedImageSize : option (Z * Z);
  isSafetyModalOpen : bool;
  isPaused : bool;
  selectedHistoricalStatus : option PPEStatus;
  wsRef : option PPEWebSocket.t;
  detectionIntervalRef : option nat;
  isProcessingRef : bool;
  lastSendTimeRef : Z;
  adaptiveIntervalRef : Z;
  latencyHistoryRef : list Z;
  pauseTimeoutRef : option nat;
  timers : list Timer;
  nextTimerId : nat;
  log : list Action
}.

Definition set_ppeStatus (v : PPEStatus) (s : Dash) : Dash :=
  {| ppeStatus := v; isDetecting := isDetecting s;
     isConnected := isConnected s; detectionRecords := detectionRecords s;
     cameraActive := cameraActive s; hasDetection := hasDetection s;
     detections := detections s; bodyRegions := bodyRegions s;
     processedImageSize := processedImageSize s;
     isSafetyModalOpen := isSafetyModalOpen s; isPaused := isPaused s;
     selectedHistoricalStatus := selectedHistoricalStatus s;
     wsRef := wsRef s; detectionIntervalRef := detectionIntervalRef s;
     isProcessingRef := isProcessingRef s;
     lastSendTimeRef := lastSendTimeRef s;
     adaptiveIntervalRef := adaptiveIntervalRef s;
     latencyHistoryRef := latencyHistoryRef s;
     pauseTimeoutRef := pauseTimeoutRef s; timers := timers s;
     nextTimerId := nextTimerId s; log := log s |}.

Definition set_isDetecting (v : bool) (s : Dash) : Dash :=
  {| ppeStatus := ppeStatus s; isDetecting := v;
     isConnected := isConnected s; detectionRecords := detectionRecords s;
     cameraActive := cameraActive s; hasDetection := hasDetection s;
     detections := detections s; bodyRegions := bodyRegions s;
     processedImageSize := processedImageSize s;
     isSafetyModalOpen := isSafetyModalOpen s; isPaused := isPaused s;
     selectedHistoricalStatus := selectedHistoricalStatus s;
     wsRef := wsRef s; detectionIntervalRef := detectionIntervalRef s;
     isProcessingRef := isProcessingRef s;
     lastSendTimeRef := lastSendTimeRef s;
     adaptiveIntervalRef := adaptiveIntervalRef s;
     latencyHistoryRef := latencyHistoryRef s;
     pauseTimeoutRef := pauseTimeoutRef s; timers := timers s;
     nextTimerId := nextTimerId s; log := log s |}.

Definition set_isConnected (v : bool) (s : Dash) : Dash :=
  {| ppeStatus := ppeStatus s; isDetecting := isDetecting s;
     isConnected := v; detectionRecords := detectionRecords s;
     cameraActive := cameraActive s; hasDetection := hasDetection s;
     detections := detections s; bodyRegions := bodyRegions s;
     processedImageSize := processedImageSize s;
     isSafetyModalOpen := isSafetyModalOpen s; isPaused := isPaused s;
     selectedHistoricalStatus := selectedHistoricalStatus s;
     wsRef := wsRef s; detectionIntervalRef := detectionIntervalRef s;
     isProcessingRef := isProcessingRef s;
     lastSendTimeRef := lastSendTimeRef s;
     adaptiveIntervalRef := adaptiveIntervalRef s;
     latencyHistoryRef := latencyHistoryRef s;
     pauseTimeoutRef := pauseTimeoutRef s; timers := timers s;
     nextTimerId := nextTimerId s; log := log s |}.

Definition set_detectionRecords (v : list DetectionRecord) (s : Dash) : Dash :=
  {| ppeStatus := ppeStatus s; isDetecting := isDetecting s;
     isConnected := isConnected s; detectionRecords := v;
     cameraActive := cameraActive s; hasDetection := hasDetection s;
     detections := detections s; bodyRegions := bodyRegions s;
     processedImageSize := processedImageSize s;
     isSafetyModalOpen := isSafetyModalOpen s; isPaused := isPaused s;
     selectedHistoricalStatus := selectedHistoricalStatus s;
     wsRef := wsRef s; detectionIntervalRef := detectionIntervalRef s;
     isProcessingRef := isProcessingRef s;
     lastSendTimeRef := lastSendTimeRef s;
     adaptiveIntervalRef := adaptiveIntervalRef s;
     latencyHistoryRef := latencyHistoryRef s;
     pauseTimeoutRef := pauseTimeoutRef s; timers := timers s;
     nextTimerId := nextTimerId s; log := log s |}.

Definition set_cameraActive (v : bool) (s : Dash) : Dash :=
  {| ppeStatus := ppeStatus s; isDetecting := isDetecting s;
     isConnected := isConnected s; detectionRecords := detectionRecords s;
     cameraActive := v; hasDetection := hasDetection s;
     detections := detections s; bodyRegions := bodyRegions s;
     processedImageSize := processedImageSize s;
     isSafetyModalOpen := isSafetyModalOpen s; isPaused := isPaused s;
     selectedHistoricalStatus := selectedHistoricalStatus s;
     wsRef := wsRef s; detectionIntervalRef := detectionIntervalRef s;
     isProcessingRef := isProcessingRef s;
     lastSendTimeRef := lastSendTimeRef s;
     adaptiveIntervalRef := adaptiveIntervalRef s;
     latencyHistoryRef := latencyHistoryRef s;
     pauseTimeoutRef := pauseTimeoutRef s; timers := timers s;
     nextTimerId := nextTimerId s; log := log s |}.

Definition set_hasDetection (v : bool) (s : Dash) : Dash :=
  {| ppeStatus := ppeStatus s; isDetecting := isDetecting s;
     isConnected := isConnected s; detectionRecords := detectionRecords s;
     cameraActive := cameraActive s; hasDetection := v;
     detections := detections s; bodyRegions := bodyRegions s;
     processedImageSize := processedImageSize s;
     isSafetyModalOpen := isSafetyModalOpen s; isPaused := isPaused s;
     selectedHistoricalStatus := selectedHistoricalStatus s;
     wsRef := wsRef s; detectionIntervalRef := detectionIntervalRef s;
     isProcessingRef := isProcessingRef s;
     lastSendTimeRef := lastSendTimeRef s;
     adaptiveIntervalRef := adaptiveIntervalRef s;
     latencyHistoryRef := latencyHistoryRef s;
     pauseTimeoutRef := pauseTimeoutRef s; timers := timers s;
     nextTimerId := nextTimerId s; log := log s |}.

Definition set_detections (v : list Detection) (s : Dash) : Dash :=
  {| ppeStatus := ppeStatus s; isDetecting := isDetecting s;
     isConnected := isConnected s; detectionRecords := detectionRecords s;
     cameraActive := cameraActive s; hasDetection := hasDetection s;
     detections := v; bodyRegions := bodyRegions s;
     processedImageSize := processedImageSize s;
     isSafetyModalOpen := isSafetyModalOpen s; isPaused := isPaused s;
     selectedHistoricalStatus := selectedHistoricalStatus s;
     wsRef := wsRef s; detectionIntervalRef := detectionIntervalRef s;
     isProcessingRef := isProcessingRef s;
     lastSendTimeRef := lastSendTimeRef s;
     adaptiveIntervalRef := adaptiveIntervalRef s;
     latencyHistoryRef := latencyHistoryRef s;
     pauseTimeoutRef := pauseTimeoutRef s; timers := timers s;
     nextTimerId := nextTimerId s; log := log s |}.

Definition set_bodyRegions (v : list BodyRegion) (s : Dash) : Dash :=
  {| ppeStatus := ppeStatus s; isDetecting := isDetecting s;
     isConnected := isConnected s; detectionRecords := detectionRecords s;
     cameraActive := cameraActive s; hasDetection := hasDetection s;
     detections := detections s; bodyRegions := v;
     processedImageSize := processedImageSize s;
     isSafetyModalOpen := isSafetyModalOpen s; isPaused := isPaused s;
     selectedHistoricalStatus := selectedHistoricalStatus s;
     wsRef := wsRef s; detectionIntervalRef := detectionIntervalRef s;
     isProcessingRef := isProcessingRef s;
     lastSendTimeRef := lastSendTimeRef s;
     adaptiveIntervalRef := adaptiveIntervalRef s;
     latencyHistoryRef := latencyHistoryRef s;
     pauseTimeoutRef := pauseTimeoutRef s; timers := timers s;
     nextTimerId := nextTimerId s; log := log s |}.

Definition set_processedImageSize (v : option (Z * Z)) (s : Dash) : Dash :=
  {| ppeStatus := ppeStatus s; isDetecting := isDetecting s;
     isConnected := isConnected s; detectionRecords := detectionRecords s;
     cameraActive := cameraActive s; hasDetection := hasDetection s;
     detections := detections s; bodyRegions := bodyRegions s;
     processedImageSize := v; isSafetyModalOpen := isSafetyModalOpen s;
     isPaused := isPaused s;
     selectedHistoricalStatus := selectedHistoricalStatus s;
     wsRef := wsRef s; detectionIntervalRef := detectionIntervalRef s;
     isProcessingRef := isProcessingRef s;
     lastSendTimeRef := lastSendTimeRef s;
     adaptiveIntervalRef := adaptiveIntervalRef s;
     latencyHistoryRef := latencyHistoryRef s;
     pauseTimeoutRef := pauseTimeoutRef s; timers := timers s;
     nextTimerId := nextTimerId s; log := log s |}.

Definition set_isSafetyModalOpen (v : bool) (s : Dash) : Dash :=
  {| ppeStatus := ppeStatus s; isDetecting := isDetecting s;
     isConnected := isConnected s; detectionRecords := detectionRecords s;
     cameraActive := cameraActive s; hasDetection := hasDetection s;
     detections := detections s; bodyRegions := bodyRegions s;
     processedImageSize := processedImageSize s; isSafetyModalOpen := v;
     isPaused := isPaused s;
     selectedHistoricalStatus := selectedHistoricalStatus s;
     wsRef := wsRef s; detectionIntervalRef := detectionIntervalRef s;
     isProcessingRef := isProcessingRef s;
     lastSendTimeRef := lastSendTimeRef s;
     adaptiveIntervalRef := adaptiveIntervalRef s;
     latencyHistoryRef := latencyHistoryRef s;
     pauseTimeoutRef := pauseTimeoutRef s; timers := timers s;
     nextTimerId := nextTimerId s; log := log s |}.

Definition set_isPaused (v : bool) (s : Dash) : Dash :=
  {| ppeStatus := ppeStatus s; isDetecting := isDetecting s;
     isConnected := isConnected s; detectionRecords := detectionRecords s;
     cameraActive := cameraActive s; hasDetection := hasDetection s;
     detections := detections s; bodyRegions := bodyRegions s;
     processedImageSize := processedImageSize s;
     isSafetyModalOpen := isSafetyModalOpen s; isPaused := v;
     selectedHistoricalStatus := selectedHistoricalStatus s;
     wsRef := wsRef s; detectionIntervalRef := detectionIntervalRef s;
     isProcessingRef := isProcessingRef s;
     lastSendTimeRef := lastSendTimeRef s;
     adaptiveIntervalRef := adaptiveIntervalRef s;
     latencyHistoryRef := latencyHistoryRef s;
     pauseTimeoutRef := pauseTimeoutRef s; timers := timers s;
     nextTimerId := nextTimerId s; log := log s |}.

Definition set_selectedHistoricalStatus (v : option PPEStatus) (s : Dash) : Dash :=
  {| ppeStatus := ppeStatus s; isDetecting := isDetecting s;
     isConnected := isConnected s; detectionRecords := detectionRecords s;
     cameraActive := cameraActive s; hasDetection := hasDetection s;
     detections := detections s; bodyRegions := bodyRegions s;
     processedImageSize := processedImageSize s;
     isSafetyModalOpen := isSafetyModalOpen s; isPaused := isPaused s;
     selectedHistoricalStatus := v; wsRef := wsRef s;
     detectionIntervalRef := detectionIntervalRef s;
     isProcessingRef := isProcessingRef s;
     lastSendTimeRef := lastSendTimeRef s;
     adaptiveIntervalRef := adaptiveIntervalRef s;
     latencyHistoryRef := latencyHistoryRef s;
     pauseTimeoutRef := pauseTimeoutRef s; timers := timers s;
     nextTimerId := nextTimerId s; log := log s |}.

Definition set_wsRef (v : option PPEWebSocket.t) (s : Dash) : Dash :=
  {| ppeStatus := ppeStatus s; isDetecting := isDetecting s;
     isConnected := isConnected s; detectionRecords := detectionRecords s;
     cameraActive := cameraActive s; hasDetection := hasDetection s;
     detections := detections s; bodyRegions := bodyRegions s;
     processedImageSize := processedImageSize s;
     isSafetyModalOpen := isSafetyModalOpen s; isPaused := isPaused s;
     selectedHistoricalStatus := selectedHistoricalStatus s; wsRef := v;
     detectionIntervalRef := detectionIntervalRef s;
     isProcessingRef := isProcessingRef s;
     lastSendTimeRef := lastSendTimeRef s;
     adaptiveIntervalRef := adaptiveIntervalRef s;
     latencyHistoryRef := latencyHistoryRef s;
     pauseTimeoutRef := pauseTimeoutRef s; timers := timers s;
     nextTimerId := nextTimerId s; log := log s |}.

Definition set_detectionIntervalRef (v : option nat) (s : Dash) : Dash :=
  {| ppeStatus := ppeStatus s; isDetecting := isDetecting s;
     isConnected := isConnected s; detectionRecords := detectionRecords s;
     cameraActive := cameraActive s; hasDetection := hasDetection s;
     detections := detections s; bodyRegions := bodyRegions s;
     processedImageSize := processedImageSize s;
     isSafetyModalOpen := isSafetyModalOpen s; isPaused := isPaused s;
     selectedHistoricalStatus := selectedHistoricalStatus s;
     wsRef := wsRef s; detectionIntervalRef := v;
     isProcessingRef := isProcessingRef s;
     lastSendTimeRef := lastSendTimeRef s;
     adaptiveIntervalRef := adaptiveIntervalRef s;
     latencyHistoryRef := latencyHistoryRef s;
     pauseTimeoutRef := pauseTimeoutRef s; timers := timers s;
     nextTimerId := nextTimerId s; log := log s |}.

Definition set_isProcessingRef (v : bool) (s : Dash) : Dash :=
  {| ppeStatus := ppeStatus s; isDetecting := isDetecting s;
     isConnected := isConnected s; detectionRecords := detectionRecords s;
     cameraActive := cameraActive s; hasDetection := hasDetection s;
     detections := detections s; bodyRegions := bodyRegions s;
     processedImageSize := processedImageSize s;
     isSafetyModalOpen := isSafetyModalOpen s; isPaused := isPaused s;
     selectedHistoricalStatus := selectedHistoricalStatus s;
     wsRef := wsRef s; detectionIntervalRef := detectionIntervalRef s;
     isProcessingRef := v; lastSendTimeRef := lastSendTimeRef s;
     adaptiveIntervalRef := adaptiveIntervalRef s;
     latencyHistoryRef := latencyHistoryRef s;
     pauseTimeoutRef := pauseTimeoutRef s; timers := timers s;
     nextTimerId := nextTimerId s; log := log s |}.

Definition set_lastSendTimeRef (v : Z) (s : Dash) : Dash :=
  {| ppeStatus := ppeStatus s; isDetecting := isDetecting s;
     isConnected := isConnected s; detectionRecords := detectionRecords s;
     cameraActive := cameraActive s; hasDetection := hasDetection s;
     detections := detections s; bodyRegions := bodyRegions s;
     processedImageSize := processedImageSize s;
     isSafetyModalOpen := isSafetyModalOpen s; isPaused := isPaused s;
     selectedHistoricalStatus := selectedHistoricalStatus s;
     wsRef := wsRef s; detectionIntervalRef := detectionIntervalRef s;
     isProcessingRef := isProcessingRef s; lastSendTimeRef := v;
     adaptiveIntervalRef := adaptiveIntervalRef s;
     latencyHistoryRef := latencyHistoryRef s;
     pauseTimeoutRef := pauseTimeoutRef s; timers := timers s;
     nextTimerId := nextTimerId s; log := log s |}.

Definition set_adaptiveIntervalRef (v : Z) (s : Dash) : Dash :=
  {| ppeStatus := ppeStatus s; isDetecting := isDetecting s;
     isConnected := isConnected s; detectionRecords := detectionRecords s;
     cameraActive := cameraActive s; hasDetection := hasDetection s;
     detections := detections s; bodyRegions := bodyRegions s;
     processedImageSize := processedImageSize s;
     isSafetyModalOpen := isSafetyModalOpen s; isPaused := isPaused s;
     selectedHistoricalStatus := selectedHistoricalStatus s;
     wsRef := wsRef s; detectionIntervalRef := detectionIntervalRef s;
     isProcessingRef := isProcessingRef s;
     lastSendTimeRef := lastSendTimeRef s; adaptiveIntervalRef := v;
     latencyHistoryRef := latencyHistoryRef s;
     pauseTimeoutRef := pauseTimeoutRef s; timers := timers s;
     nextTimerId := nextTimerId s; log := log s |}.

Definition set_latencyHistoryRef (v : list Z) (s : Dash) : Dash :=
  {| ppeStatus := ppeStatus s; isDetecting := isDetecting s;
     isConnected := isConnected s; detectionRecords := detectionRecords s;
     cameraActive := cameraActive s; hasDetection := hasDetection s;
     detections := detections s; bodyRegions := bodyRegions s;
     processedImageSize := processedImageSize s;
     isSafetyModalOpen := isSafetyModalOpen s; isPaused := isPaused s;
     selectedHistoricalStatus := selectedHistoricalStatus s;
     wsRef := wsRef s; detectionIntervalRef := detectionIntervalRef s;
     isProcessingRef := isProcessingRef s;
     lastSendTimeRef := lastSendTimeRef s;
     adaptiveIntervalRef := adaptiveIntervalRef s; latencyHistoryRef := v;
     pauseTimeoutRef := pauseTimeoutRef s; timers := timers s;
     nextTimerId := nextTimerId s; log := log s |}.

Definition set_pauseTimeoutRef (v : option nat) (s : Dash) : Dash :=
  {| ppeStatus := ppeStatus s; isDetecting := isDetecting s;
     isConnected := isConnected s; detectionRecords := detectionRecords s;
     cameraActive := cameraActive s; hasDetection := hasDetection s;
     detections := detections s; bodyRegions := bodyRegions s;
     processedImageSize := processedImageSize s;
     isSafetyModalOpen := isSafetyModalOpen s; isPaused := isPaused s;
     selectedHistoricalStatus := selectedHistoricalStatus s;
     wsRef := wsRef s; detectionIntervalRef := detectionIntervalRef s;
     isProcessingRef := isProcessingRef s;
     lastSendTimeRef := lastSendTimeRef s;
     adaptiveIntervalRef := adaptiveIntervalRef s;
     latencyHistoryRef := latencyHistoryRef s; pauseTimeoutRef := v;
     timers := timers s; nextTimerId := nextTimerId s; log := log s |}.

Definition set_timers (v : list Timer) (s : Dash) : Dash :=
  {| ppeStatus := ppeStatus s; isDetecting := isDetecting s;
     isConnected := isConnected s; detectionRecords := detectionRecords s;
     cameraActive := cameraActive s; hasDetection := hasDetection s;
     detections := detections s; bodyRegions := bodyRegions s;
     processedImageSize := processedImageSize s;
     isSafetyModalOpen := isSafetyModalOpen s; isPaused := isPaused s;
     selectedHistoricalStatus := selectedHistoricalStatus s;
     wsRef := wsRef s; detectionIntervalRef := detectionIntervalRef s;
     isProcessingRef := isProcessingRef s;
     lastSendTimeRef := lastSendTimeRef s;
     adaptiveIntervalRef := adaptiveIntervalRef s;
     latencyHistoryRef := latencyHistoryRef s;
     pauseTimeoutRef := pauseTimeoutRef s; timers := v;
     nextTimerId := nextTimerId s; log := log s |}.

Definition set_nextTimerId (v : nat) (s : Dash) : Dash :=
  {| ppeStatus := ppeStatus s; isDetecting := isDetecting s;
     isConnected := isConnected s; detectionRecords := detectionRecords s;
     cameraActive := cameraActive s; hasDetection := hasDetection s;
     detections := detections s; bodyRegions := bodyRegions s;
     processedImageSize := processedImageSize s;
     isSafetyModalOpen := isSafetyModalOpen s; isPaused := isPaused s;
     selectedHistoricalStatus := selectedHistoricalStatus s;
     wsRef := wsRef s; detectionIntervalRef := detectionIntervalRef s;
     isProcessingRef := isProcessingRef s;
     lastSendTimeRef := lastSendTimeRef s;
     adaptiveIntervalRef := adaptiveIntervalRef s;
     latencyHistoryRef := latencyHistoryRef s;
     pauseTimeoutRef := pauseTimeoutRef s; timers := timers s;
     nextTimerId := v; log := log s |}.

Definition set_log (v : list Action) (s : Dash) : Dash :=
  {| ppeStatus := ppeStatus s; isDetecting := isDetecting s;
     isConnected := isConnected s; detectionRecords := detectionRecords s;
     cameraActive := cameraActive s; hasDetection := hasDetection s;
     detections := detections s; bodyRegions := bodyRegions s;
     processedImageSize := processedImageSize s;
     isSafetyModalOpen := isSafetyModalOpen s; isPaused := isPaused s;
     selectedHistoricalStatus := selectedHistoricalStatus s;
     wsRef := wsRef s; detectionIntervalRef := detectionIntervalRef s;
     isProcessingRef := isProcessingRef s;
     lastSendTimeRef := lastSendTimeRef s;
     adaptiveIntervalRef := adaptiveIntervalRef s;
     latencyHistoryRef := latencyHistoryRef s;
     pauseTimeoutRef := pauseTimeoutRef s; timers := timers s;
     nextTimerId := nextTimerId s; log := v |}.

Definition neutralStatus : PPEStatus :=
  {| casco := false; lentes := false; guantes := false; botas := false;
     chaleco := false; camisa := false; pantalon := false; barbijo := false;
     epp_completo := false |}.

(** The state of the first render; [stored] is the history found in
    local storage, if any. *)
Definition initial (cfg : Config) (stored : option (list DetectionRecord)) : Dash :=
  {| ppeStatus := neutralStatus;
     isDetecting := false;
     isConnected := false;
     detectionRecords :=
       match stored with
       | Some parsed => Js.slice0 (history_maxRecords cfg) parsed
       | None => []
       end;
     cameraActive := false;
     hasDetection := false;
     detections := [];
     bodyRegions := [];
     processedImageSize := None;
     isSafetyModalOpen := false;
     isPaused := false;
     selectedHistoricalStatus := None;
     wsRef := None;
     detectionIntervalRef := None;
     isProcessingRef := false;
     lastSendTimeRef := 0;
     adaptiveIntervalRef := 1500;
     latencyHistoryRef := [];
     pauseTimeoutRef := None;
     timers := [];
     nextTimerId := 1;
     log := [] |}.

Definition act (a : Action) (s : Dash) : Dash := set_log (log s ++ [a]) s.

(** [Object.entries(data.ppe_status)], in the order of the interface. *)
Definition entries (p : PPEStatus) : list (string * bool) :=
  [ ("casco", casco p); ("lentes", lentes p); ("guantes", guantes p);
    ("botas", botas p); ("chaleco", chaleco p); ("camisa", camisa p);
    ("pantalon", pantalon p); ("barbijo", barbijo p);
    ("epp_completo", epp_completo p) ].

Definition labels : list (string * string) :=
  [ ("casco", "Casco"); ("lentes", "Lentes"); ("guantes", "Guantes");
    ("botas", "Botas"); ("chaleco", "Chaleco"); ("camisa", "Camisa");
    ("pantalon", "Pantalón"); ("barbijo", "Barbijo") ].

Definition faltantesArray (p : PPEStatus) : list string :=
  map (fun kv => match Js.own (fst kv) labels with
                 | Some l => l
                 | None => fst kv
                 end)
      (filter (fun kv => if String.eqb (fst kv) "epp_completo" then false
                         else negb (snd kv))
              (entries p)).

(** [crearRegistroDesdeDeteccion(data)], for a response whose [ppe_status]
    is [p]; [now] is the clock. *)
Definition crearRegistroDesdeDeteccion
  (cfg : Config) (now : Z) (data : DetectionResponse) (p : PPEStatus)
  : DetectionRecord :=
  let faltantesTexto :=
    if is_compliant data || (List.length (faltantesArray p) =? 0)%nat
    then "Ninguno"
    else Js.join ", " (faltantesArray p) in
  {| id := Js.decimal now;
     fecha := toLocaleDateString cfg now;
     hora := toLocaleTimeString cfg now;
     estado := if is_compliant data then Completo else Incompleto;
     faltantes := faltantesTexto;
     rec_ppeStatus := Some p |}.

(** [clearTimeout(id)] / [clearInterval(id)]: both take the timer out of
    the one pool of pending timers. *)
Definition clearTimeout (i : nat) (s : Dash) : Dash :=
  set_timers (filter (fun t => negb (timer_id t =? i)%nat) (timers s)) s.

(** [if (ref.current) { clearTimeout(ref.current); ref.current = null }];
    a timer id is truthy when it is not 0. *)
Definition cancelDetectionInterval (s : Dash) : Dash :=
  match detectionIntervalRef s with
  | Some i => if (i =? 0)%nat then s
              else set_detectionIntervalRef None (clearTimeout i s)
  | None => s
  end.

Definition cancelPauseTimeout (s : Dash) : Dash :=
  match pauseTimeoutRef s with
  | Some i => if (i =? 0)%nat then s
              else set_pauseTimeoutRef None (clearTimeout i s)
  | None => s
  end.

Definition sumLatency (h : list Z) : Z := fold_left Z.add h 0%Z.

(** [history.reduce((a, b) => a + b, 0) / history.length] *)
Definition avgLatency (h : list Z) : Q :=
  inject_Z (sumLatency h) / inject_Z (Z.of_nat (List.length h)).

Definition Qlt_bool (a b : Q) : bool := negb (Qle_bool b a).

(** The latency window and the interval tier (the block after the
    no-subject return of the handler). *)
Definition recordLatency (latency : Z) (s : Dash) : Dash :=
  let pushed := latencyHistoryRef s ++ [latency] in
  let history := if (10 <? List.length pushed)%nat then tl pushed else pushed in
  let s1 := set_latencyHistoryRef history s in
  if (5 <=? List.length history)%nat
  then
    if Qlt_bool (avgLatency history) 300 then set_adaptiveIntervalRef 1000 s1
    else if Qlt_bool (avgLatency history) 600 then set_adaptiveIntervalRef 1500 s1
    else set_adaptiveIntervalRef 2500 s1
  else s1.

(** The functional updater given to [setDetectionRecords]. *)
Definition prependRecord (cfg : Config) (newRecord : DetectionRecord) (s : Dash) : Dash :=
  set_detectionRecords
    (newRecord :: Js.slice0 (history_maxRecords cfg - 1) (detectionRecords s)) s.

Definition or_nil (A : Type) (o : option (list A)) : list A :=
  match o with Some l => l | None => [] end.

(** The no-subject branch: the neutral status is shown. *)
Definition showNoSubject (s : Dash) : Dash :=
  set_isProcessingRef false
    (set_isDetecting false
       (set_hasDetection false
          (set_bodyRegions []
             (set_detections []
                (set_ppeStatus neutralStatus s))))).

(** The verdict is shown: status, boxes, regions, image size, flags. *)
Definition showVerdict (data : DetectionResponse) (status : PPEStatus) (s : Dash) : Dash :=
  let s2 :=
    set_bodyRegions (or_nil (body_regions data))
      (set_detections (or_nil (PPEService.detections data))
         (set_ppeStatus status s)) in
  let s3 :=
    match image_width data, image_height data with
    | Some w, Some h =>
        if negb (w =? 0)%Z && negb (h =? 0)%Z
        then set_processedImageSize (Some (w, h)) s2
        else s2
    | _, _ => s2
    end in
  set_hasDetection (match has_person data with Some b => b | None => false end)
    (set_isProcessingRef false (set_isDetecting false s3)).

(** The [if (!data.is_compliant)] branch: alert, pause, open the modal,
    cancel the pending timeouts. *)
Definition pauseOnViolation (cfg : Config) (s : Dash) : Dash :=
  let s1 := act (AlertTrigger (alerts_type cfg) (alerts_volume cfg)
                              (alerts_repeatInterval cfg)) s in
  let s2 := set_isSafetyModalOpen true (set_isPaused true s1) in
  cancelPauseTimeout (cancelDetectionInterval s2).

Definition handleDetectionResponse
  (cfg : Config) (now : Z) (data : DetectionResponse) (s : Dash) : Dash :=
  let latency := (now - lastSendTimeRef s)%Z in
  match ppe_status data with
  | None => set_isProcessingRef false (set_isDetecting false s)
  | Some status =>
      match has_person data with
      | Some false => showNoSubject s
      | _ =>
          let s1 := showVerdict data status (recordLatency latency s) in
          let newRecord := crearRegistroDesdeDeteccion cfg now data status in
          let s2 := prependRecord cfg newRecord (prependRecord cfg newRecord s1) in
          if negb (is_compliant data)
          then pauseOnViolation cfg s2
          else act AlertReset s2
      end
  end.

(** What a timer callback or a click observes: the clock, the camera
    ([None]: the ref is null; [Some r]: [handleCapture()] returns [r]),
    and whether the socket's own [send] raises. *)
Record Env := {
  now : Z;
  cameraFeed : option (option string);
  sendThrows : bool
}.

Definition cameraMounted (env : Env) : bool :=
  match cameraFeed env with Some _ => true | None => false end.

(** [wsRef.current?.isConnected()] *)
Definition wsConnected (s : Dash) : bool :=
  match wsRef s with
  | Some w => PPEWebSocket.isConnected w
  | None => false
  end.

(** [wsRef.current.send(imageData, 0.3)] *)
Definition wsSend (imageData : string) (env : Env) (s : Dash) : Dash :=
  match wsRef s with
  | Some w => set_wsRef (Some (PPEWebSocket.send imageData (3 # 10) (sendThrows env) w)) s
  | None => s
  end.

(** [detectionIntervalRef.current = window.setTimeout(callback,
    adaptiveIntervalRef.current)] *)
Definition scheduleNextDetection (c : Chain) (s : Dash) : Dash :=
  let i := nextTimerId s in
  set_detectionIntervalRef (Some i)
    (set_nextTimerId (S i)
       (set_timers
          (timers s ++ [ {| timer_id := i;
                            timer_delay := adaptiveIntervalRef s;
                            timer_chain := c |} ]) s)).

(** The [if (!isProcessingRef.current) { ... }] block, the same in both
    schedulers. *)
Definition captureAndSend (env : Env) (s : Dash) : Dash :=
  if isProcessingRef s then s
  else
    let s1 := set_lastSendTimeRef (now env)
                (set_isDetecting true (set_isProcessingRef true s)) in
    let imageData := match cameraFeed env with Some r => r | None => None end in
    let s2 := act (Capture imageData) s1 in
    match imageData with
    | Some img =>
        if Js.truthy_string img then wsSend img env s2
        else set_isDetecting false (set_isProcessingRef false s2)
    | None => set_isDetecting false (set_isProcessingRef false s2)
    end.

(** The timeout callback armed by [startDetection]; [paused] is the
    [isPaused] its closure captured. *)
Definition startCallback (paused : bool) (env : Env) (s : Dash) : Dash :=
  if negb (cameraMounted env) || negb (wsConnected s) || paused then s
  else
    let s1 := captureAndSend env s in
    if negb paused then scheduleNextDetection (FromStart paused) s1 else s1.

(** The timeout callback armed by [handleResume]. *)
Definition resumeCallback (env : Env) (s : Dash) : Dash :=
  if negb (cameraMounted env) || negb (wsConnected s) then s
  else scheduleNextDetection FromResume (captureAndSend env s).

Definition startDetection (env : Env) (s : Dash) : Dash :=
  if negb (cameraMounted env) || negb (wsConnected s) then act WindowAlert s
  else scheduleNextDetection (FromStart (isPaused s)) (set_cameraActive true s).

Definition handleResume (env : Env) (s : Dash) : Dash :=
  let s1 := set_isSafetyModalOpen false (set_isPaused false s) in
  let s2 := if negb (cameraActive s) then set_cameraActive true s1 else s1 in
  if cameraMounted env && wsConnected s2
  then scheduleNextDetection FromResume s2
  else s2.

Definition stopDetection (s : Dash) : Dash :=
  let s1 := set_isPaused false (set_cameraActive false s) in
  let s2 := match detectionIntervalRef s1 with
            | Some i => if (i =? 0)%nat then s1
                        else set_detectionIntervalRef None (clearTimeout i s1)
            | None => s1
            end in
  set_adaptiveIntervalRef 1500
    (set_latencyHistoryRef []
       (set_isProcessingRef false (set_isDetecting false s2))).

Definition handleRefresh (s : Dash) : Dash := stopDetection s.

Definition handleOpenSafetyModal (historical : option PPEStatus) (s : Dash) : Dash :=
  let s1 := match historical with
            | Some p => set_selectedHistoricalStatus (Some p) s
            | None => s
            end in
  set_isSafetyModalOpen true s1.

Definition handleCloseSafetyModal (s : Dash) : Dash :=
  set_selectedHistoricalStatus None (set_isSafetyModalOpen false s).

Definition clearHistory (s : Dash) : Dash := set_detectionRecords [] s.

(** A pending timeout fires: it leaves the pool and its callback runs. *)
Definition fire (i : nat) (env : Env) (s : Dash) : Dash :=
  match find (fun t => (timer_id t =? i)%nat) (timers s) with
  | None => s
  | Some t =>
      let s1 := clearTimeout i s in
      match timer_chain t with
      | FromStart paused => startCallback paused env s1
      | FromResume => resumeCallback env s1
      end
  end.

(** A socket event reaches the object in [wsRef], whose callbacks are the
    ones the mount effect passed to the constructor. *)
Definition socketEvent (cfg : Config) (now : Z) (e : PPEWebSocket.Event) (s : Dash) : Dash :=
  match wsRef s with
  | None => s
  | Some w =>
      let r := PPEWebSocket.handle
                 (handleDetectionResponse cfg now)
                 (Some (set_isConnected false))
                 (Some (set_isConnected true))
                 (Some (set_isConnected false))
                 now e (w, s) in
      set_wsRef (Some (fst r)) (snd r)
  end.

(** Everything that can happen to a mounted component. *)
Inductive Event :=
| InitTimeout
| ClickMain (env : Env)
| ClickModalResume (env : Env)
| ClickModalClose
| ClickViewRisks (historical : PPEStatus)
| ClickRefresh
| TimerFires (i : nat) (env : Env)
| Socket (now : Z) (e : PPEWebSocket.Event)
| ClearHistory.

(** The events as the rendered tree dispatches them: the main button is
    disabled while disconnected and bound to resume / stop / start by
    [isPaused] and [cameraActive]; the modal's buttons exist only while it
    is open, and its resume button only while paused. *)
Definition step (cfg : Config) (e : Event) (s : Dash) : Dash :=
  match e with
  | InitTimeout =>
      match wsRef s with
      | None => set_wsRef (Some (PPEWebSocket.connect PPEWebSocket.new)) s
      | Some _ => s
      end
  | ClickMain env =>
      if negb (isConnected s) then s
      else if isPaused s then handleResume env s
      else if cameraActive s then stopDetection s
      else startDetection env s
  | ClickModalResume env =>
      if isSafetyModalOpen s && isPaused s then handleResume env s else s
  | ClickModalClose =>
      if isSafetyModalOpen s then handleCloseSafetyModal s else s
  | ClickViewRisks historical => handleOpenSafetyModal (Some historical) s
  | ClickRefresh => handleRefresh s
  | TimerFires i env => fire i env s
  | Socket now e => socketEvent cfg now e s
  | ClearHistory => clearHistory s
  end.

Definition run (cfg : Config) (evs : list Event) (s : Dash) : Dash :=
  fold_left (fun s e => step cfg e s) evs s.

(** The frames handed to [handleCapture], and the detection requests
    written on the socket. *)
Definition isCapture (a : Action) : bool :=
  match a with Capture _ => true | _ => false end.

Definition captures (s : Dash) : list Action := filter isCapture (log s).

Definition isRequest (e : PPEWebSocket.Effect) : bool :=
  match e with
  | PPEWebSocket.Transmit (PPEWebSocket.Request _ _) => true
  | _ => false
  end.

Definition requests (s : Dash) : list PPEWebSocket.Effect :=
  match wsRef s with
  | Some w => filter isRequest (PPEWebSocket.trace w)
  | None => []
  end.

(** The latency policy in the words of the specification: the window is
    the 10 most recent samples; below 5 samples the interval is the
    default, from 5 on it is the tier of the window's mean.  The mean is
    the sum of the window over its size; it is below a bound exactly when
    the sum is below the bound times the size. *)
Definition spec_window (samples : list Z) : list Z :=
  skipn (List.length samples - 10) samples.

Fixpoint spec_sum (w : list Z) : Z :=
  match w with
  | [] => 0
  | x :: r => x + spec_sum r
  end%Z.

Definition spec_mean (w : list Z) : Q :=
  spec_sum w # Pos.of_nat (List.length w).

Definition spec_below (w : list Z) (bound : Z) : bool :=
  (spec_sum w <? bound * Z.of_nat (List.length w))%Z.

Definition spec_interval (samples : list Z) : Z :=
  if (List.length samples <? 5)%nat then 1500%Z
  else
    let w := spec_window samples in
    if spec_below w 300 then 1000%Z
    else if spec_below w 600 then 1500%Z
    else 2500%Z.

(** The round trips of a run of verdicts, oldest first, recorded in turn. *)
Definition feed (samples : list Z) (s : Dash) : Dash :=
  fold_left (fun s latency => recordLatency latency s) samples s.

(** The events that take the gate out of a pause: the two resume buttons
    and the refresh button, which stops the session. *)
Definition leavesPause (e : Event) : bool :=
  match e with
  | ClickMain _ | ClickModalResume _ | ClickRefresh => true
  | _ => false
  end.

(** What the latency refs satisfy throughout a session: a window of at
    most 10 samples, one of the three intervals, and the default interval
    as long as the window holds fewer than 5 samples. *)
Definition latencyPolicy (s : Dash) : Prop :=
  (List.length (latencyHistoryRef s) <= 10)%nat
  /\ In (adaptiveIntervalRef s) [1000; 1500; 2500]%Z
  /\ ((List.length (latencyHistoryRef s) < 5)%nat -> adaptiveIntervalRef s = 1500%Z).

(** The part of the state the scheduler and the gate share. *)
Record Sched := {
  sched_next : nat;
  sched_pauseTimeout : option nat;
  sched_timers : list Timer;
  sched_ref : option nat;
  sched_paused : bool;
  sched_active : bool
}.

Definition sched (s : Dash) : Sched :=
  {| sched_next := nextTimerId s;
     sched_pauseTimeout := pauseTimeoutRef s;
     sched_timers := timers s;
     sched_ref := detectionIntervalRef s;
     sched_paused := isPaused s;
     sched_active := cameraActive s |}.

(** The pending timeout is the one [detectionIntervalRef] holds. *)
Definition tracked (c : Sched) : Prop :=
  exists t, sched_timers c = [t]
            /\ sched_ref c = Some (timer_id t)
            /\ (1 <= timer_id t)%nat.

(** The invariant of the scheduler: timer ids start at 1, the pause
    timeout is never armed, and either no capture is pending, or exactly
    one is, it is the tracked one, the gate is not paused and the session
    is active. *)
Definition invariant (c : Sched) : Prop :=
  (1 <= sched_next c)%nat
  /\ sched_pauseTimeout c = None
  /\ (sched_timers c = []
      \/ (tracked c /\ sched_paused c = false /\ sched_active c = true)).

End Dashboard.

(* ================================================================== *)
(** ** Notions used to describe the aggregation *)

Module Grouping.

Import Aggregator.

(** A well-formed group: not empty, and every member normalises to the
    group's key. *)
Definition groupOf (kv : string * list Item) : Prop :=
  snd kv <> []
  /\ Forall (fun it => propertyKey (className_of (originalClass it)) = fst kv) (snd kv).

(** The same for an aggregate of [detectionsByClass], whose count must be
    the number of its members. *)
Definition aggregateOf (kv : string * ClassAggregate) : Prop :=
  count (snd kv) = List.length (detections (snd kv))
  /\ (1 <= count (snd kv))%nat
  /\ Forall (fun it => propertyKey (className_of (originalClass it)) = fst kv)
            (detections (snd kv)).

(** The detections that count for a class: those whose lower-cased label
    the table maps to it. *)
Definition countsFor (c : string) (det : Prediction) : Prop :=
  Js.own (originalClass_of det) CLASS_MAPPING = Some c.

End Grouping.

(* ================================================================== *)
(** ** The legacy adapter of [services/orchestrationService.ts] *)

Module Orchestration.

(** The result the orchestrated endpoint returns for the equipment:
    the microservice's aggregation and its validation block. *)
Record PPEResult := {
  totalDetections : nat;
  detectionsByClass : list (string * Aggregator.ClassAggregate);
  allDetections : list Aggregator.Prediction;
  validation : Aggregator.Validation
}.

(** The object literal [convertToLegacyFormat] returns. *)
Record Legacy := {
  ppe_status : PPEService.PPEStatus;
  is_compliant : bool;
  has_person : bool
}.

Definition convertToLegacyFormat (ppeResult : PPEResult) : Legacy :=
  let detected := Aggregator.detected (validation ppeResult) in
  {| ppe_status :=
       {| PPEService.casco := Js.includes detected "casco";
          PPEService.lentes := Js.includes detected "lentes";
          PPEService.guantes := Js.includes detected "guantes";
          PPEService.botas := Js.includes detected "botas";
          PPEService.chaleco := Js.includes detected "chaleco";
          PPEService.camisa := Js.includes detected "camisa_jean";
          PPEService.pantalon := Js.includes detected "pantalon";
          PPEService.barbijo := Js.includes detected "barbijo";
          PPEService.epp_completo := Aggregator.isComplete (validation ppeResult) |};
     is_compliant := Aggregator.isComplete (validation ppeResult);
     has_person := true |}.

Definition getPPEStatusColor (isComplete : bool) : string :=
  if isComplete then "#10b981" else "#ef4444".

Definition getPPEStatusMessage (v : Aggregator.Validation) : string :=
  if Aggregator.isComplete v then "EPP Completo - Trabajador seguro"
  else "Faltan: " ++ Js.join ", " (Aggregator.missing v).

End Orchestration.

(* ================================================================== *)
(** ** What the views derive from a status *)

Module Views.

Import PPEService.

(** *** [utils/ppeNorms.ts] *)

Record PPENorm := {
  key : string;
  label : string;
  norm : string;
  warning : string;
  risk : string;
  action : string
}.

Definition PPE_NORMS : list (string * PPENorm) :=
[ ("casco",
   {| key := "casco";
      label := "Casco de Seguridad";
      norm := "ANSI Z89.1";
      warning := "Falta casco: riesgo de impacto en la cabeza.";
      risk := "Lesiones graves en el cráneo por caída de objetos, golpes o impactos.";
      action := "Usar casco tipo I o II certificado ANSI, ajustado correctamente." |});
  ("lentes",
   {| key := "lentes";
      label := "Lentes de Seguridad";
      norm := "ANSI Z87.1";
      warning := "Falta lentes: riesgo de lesión ocular.";
      risk := "Daño ocular permanente por partículas, químicos o radiación.";
      action := "Usar lentes de seguridad con protección lateral certificados ANSI Z87.1." |});
  ("guantes",
   {| key := "guantes";
      label := "Guantes de Trabajo";
      norm := "ANSI/ISEA 105";
      warning := "Falta guantes: riesgo de corte o abrasión.";
      risk := "Cortes, abrasiones, quemaduras o contacto con sustancias peligrosas.";
      action := "Usar guantes nivel 3+ según tipo de trabajo (corte, químico, térmico)." |});
  ("botas",
   {| key := "botas";
      label := "Botas de Seguridad";
      norm := "ASTM F2413 / ISO 20345";
      warning := "Falta botas: riesgo de golpes y resbalones.";
      risk := "Fracturas en dedos, resbalones, descargas eléctricas o perforaciones.";
      action := "Usar botas con puntera de acero/composite y suela antideslizante." |});
  ("camisa",
   {| key := "camisa";
      label := "Camisa de Jean";
      norm := "OSHA 29 CFR 1910.132";
      warning := "Falta camisa adecuada: ropa no segura.";
      risk := "Quemaduras, abrasiones o enganche en maquinaria móvil.";
      action := "Usar camisa de jean manga larga, ajustada y resistente." |});
  ("pantalon",
   {| key := "pantalon";
      label := "Pantalón Jean";
      norm := "OSHA 29 CFR 1910.132";
      warning := "Falta pantalón industrial: riesgo por ropa inadecuada.";
      risk := "Cortes, abrasiones o enganche en equipos industriales.";
      action := "Usar pantalón jean industrial resistente, sin roturas ni partes sueltas." |});
  ("barbijo",
   {| key := "barbijo";
      label := "Mascarilla / Tapabocas";
      norm := "NIOSH 42 CFR 84 / OSHA 1910.134";
      warning := "Falta mascarilla: riesgo de inhalación de polvo.";
      risk := "Enfermedades respiratorias por inhalación de polvo, humo o contaminantes.";
      action := "Usar mascarilla N95 o superior certificada NIOSH, ajustada al rostro." |});
  ("chaleco",
   {| key := "chaleco";
      label := "Chaleco de Seguridad";
      norm := "ANSI/ISEA 107";
      warning := "Falta chaleco: baja visibilidad en zona de trabajo.";
      risk := "Atropellamiento o accidente por baja visibilidad en áreas de tráfico.";
      action := "Usar chaleco reflectivo clase 2 o 3 con material fluorescente." |});
  ("epp_completo",
   {| key := "epp_completo";
      label := "EPP Completo";
      norm := "Conjunto Completo";
      warning := "EPP completo no detectado.";
      risk := "Protección incompleta contra riesgos laborales.";
      action := "Verificar que todos los elementos de EPP estén presentes y correctamente utilizados." |}) ].

(** [getMissingPPENorms(ppeStatus)], on the status objects its callers
    pass; a key without a norm would be dropped by [filter(Boolean)]. *)
Definition getMissingPPENorms (ppeStatus : PPEStatus) : list PPENorm :=
  flat_map (fun kv => match Js.own (fst kv) PPE_NORMS with
                      | Some n => [n]
                      | None => []
                      end)
           (filter (fun kv => negb (snd kv)
                              && negb (String.eqb (fst kv) "epp_completo"))
                   (Dashboard.entries ppeStatus)).

(** *** [components/StatusPanel.tsx] *)

Definition panelIsCompliant (ppeStatus : PPEStatus) : bool :=
  forallb (fun kv => if String.eqb (fst kv) "epp_completo" then true else snd kv)
          (Dashboard.entries ppeStatus).

Definition panelMissingItems (ppeStatus : PPEStatus) : nat :=
  List.length
    (filter (fun kv => if String.eqb (fst kv) "epp_completo" then false
                       else negb (snd kv))
            (Dashboard.entries ppeStatus)).

(** The header turns red. *)
Definition panelAlarm (ppeStatus : PPEStatus) (hasDetection : bool) : bool :=
  hasDetection && negb (panelIsCompliant ppeStatus).

(** *** [components/SafetyModal.tsx] *)

(** The modal shows its "EPP Completo" block. *)
Definition modalShowsComplete (ppeStatus : PPEStatus) : bool :=
  (List.length (getMissingPPENorms ppeStatus) =? 0)%nat.

(** *** [components/DetectionHistory.tsx] *)

Definition getEstado (record : Dashboard.DetectionRecord) : Dashboard.Estado :=
  match Dashboard.rec_ppeStatus record with
  | Some p => if epp_completo p then Dashboard.Completo else Dashboard.Incompleto
  | None => Dashboard.estado record
  end.

Definition faltantesOf (s : PPEStatus) : list string :=
  (if casco s then [] else ["casco"])
  ++ (if lentes s then [] else ["lentes"])
  ++ (if guantes s then [] else ["guantes"])
  ++ (if botas s then [] else ["botas"])
  ++ (if chaleco s then [] else ["chaleco"])
  ++ (if camisa s then [] else ["camisa"])
  ++ (if pantalon s then [] else ["pantalón"])
  ++ (if barbijo s then [] else ["barbijo"]).

Definition getFaltantes (record : Dashboard.DetectionRecord) : string :=
  match Dashboard.rec_ppeStatus record with
  | None =>
      if Js.truthy_string (Dashboard.faltantes record)
      then Dashboard.faltantes record else "—"
  | Some s =>
      if (0 <? List.length (faltantesOf s))%nat
      then Js.join ", " (faltantesOf s)
      else "Ninguno"
  end.

(** The row offers its "Ver riesgos" button (the dashboard always passes
    [onViewRisks]). *)
Definition offersViewRisks (record : Dashboard.DetectionRecord) : bool :=
  match getEstado record, Dashboard.rec_ppeStatus record with
  | Dashboard.Incompleto, Some _ => true
  | _, _ => false
  end.

(** *** The banner data of [components/Dashboard.tsx] *)

(** [missingItems]: the labels of the undetected items, while a person
    is detected. *)
Definition missingItems (s : Dashboard.Dash) : list (option string) :=
  if Dashboard.hasDetection s
  then map (fun kv => Js.own (fst kv) Dashboard.labels)
           (filter (fun kv => if String.eqb (fst kv) "epp_completo" then false
                              else negb (snd kv))
                   (Dashboard.entries (Dashboard.ppeStatus s)))
  else [].


End Views.

(* ================================================================== *)
(** ** A client of the transport *)

Module PPEClient.

Import PPEWebSocket.

(** What a holder of the object can make happen: an event is delivered,
    or one of the three public methods is called. *)
Inductive Call :=
| Deliver (now : Z) (e : Event)
| Connect
| Send (imageData : string) (confidence : Q) (throws : bool)
| Disconnect.

Section Calls.

Variable Host : Type.
Variable onMessageCallback : PPEService.DetectionResponse -> Host -> Host.
Variable onErrorCallback : option (Host -> Host).
Variable onConnectCallback : option (Host -> Host).
Variable onDisconnectCallback : option (Host -> Host).

Definition exec (c : Call) (sh : t * Host) : t * Host :=
  match c with
  | Deliver now e =>
      handle onMessageCallback onErrorCallback onConnectCallback
             onDisconnectCallback now e sh
  | Connect => (connect (fst sh), snd sh)
  | Send imageData confidence throws =>
      (send imageData confidence throws (fst sh), snd sh)
  | Disconnect => (disconnect (fst sh), snd sh)
  end.

Definition session (calls : list Call) (sh : t * Host) : t * Host :=
  fold_left (fun sh c => exec c sh) calls sh.

End Calls.

(** An effect the class is meant to produce: a reconnect after one of
    the four ladder delays, a detection request within the size limit. *)
Definition wellFormed (e : Effect) : Prop :=
  match e with
  | SetTimeoutConnect d => In d reconnectDelays
  | Transmit (Request imageData _) => tooLarge imageData = false
  | _ => True
  end.

(** The effects added between two states of the object. *)
Definition added (before after : t) : list Effect :=
  skipn (List.length (trace before)) (trace after).

Definition isTransmit (e : Effect) : bool :=
  match e with Transmit _ => true | _ => false end.

(** The effects of one call: at most one, and a frame only on a socket
    that was open. *)
Definition quiet (s s' : t) : Prop :=
  exists fx, trace s' = trace s ++ fx
             /\ (List.length fx <= 1)%nat
             /\ (isConnected s = false -> filter isTransmit fx = []).

(** The detection results among the messages delivered, oldest first. *)
Definition results (calls : list Call) : list PPEService.DetectionResponse :=
  flat_map (fun c => match c with
                     | Deliver _ (Received (Result data) _) => [data]
                     | _ => []
                     end) calls.

(** The invariant of the backoff state and of the effects. *)
Definition sound (s : t) : Prop :=
  (currentDelayIndex s <= 3)%nat
  /\ (currentDelayIndex s <= reconnectAttempts s)%nat
  /\ Forall wellFormed (trace s).

End PPEClient.

(* ================================================================== *)
(** ** Observations on a session of the dashboard *)

Module SessionLog.

Import Dashboard.

Definition isTimerFires (e : Event) : bool :=
  match e with TimerFires _ _ => true | _ => false end.

(** The events that can arm the scheduler: the main button and the
    modal's resume button. *)
Definition arms (e : Event) : bool :=
  match e with
  | ClickMain _ | ClickModalResume _ => true
  | _ => false
  end.

(** A verdict that pauses the gate. *)
Definition isViolation (data : PPEService.DetectionResponse) : bool :=
  match PPEService.ppe_status data, PPEService.has_person data with
  | None, _ => false
  | Some _, Some false => false
  | Some _, _ => negb (PPEService.is_compliant data)
  end.

Definition deliversViolation (e : Event) : bool :=
  match e with
  | Socket _ (PPEWebSocket.Received (PPEWebSocket.Result data) _) => isViolation data
  | _ => false
  end.

(** What [handleCapture()] returned to a timer callback. *)
Definition shot (env : Env) : option string :=
  match cameraFeed env with Some r => r | None => None end.

(** The number of timeouts that fired. *)
Definition firings (evs : list Event) : nat :=
  List.length (filter isTimerFires evs).

(** The callback of a pending timeout reads no paused gate: it was armed
    by the resume scheduler, or by the start scheduler in a render whose
    [isPaused] was false. *)
Definition closureUnpaused (t : Timer) : Prop :=
  timer_chain t <> FromStart true.

(** The timeout a callback arms when it fires in state [s]. *)
Definition rearmed (t : Timer) (s : Dash) : Timer :=
  {| timer_id := nextTimerId s;
     timer_delay := adaptiveIntervalRef s;
     timer_chain := timer_chain t |}.

(** A detection result is delivered, whatever it says. *)
Definition deliversResult (e : Event) : bool :=
  match e with
  | Socket _ (PPEWebSocket.Received (PPEWebSocket.Result _) _) => true
  | _ => false
  end.


End SessionLog.

(* ================================================================== *)
(** ** Concrete inputs used by the examples below *)

Module Samples.

Definition prediction (label : string) (conf : Q) : Aggregator.Prediction :=
  {| Aggregator.p_class := Some label;
     Aggregator.p_class_name := None;
     Aggregator.p_confidence := conf;
     Aggregator.p_x := 10; Aggregator.p_y := 20;
     Aggregator.p_width := 30; Aggregator.p_height := 40 |}.

(** A frame with one helmet and one label the table does not know. *)
Definition helmet_and_person : list Aggregator.Prediction :=
  [ prediction "Helmet" (9 # 10); prediction "Person" (8 # 10) ].

(** A frame that shows a person wearing the eight required items. *)
Definition full_kit_and_person : list Aggregator.Prediction :=
  [ prediction "Helmet" (9 # 10); prediction "Person" (8 # 10);
    prediction "Glasses" (7 # 10); prediction "Gloves" (6 # 10);
    prediction "Gloves" (5 # 10); prediction "Boots" (9 # 10);
    prediction "Vest" (8 # 10); prediction "Shirt" (7 # 10);
    prediction "Pants" (6 # 10); prediction "Mask" (9 # 10) ].

Definition roboflow (l : list Aggregator.Prediction) : Aggregator.RoboflowResponse :=
  Aggregator.RValue
    (Some [Aggregator.OValue (Aggregator.PArray (map Aggregator.EObject l))]).

(** A socket that was just created, and the same socket once open. *)
Definition connecting : PPEWebSocket.t := PPEWebSocket.connect PPEWebSocket.new.

Definition noCallback : PPEService.DetectionResponse -> unit -> unit :=
  fun _ h => h.

Definition opened : PPEWebSocket.t :=
  fst (PPEWebSocket.handle noCallback None None None 0 PPEWebSocket.Opened
         (connecting, tt)).

(** Three abnormal closures, each followed by the retry it scheduled. *)
Definition three_closures : list (Z * PPEWebSocket.Event) :=
  [ (100, PPEWebSocket.Closed 1006); (2100, PPEWebSocket.ReconnectDue 2000);
    (2200, PPEWebSocket.Closed 1006); (7200, PPEWebSocket.ReconnectDue 5000);
    (7300, PPEWebSocket.Closed 1006) ]%Z.

(** The socket of the retry that follows these three closures. *)
Definition third_retry : PPEWebSocket.t :=
  fst (PPEWebSocket.run noCallback None None None
         (three_closures ++ [ (17300, PPEWebSocket.ReconnectDue 10000) ]%Z)
         (connecting, tt)).

(** Traffic on an open socket before and after its fifth minute. *)
Definition early_traffic : list (Z * PPEWebSocket.Event) :=
  [ (18000, PPEWebSocket.Received PPEWebSocket.TypePing false);
    (47400, PPEWebSocket.HeartbeatTick false);
    (50000, PPEWebSocket.Errored);
    (77400, PPEWebSocket.HeartbeatTick true) ]%Z.

Definition late_traffic : list (Z * PPEWebSocket.Event) :=
  [ (320000, PPEWebSocket.Received PPEWebSocket.TypePong false);
    (347400, PPEWebSocket.HeartbeatTick false) ]%Z.

(** A session: configuration, environment, verdicts, event traces. *)
Definition config : Dashboard.Config :=
  {| Dashboard.history_maxRecords := 50;
     Dashboard.alerts_type := "sound";
     Dashboard.alerts_volume := 1;
     Dashboard.alerts_repeatInterval := 5000;
     Dashboard.toLocaleDateString := fun _ => "2/11/2026";
     Dashboard.toLocaleTimeString := fun _ => "10:00:00" |}.

Definition env (now : Z) : Dashboard.Env :=
  {| Dashboard.now := now;
     Dashboard.cameraFeed := Some (Some "frame");
     Dashboard.sendThrows := false |}.

Definition allPresent : PPEService.PPEStatus :=
  {| PPEService.casco := true; PPEService.lentes := true;
     PPEService.guantes := true; PPEService.botas := true;
     PPEService.chaleco := true; PPEService.camisa := true;
     PPEService.pantalon := true; PPEService.barbijo := true;
     PPEService.epp_completo := true |}.

Definition noGlasses : PPEService.PPEStatus :=
  {| PPEService.casco := true; PPEService.lentes := false;
     PPEService.guantes := true; PPEService.botas := true;
     PPEService.chaleco := true; PPEService.camisa := true;
     PPEService.pantalon := true; PPEService.barbijo := true;
     PPEService.epp_completo := false |}.

Definition verdict (status : PPEService.PPEStatus) (compliant : bool)
                   (person : option bool) : PPEService.DetectionResponse :=
  {| PPEService.ppe_status := Some status;
     PPEService.detections := Some [];
     PPEService.is_compliant := compliant;
     PPEService.has_person := person;
     PPEService.body_regions := None;
     PPEService.image_width := Some 640%Z;
     PPEService.image_height := Some 480%Z |}.

Definition compliant : PPEService.DetectionResponse :=
  verdict allPresent true (Some true).

Definition violation : PPEService.DetectionResponse :=
  verdict noGlasses false (Some true).


Definition received (now : Z) (data : PPEService.DetectionResponse) : Dashboard.Event :=
  Dashboard.Socket now (PPEWebSocket.Received (PPEWebSocket.Result data) false).

(** Mount, connect, start. *)
Definition started : list Dashboard.Event :=
  [ Dashboard.InitTimeout;
    Dashboard.Socket 600 PPEWebSocket.Opened;
    Dashboard.ClickMain (env 1000) ].

(** One capture, answered by a violation: the gate pauses. *)
Definition toPause : list Dashboard.Event :=
  started ++ [ Dashboard.TimerFires 1 (env 2500); received 2700 violation ].

(** Five fast compliant round trips (200 ms each), then a violation. *)
Definition fastThenPause : list Dashboard.Event :=
  started
  ++ [ Dashboard.TimerFires 1 (env 2500); received 2700 compliant;
       Dashboard.TimerFires 2 (env 4000); received 4200 compliant;
       Dashboard.TimerFires 3 (env 5500); received 5700 compliant;
       Dashboard.TimerFires 4 (env 7000); received 7200 compliant;
       Dashboard.TimerFires 5 (env 8500); received 8700 compliant;
       Dashboard.TimerFires 6 (env 9500); received 9700 violation ].

(** After the pause: refresh (stop), start again, and the timeout fires;
    no resume button is used. *)
Definition pauseStopStart : list Dashboard.Event :=
  toPause ++ [ Dashboard.ClickRefresh;
               Dashboard.ClickMain (env 20000);
               Dashboard.TimerFires 3 (env 21500) ].

Definition fresh : Dashboard.Dash := Dashboard.initial config None.

Definition paused : Dashboard.Dash := Dashboard.run config toPause fresh.

(** An orchestrated result built from the sample frame. *)
Definition ppeResult : Orchestration.PPEResult :=
  let p := Aggregator.process_array helmet_and_person in
  {| Orchestration.totalDetections := Aggregator.totalDetections p;
     Orchestration.detectionsByClass := Aggregator.detectionsByClass p;
     Orchestration.allDetections := Aggregator.allDetections p;
     Orchestration.validation :=
       Aggregator.validateCompletePPE (Aggregator.detectionsByClass p) |}.

(** An owner that keeps the results it is handed, oldest first. *)
Definition collect
  : PPEService.DetectionResponse -> list PPEService.DetectionResponse
    -> list PPEService.DetectionResponse :=
  fun data h => h ++ [data].

(** A use of the client: connect, open, send a frame, receive a ping and
    a result, lose the connection, retry, disconnect. *)
Definition calls : list PPEClient.Call :=
  [ PPEClient.Connect;
    PPEClient.Deliver 0 PPEWebSocket.Opened;
    PPEClient.Send "frame" (3 # 10) false;
    PPEClient.Deliver 50 (PPEWebSocket.Received PPEWebSocket.TypePing false);
    PPEClient.Deliver 200 (PPEWebSocket.Received (PPEWebSocket.Result violation) false);
    PPEClient.Deliver 300 (PPEWebSocket.Closed 1006);
    PPEClient.Deliver 2300 (PPEWebSocket.ReconnectDue 2000);
    PPEClient.Deliver 2400 (PPEWebSocket.Closed 1006);
    PPEClient.Disconnect ].

(** An open socket whose connection dropped: a retry is pending. *)
Definition dropped : PPEWebSocket.t :=
  fst (PPEWebSocket.handle noCallback None None None 100 (PPEWebSocket.Closed 1006)
         (opened, tt)).

(** The first timeout of a session. *)
Definition firstTimer : Dashboard.Timer :=
  {| Dashboard.timer_id := 1;
     Dashboard.timer_delay := 1500;
     Dashboard.timer_chain := Dashboard.FromStart false |}.

(** A frame is in flight. *)
Definition inFlight : list Dashboard.Event :=
  started ++ [ Dashboard.TimerFires 1 (env 2500) ].


(** What follows a pause when no button is used: a late verdict, the
    connection dropping and coming back, a stray timer. *)
Definition untouched : list Dashboard.Event :=
  [ received 3000 compliant;
    Dashboard.Socket 4000 (PPEWebSocket.Closed 1006);
    Dashboard.Socket 6000 (PPEWebSocket.ReconnectDue 2000);
    Dashboard.Socket 6100 PPEWebSocket.Opened;
    Dashboard.TimerFires 2 (env 7000);
    Dashboard.ClickModalClose ].

(** The connection drops during a pause. *)
Definition pausedOffline : list Dashboard.Event :=
  toPause ++ [ Dashboard.Socket 3000 (PPEWebSocket.Closed 1006) ].

End Samples.

(* ================================================================== *)
(** * Properties *)

Unset Implicit Arguments.

(** ** Labels and the class table *)

Section Normalizer.

Import Aggregator.

Lemma lower_ascii_idem (c : ascii) :
  Js.lower_ascii (Js.lower_ascii c) = Js.lower_ascii c.
Proof.
  destruct c as [[] [] [] [] [] [] [] []]; vm_compute; reflexivity.
Qed.

Lemma toLowerCase_idem (s : string) :
  Js.toLowerCase (Js.toLowerCase s) = Js.toLowerCase s.
Proof.
  induction s as [|c r IH]; simpl; [reflexivity|].
  now rewrite lower_ascii_idem, IH.
Qed.

Lemma own_In (A : Type) (k : string) (o : list (string * A)) (v : A) :
  Js.own k o = Some v -> In (k, v) o.
Proof.
  induction o as [|[k' v'] r IH]; simpl; [discriminate|].
  destruct (String.eqb_spec k k') as [->|Hne].
  - intros [= ->]. now left.
  - intros H. right. now apply IH.
Qed.

(** Every value of the table is a canonical class, written in lower case,
    and mapped to itself. *)
Lemma table_values_fixed (k c : string) :
  Js.own k CLASS_MAPPING = Some c ->
  In c EPP_CLASSES /\ normalizeLabel c = Label c.
Proof.
  intros H. apply own_In in H.
  unfold CLASS_MAPPING in H. simpl in H.
  repeat (destruct H as [[= <- <-]|H]; [split; [simpl; tauto | vm_compute; reflexivity]|]).
  contradiction.
Qed.

Lemma canonical_in_table (c : string) :
  In c EPP_CLASSES -> Js.own c CLASS_MAPPING = Some c.
Proof.
  simpl. intros H.
  repeat (destruct H as [<-|H]; [vm_compute; reflexivity|]).
  contradiction.
Qed.

(** The key under which a detection is grouped is never one of the two
    inherited names, so the lookups in [groupedDetections] are own-property
    lookups. *)
Lemma propertyKey_not_inherited (label : string) :
  Js.inherited (propertyKey (normalizeLabel label)) = None.
Proof.
  unfold normalizeLabel, className_of.
  destruct (Js.own (Js.toLowerCase label) CLASS_MAPPING) as [c|] eqn:Hown.
  - destruct (table_values_fixed _ _ Hown) as [Hin _].
    assert (Js.truthy_string c = true /\ Js.inherited c = None) as [-> Hc].
    { simpl in Hin.
      repeat (destruct Hin as [<-|Hin]; [split; reflexivity|]). contradiction. }
    exact Hc.
  - destruct (Js.inherited (Js.toLowerCase label)) as [[]|] eqn:Hinh.
    + reflexivity.
    + reflexivity.
    + exact Hinh.
Qed.

(** Labels that differ only in letter case normalise alike. *)
Lemma normalizeLabel_case_insensitive (a b : string) :
  Js.toLowerCase a = Js.toLowerCase b -> normalizeLabel a = normalizeLabel b.
Proof. unfold normalizeLabel. now intros ->. Qed.

(** Whenever normalisation yields a label, normalising that label again
    yields it unchanged. *)
Lemma normalizeLabel_idempotent_on_labels (label r : string) :
  normalizeLabel label = Label r -> normalizeLabel r = Label r.
Proof.
  unfold normalizeLabel at 1. unfold className_of.
  destruct (Js.own (Js.toLowerCase label) CLASS_MAPPING) as [c|] eqn:Hown.
  - destruct (table_values_fixed _ _ Hown) as [Hin Hfix].
    assert (Js.truthy_string c = true) as ->.
    { simpl in Hin.
      repeat (destruct Hin as [<-|Hin]; [reflexivity|]). contradiction. }
    now intros [= <-].
  - destruct (Js.inherited (Js.toLowerCase label)) eqn:Hinh; [discriminate|].
    intros [= <-].
    unfold normalizeLabel, className_of.
    now rewrite toLowerCase_idem, Hown, Hinh.
Qed.

(** A label outside the two inherited names always normalises to a label. *)
Lemma normalizeLabel_is_label (label : string) :
  Js.inherited (Js.toLowerCase label) = None ->
  exists r, normalizeLabel label = Label r.
Proof.
  intros Hinh. unfold normalizeLabel, className_of. rewrite Hinh.
  destruct (Js.own (Js.toLowerCase label) CLASS_MAPPING) as [c|].
  - destruct (Js.truthy_string c); eauto.
  - eauto.
Qed.

End Normalizer.

(** ** Grouping and validation *)

Section Aggregation.

Import Aggregator.

Lemma own_push_group_same (k : string) (it : Item) (g : list (string * list Item)) :
  exists its, Js.own k (push_group k it g) = Some its /\ In it its.
Proof.
  induction g as [|[k' its'] r IH]; simpl.
  - rewrite String.eqb_refl. exists [it]. split; [reflexivity|now left].
  - destruct (String.eqb_spec k k') as [->|Hne]; simpl.
    + rewrite String.eqb_refl. exists (its' ++ [it]). split; [reflexivity|].
      apply in_or_app. right. now left.
    + destruct (String.eqb_spec k k'); [contradiction|]. exact IH.
Qed.

Lemma own_push_group_keeps (k k0 : string) (it it0 : Item)
      (g : list (string * list Item)) (its0 : list Item) :
  Js.own k0 g = Some its0 -> In it0 its0 ->
  exists its, Js.own k0 (push_group k it g) = Some its /\ In it0 its.
Proof.
  induction g as [|[k' its'] r IH]; simpl; [discriminate|].
  intros Hown Hin.
  destruct (String.eqb_spec k k') as [->|Hne]; simpl.
  - destruct (String.eqb_spec k0 k') as [->|Hne0].
    + injection Hown as <-. exists (its' ++ [it]). split; [reflexivity|].
      apply in_or_app. now left.
    + exists its0. now split.
  - destruct (String.eqb_spec k0 k') as [->|Hne0].
    + injection Hown as <-. exists its'. now split.
    + now apply IH.
Qed.

Lemma fold_group_keeps (dets : list Prediction) :
  forall (g : list (string * list Item)) k0 it0 its0,
    Js.own k0 g = Some its0 -> In it0 its0 ->
    exists its, Js.own k0 (fold_left group_step dets g) = Some its /\ In it0 its.
Proof.
  induction dets as [|d r IH]; simpl; intros g k0 it0 its0 Hown Hin.
  - exists its0. now split.
  - destruct (own_push_group_keeps (propertyKey (normalize d)) k0 (item_of d) it0 g its0 Hown Hin)
      as (its1 & Hown1 & Hin1).
    exact (IH _ _ _ _ Hown1 Hin1).
Qed.

(** Every detection of the array sits in the group of its class name. *)
Lemma grouped_member (dets : list Prediction) (det : Prediction) :
  In det dets ->
  forall g, exists its,
    Js.own (propertyKey (normalize det)) (fold_left group_step dets g) = Some its
    /\ In (item_of det) its.
Proof.
  induction dets as [|d r IH]; simpl; [contradiction|].
  intros [->|Hin] g.
  - destruct (own_push_group_same (propertyKey (normalize det)) (item_of det) g)
      as (its & Hown & Hit).
    exact (fold_group_keeps r _ _ _ _ Hown Hit).
  - apply IH. exact Hin.
Qed.

Lemma own_map_aggregate (k : string) (g : list (string * list Item)) :
  Js.own k (map (fun kv => (fst kv, aggregate (snd kv))) g)
  = option_map aggregate (Js.own k g).
Proof.
  induction g as [|[k' its] r IH]; simpl; [reflexivity|].
  destruct (String.eqb k k'); [reflexivity|exact IH].
Qed.

(** An unmapped label gets a class name that is not canonical. *)
Lemma unmapped_not_canonical (det : Prediction) :
  Js.own (originalClass_of det) CLASS_MAPPING = None ->
  ~ In (propertyKey (normalize det)) EPP_CLASSES.
Proof.
  intros Hown. unfold normalize, normalizeLabel, className_of.
  fold (originalClass_of det). rewrite Hown.
  destruct (Js.inherited (originalClass_of det)) as [[]|]; simpl.
  - intros H. repeat (destruct H as [H|H]; [discriminate|]). contradiction.
  - intros H. repeat (destruct H as [H|H]; [discriminate|]). contradiction.
  - intros Hin. apply canonical_in_table in Hin. congruence.
Qed.

(** C4, as the code has it: a detection whose lower-cased label is not in
    the class table is never given a canonical class, but it is not
    dropped either: it is a member of the group filed in
    [detectionsByClass] under its own class name, which is the lower-cased
    label itself unless that label names an inherited member of the
    table object. *)
Theorem unmapped_label_kept_in_own_group (dets : list Prediction) (det : Prediction) :
  In det dets ->
  Js.own (originalClass_of det) CLASS_MAPPING = None ->
  let k := propertyKey (normalize det) in
  ~ In k EPP_CLASSES
  /\ (exists agg, Js.own k (detectionsByClass (process_array dets)) = Some agg
                  /\ In (item_of det) (Aggregator.detections agg)
                  /\ (1 <= count agg)%nat)
  /\ (Js.inherited (originalClass_of det) = None -> k = originalClass_of det).
Proof.
  intros Hin Hown k. split; [|split].
  - now apply unmapped_not_canonical.
  - destruct (grouped_member dets det Hin []) as (its & Hg & Hit).
    exists (aggregate its). unfold process_array, groupedDetections; simpl.
    rewrite own_map_aggregate. fold k in Hg. rewrite Hg. simpl.
    split; [reflexivity|]. split; [exact Hit|].
    destruct its; [contradiction|simpl; lia].
  - intros Hinh. unfold k, normalize, normalizeLabel, className_of.
    fold (originalClass_of det). now rewrite Hown, Hinh.
Qed.

End Aggregation.

Section Validation.

Import Aggregator.

Lemma Qfloor_half (z : Z) : Qfloor (inject_Z z + (1 # 2)) = z.
Proof.
  unfold Qfloor, Qplus, inject_Z. simpl.
  apply eq_sym, (Z.div_unique _ 2 z 1); lia.
Qed.

Lemma completion_value_percent (n : nat) :
  completion_value n == inject_Z (Z.of_nat n) * (25 # 2).
Proof.
  unfold completion_value. simpl List.length.
  unfold Qeq, Qmult, Qdiv, Qinv, inject_Z. simpl. lia.
Qed.

Lemma completion_value_nonneg (n : nat) : 0 <= completion_value n.
Proof.
  rewrite completion_value_percent.
  unfold Qle, Qmult, inject_Z. simpl. lia.
Qed.

Lemma completion_value_scaled (n : nat) :
  Qabs (completion_value n) * 100 + (1 # 2)
  == inject_Z (1250 * Z.of_nat n) + (1 # 2).
Proof.
  rewrite (Qabs_pos _ (completion_value_nonneg n)), completion_value_percent.
  unfold Qeq, Qplus, Qmult, inject_Z. cbn -[Z.mul Z.add]. lia.
Qed.

(** The printed rate: [12.5 n] with two decimals. *)
Lemma completionRate_closed_form (n : nat) :
  Js.toFixed2 (completion_value n)
  = (Js.decimal (25 * Z.of_nat n / 2) ++ (if Nat.even n then ".00" else ".50"))%string.
Proof.
  unfold Js.toFixed2.
  rewrite (Qfloor_comp _ _ (completion_value_scaled n)), Qfloor_half.
  assert (Qle_bool 0 (completion_value n) = true) as ->.
  { apply Qle_bool_iff, completion_value_nonneg. }
  assert ((1250 * Z.of_nat n / 100 = 25 * Z.of_nat n / 2)%Z) as ->.
  { replace (1250 * Z.of_nat n)%Z with (25 * Z.of_nat n * 50)%Z by lia.
    change 100%Z with (2 * 50)%Z.
    apply Z.div_mul_cancel_r; lia. }
  assert (((1250 * Z.of_nat n) mod 100 = if Nat.even n then 0 else 50)%Z) as ->.
  { destruct (Nat.even n) eqn:He.
    - apply Nat.even_spec in He. destruct He as [m ->].
      apply eq_sym, (Z.mod_unique _ 100 (25 * Z.of_nat m) 0); lia.
    - assert (Nat.odd n = true) as Ho by (now rewrite <- Nat.negb_even, He).
      apply Nat.odd_spec in Ho. destruct Ho as [m ->].
      apply eq_sym, (Z.mod_unique _ 100 (25 * Z.of_nat m + 12) 50); lia. }
  destruct (Nat.even n); reflexivity.
Qed.

Lemma missing_nil_complete (detected : list string) :
  (List.length (filter (fun cls => negb (Js.includes detected cls)) EPP_CLASSES) =? 0)%nat = true
  <-> filter (fun cls => negb (Js.includes detected cls)) EPP_CLASSES = [].
Proof.
  rewrite Nat.eqb_eq. split.
  - apply length_zero_iff_nil.
  - now intros ->.
Qed.

(** Counting the keys: those that are required classes and the others. *)
Lemma includes_spec (l : list string) (c : string) :
  Js.includes l c = true <-> In c l.
Proof.
  unfold Js.includes. rewrite existsb_exists. split.
  - intros (x & Hx & He). apply String.eqb_eq in He. now subst.
  - intros Hin. exists c. split; [exact Hin|apply String.eqb_refl].
Qed.

Lemma includes_absent (l : list string) (c : string) :
  ~ In c l -> Js.includes l c = false.
Proof.
  intros Hn. apply not_true_iff_false. now rewrite includes_spec.
Qed.

Lemma count_with_one_more (a : string) (r E : list string) :
  NoDup E -> ~ In a r ->
  List.length (filter (Js.includes (a :: r)) E)
  = ((if Js.includes E a then 1 else 0) + List.length (filter (Js.includes r) E))%nat.
Proof.
  intros Hnd Ha. induction E as [|x E' IH]; [reflexivity|].
  apply NoDup_cons_iff in Hnd. destruct Hnd as (Hx & Hnd).
  specialize (IH Hnd).
  assert (Js.includes (a :: r) x = String.eqb x a || Js.includes r x) as Hx1
    by reflexivity.
  assert (Js.includes (x :: E') a = String.eqb a x || Js.includes E' a) as Hx2
    by reflexivity.
  cbn [filter]. rewrite Hx1, Hx2.
  destruct (String.eqb_spec x a) as [->|Hne].
  - rewrite String.eqb_refl, (includes_absent r a Ha). cbn [orb List.length].
    rewrite IH, (includes_absent E' a Hx). reflexivity.
  - assert (String.eqb a x = false) as -> by (apply String.eqb_neq; congruence).
    cbn [orb]. destruct (Js.includes r x); cbn [List.length]; rewrite IH; lia.
Qed.

Lemma common_count (l E : list string) :
  NoDup l -> NoDup E ->
  List.length (filter (Js.includes E) l) = List.length (filter (Js.includes l) E).
Proof.
  intros Hl HE. induction l as [|a r IH].
  - cbn [filter List.length]. symmetry. apply length_zero_iff_nil.
    induction E as [|x E' IHE]; [reflexivity|].
    apply NoDup_cons_iff in HE. exact (IHE (proj2 HE)).
  - apply NoDup_cons_iff in Hl. destruct Hl as (Ha & Hr).
    rewrite (count_with_one_more a r E HE Ha), <- (IH Hr).
    cbn [filter]. destruct (Js.includes E a); reflexivity.
Qed.

Lemma keys_and_missing (keys : list string) :
  NoDup keys ->
  (List.length keys
   + List.length (filter (fun cls => negb (Js.includes keys cls)) EPP_CLASSES)
   = 8 + List.length (filter (fun k => negb (Js.includes EPP_CLASSES k)) keys))%nat.
Proof.
  intros Hnd.
  assert (NoDup EPP_CLASSES) as HE.
  { unfold EPP_CLASSES.
    repeat (constructor; [simpl; intuition discriminate|]). constructor. }
  pose proof (filter_length (Js.includes EPP_CLASSES) keys) as H1.
  pose proof (filter_length (Js.includes keys) EPP_CLASSES) as H2.
  pose proof (common_count keys EPP_CLASSES Hnd HE) as H3.
  change (List.length EPP_CLASSES) with 8%nat in H2. lia.
Qed.

(** C3 on the code: the verdict is complete exactly when nothing is
    missing, and [completionRate] is a percentage printed with two
    decimals; but it counts every key of the mapping, required class or
    not.  The keys and the missing classes together number the eight
    required classes plus the keys that are no required class, so the
    rate stays within 100 only as long as there are no more such keys
    than missing classes: with the eight classes and any other key the
    verdict is complete and the rate is above 100. *)
Theorem validateCompletePPE_rate_counts_every_key
  (A : Type) (detectionsByClass : list (string * A)) :
  let v := validateCompletePPE detectionsByClass in
  let n := List.length (detected v) in
  let others := filter (fun k => negb (Js.includes EPP_CLASSES k)) (detected v) in
  (isComplete v = true <-> missing v = [])
  /\ completionRate v = Js.toFixed2 (completion_value n)
  /\ completion_value n == inject_Z (Z.of_nat n) / 8 * 100
  /\ completionRate v
     = (Js.decimal (25 * Z.of_nat n / 2)
          ++ (if Nat.even n then ".00" else ".50"))%string
  /\ 0 <= completion_value n
  /\ (NoDup (map fst detectionsByClass) ->
      (n + List.length (missing v) = 8 + List.length others)%nat
      /\ (completion_value n <= 100
          <-> (List.length others <= List.length (missing v))%nat)
      /\ (isComplete v = true -> others <> [] -> 100 < completion_value n)).
Proof.
  cbv zeta. unfold validateCompletePPE.
  cbn [isComplete missing detected completionRate].
  split; [apply missing_nil_complete|].
  split; [reflexivity|].
  split; [reflexivity|].
  split; [apply completionRate_closed_form|].
  split; [apply completion_value_nonneg|].
  intros Hnd. pose proof (keys_and_missing (map fst detectionsByClass) Hnd) as Hsum.
  set (keys := map fst detectionsByClass) in *.
  set (miss := filter (fun cls => negb (Js.includes keys cls)) EPP_CLASSES) in *.
  set (rest := filter (fun k => negb (Js.includes EPP_CLASSES k)) keys) in *.
  split; [exact Hsum|].
  assert (1 <= List.length rest <-> rest <> [])%nat as Hrest1.
  { destruct rest; simpl; split; intros; try lia; congruence. }
  revert Hsum Hrest1. rewrite completion_value_percent.
  generalize (List.length keys) (List.length miss) (List.length rest).
  intros nk nm nr Hsum Hrest1. split.
  - unfold Qle, Qmult, inject_Z. cbn -[Z.mul Z.of_nat]. lia.
  - intros Hc Hrest. apply Nat.eqb_eq in Hc. apply Hrest1 in Hrest.
    unfold Qlt, Qmult, inject_Z. cbn -[Z.mul Z.of_nat]. lia.
Qed.

End Validation.

Section AggregatorExamples.

Import Aggregator.

(** The unit of the rate: with one of the eight classes detected it is the
    string "12.50", the percentage 12.5, not the fraction 1/8. *)
Lemma validateCompletePPE_rate_not_a_fraction :
  let v := validateCompletePPE [("casco", tt)] in
  completionRate v = "12.50"
  /\ (isComplete v = false /\ List.length (missing v) = 7%nat)
  /\ ~ completion_value (List.length (detected v)) == 1 # 8
  /\ ~ completion_value (List.length (detected v)) <= 1.
Proof.
  cbv zeta. split; [vm_compute; reflexivity|].
  split; [split; vm_compute; reflexivity|].
  split; intros H; vm_compute in H; [discriminate | now apply H].
Qed.

Lemma validateCompletePPE_rate_counts_every_key_witness :
  let byClass := detectionsByClass (process_array Samples.full_kit_and_person) in
  processDetections (Samples.roboflow Samples.full_kit_and_person)
  = Some (process_array Samples.full_kit_and_person)
  /\ map fst byClass
     = [ "casco"; "person"; "lentes"; "guantes"; "botas"; "chaleco";
         "camisa_jean"; "pantalon"; "barbijo" ]
  /\ NoDup (map fst byClass)
  /\ isComplete (validateCompletePPE byClass) = true
  /\ missing (validateCompletePPE byClass) = []
  /\ completionRate (validateCompletePPE byClass) = "112.50"
  /\ 100 < completion_value (List.length (detected (validateCompletePPE byClass))).
Proof.
  cbv zeta.
  assert (map fst (detectionsByClass (process_array Samples.full_kit_and_person))
          = [ "casco"; "person"; "lentes"; "guantes"; "botas"; "chaleco";
              "camisa_jean"; "pantalon"; "barbijo" ]) as Hk
    by (vm_compute; reflexivity).
  assert (NoDup (map fst (detectionsByClass
                            (process_array Samples.full_kit_and_person)))) as Hnd.
  { rewrite Hk. repeat (constructor; [simpl; intuition discriminate|]). constructor. }
  assert (isComplete (validateCompletePPE
                        (detectionsByClass
                           (process_array Samples.full_kit_and_person))) = true) as Hc
    by (vm_compute; reflexivity).
  destruct (validateCompletePPE_rate_counts_every_key ClassAggregate
              (detectionsByClass (process_array Samples.full_kit_and_person)))
    as (Hiff & _ & _ & Hrate & _ & Hkeys).
  cbv zeta in Hiff, Hrate, Hkeys.
  destruct (Hkeys Hnd) as (_ & _ & Hover).
  split; [vm_compute; reflexivity|]. split; [exact Hk|]. split; [exact Hnd|].
  split; [exact Hc|]. split; [exact (proj1 Hiff Hc)|]. split.
  - rewrite Hrate. vm_compute. reflexivity.
  - apply Hover; [exact Hc|]. vm_compute. discriminate.
Defined.

(** C4 as stated fails: the unknown label "Person" is not dropped, it
    opens a group of its own, is reported as detected and raises the
    completion rate. *)
Lemma unmapped_label_forms_a_group :
  let r := process_array Samples.helmet_and_person in
  processDetections (Samples.roboflow Samples.helmet_and_person) = Some r
  /\ Js.own "person" CLASS_MAPPING = None
  /\ map fst (detectionsByClass r) = ["casco"; "person"]
  /\ option_map count (Js.own "person" (detectionsByClass r)) = Some 1%nat
  /\ detected (validateCompletePPE (detectionsByClass r)) = ["casco"; "person"]
  /\ completionRate (validateCompletePPE (detectionsByClass r)) = "25.00".
Proof. cbv zeta. repeat split; vm_compute; reflexivity. Qed.

Lemma unmapped_label_kept_in_own_group_witness :
  let det := Samples.prediction "Person" (8 # 10) in
  In det Samples.helmet_and_person
  /\ Js.own (originalClass_of det) CLASS_MAPPING = None
  /\ ~ In "person" EPP_CLASSES
  /\ exists agg,
       Js.own "person" (detectionsByClass (process_array Samples.helmet_and_person))
       = Some agg
       /\ In (item_of det) (Aggregator.detections agg).
Proof.
  cbv zeta.
  assert (In (Samples.prediction "Person" (8 # 10)) Samples.helmet_and_person) as Hin.
  { right. left. reflexivity. }
  assert (Js.own (originalClass_of (Samples.prediction "Person" (8 # 10))) CLASS_MAPPING
          = None) as Hown by reflexivity.
  destruct (unmapped_label_kept_in_own_group _ _ Hin Hown) as (Hcanon & Hgroup & _).
  split; [exact Hin|]. split; [exact Hown|]. split; [exact Hcanon|].
  destruct Hgroup as (agg & Hagg & Hit & _). exists agg. split; assumption.
Defined.

(** C10 on the code: normalisation ignores letter case for every label,
    and it is idempotent wherever it yields a label, which it does for
    every label but the two that name inherited members of the table
    object.  A label spelled like the inherited member [constructor] is
    not given its lower-cased self: its class name is the inherited
    function, filed under a key whose own normalisation is a different
    string. *)
Theorem normalizeLabel_stable_except_inherited :
  (forall a b, Js.toLowerCase a = Js.toLowerCase b -> normalizeLabel a = normalizeLabel b)
  /\ (forall label r, normalizeLabel label = Label r -> normalizeLabel r = Label r)
  /\ (forall label,
        Js.inherited (Js.toLowerCase label) = None ->
        exists r, normalizeLabel label = Label r /\ normalizeLabel r = Label r)
  /\ Js.own (Js.toLowerCase "Constructor") CLASS_MAPPING = None
  /\ normalizeLabel "Constructor" = Native Js.ObjectFunction
  /\ propertyKey (normalizeLabel "Constructor") = "function Object() { [native code] }"
  /\ normalizeLabel (propertyKey (normalizeLabel "Constructor"))
     = Label "function object() { [native code] }".
Proof.
  split; [exact normalizeLabel_case_insensitive|].
  split; [exact normalizeLabel_idempotent_on_labels|].
  split.
  - intros label Hinh. destruct (normalizeLabel_is_label label Hinh) as (r & Hr).
    exists r. split; [exact Hr|exact (normalizeLabel_idempotent_on_labels _ _ Hr)].
  - repeat split; vm_compute; reflexivity.
Qed.

Lemma normalizeLabel_stable_except_inherited_witness :
  Js.toLowerCase "HELMETS" = Js.toLowerCase "helmets"
  /\ normalizeLabel "HELMETS" = normalizeLabel "helmets"
  /\ normalizeLabel "HELMETS" = Label "casco"
  /\ normalizeLabel "casco" = Label "casco".
Proof.
  destruct normalizeLabel_stable_except_inherited as (Hcase & Hidem & _).
  assert (Js.toLowerCase "HELMETS" = Js.toLowerCase "helmets") as Hl by reflexivity.
  assert (normalizeLabel "HELMETS" = Label "casco") as Hn by reflexivity.
  split; [exact Hl|]. split; [exact (Hcase _ _ Hl)|].
  split; [exact Hn|exact (Hidem _ _ Hn)].
Defined.

End AggregatorExamples.

(** ** The transport *)

Section Transport.

Import PPEWebSocket.

Variable Host : Type.
Variable onMessage : PPEService.DetectionResponse -> Host -> Host.
Variables onError onConnect onDisconnect : option (Host -> Host).

Local Notation "'handle'" :=
  (PPEWebSocket.handle onMessage onError onConnect onDisconnect).
Local Notation "'run'" :=
  (PPEWebSocket.run onMessage onError onConnect onDisconnect).

Lemma scheduled_emit (e : Effect) (s : t) :
  scheduled (emit e s)
  = scheduled s ++ match e with SetTimeoutConnect d => [d] | _ => [] end.
Proof.
  unfold scheduled, emit. simpl. rewrite flat_map_app. simpl.
  now rewrite app_nil_r.
Qed.

Lemma attemptReconnect_spec (s : t) :
  (currentDelayIndex s <= 3)%nat ->
  scheduled (attemptReconnect s) = scheduled s ++ [spec_backoff (currentDelayIndex s)]
  /\ currentDelayIndex (attemptReconnect s) = Nat.min (S (currentDelayIndex s)) 3
  /\ isManualDisconnect (attemptReconnect s) = isManualDisconnect s
  /\ reconnectAttempts (attemptReconnect s) = S (reconnectAttempts s).
Proof.
  intros Hi. unfold attemptReconnect. rewrite scheduled_emit.
  destruct s as [w a i hb st t0 m p tr]. simpl in *.
  destruct i as [|[|[|[|i]]]]; simpl; try lia; repeat split; reflexivity.
Qed.


Lemma handle_other_event (now : Z) (e : Event) (s : t) (h : Host) :
  isClosure (now, e) = false -> isStableElapsed (now, e) = false ->
  isManualDisconnect s = false ->
  let s' := fst (handle now e (s, h)) in
  scheduled s' = scheduled s
  /\ currentDelayIndex s' = currentDelayIndex s
  /\ isManualDisconnect s' = false.
Proof.
  intros Hc Hs Hm.
  destruct e as [|m throws| |code|delay| |throws| |code]; simpl in Hc, Hs; try discriminate;
    unfold PPEWebSocket.handle; simpl.
  - destruct (ws s) as [[]|]; simpl; auto.
  - destruct m; simpl; auto.
    unfold sendPong. destruct (isConnected s && negb throws); simpl; auto.
    rewrite scheduled_emit, app_nil_r. auto.
  - auto.
  - unfold reconnectDue.
    destruct (existsb (Z.eqb delay) (pendingReconnects s)); simpl; auto.
    unfold connect. rewrite scheduled_emit, app_nil_r. auto.
  - unfold heartbeat. destruct (heartbeatInterval s); simpl; auto.
    destruct (isConnected s); simpl; auto.
    destruct throws; [unfold connect|]; rewrite scheduled_emit, app_nil_r; auto.
  - auto.
Qed.

Lemma handle_closure (now : Z) (e : Event) (s : t) (h : Host) :
  isClosure (now, e) = true ->
  isManualDisconnect s = false -> (currentDelayIndex s <= 3)%nat ->
  let s' := fst (handle now e (s, h)) in
  scheduled s' = scheduled s ++ [spec_backoff (currentDelayIndex s)]
  /\ currentDelayIndex s' = Nat.min (S (currentDelayIndex s)) 3
  /\ isManualDisconnect s' = false.
Proof.
  intros Hc Hm Hi.
  assert (forall s0,
            isManualDisconnect s0 = false -> currentDelayIndex s0 = currentDelayIndex s ->
            scheduled s0 = scheduled s ->
            let s' := fst (onclose onDisconnect 0 (s0, h)) in
            scheduled s' = scheduled s ++ [spec_backoff (currentDelayIndex s)]
            /\ currentDelayIndex s' = Nat.min (S (currentDelayIndex s)) 3
            /\ isManualDisconnect s' = false) as Hclose.
  { intros s0 Hm0 Hi0 Hs0. cbv zeta. unfold onclose. cbn [fst snd].
    change (isManualDisconnect (stopStableConnectionTimer (stopHeartbeat s0)))
      with (isManualDisconnect s0). rewrite Hm0.
    destruct (attemptReconnect_spec (stopStableConnectionTimer (stopHeartbeat s0)))
      as (H1 & H2 & H3 & _);
      [change (currentDelayIndex s0 <= 3)%nat; rewrite Hi0; exact Hi|].
    rewrite H1, H2, H3.
    change (currentDelayIndex (stopStableConnectionTimer (stopHeartbeat s0)))
      with (currentDelayIndex s0).
    change (scheduled (stopStableConnectionTimer (stopHeartbeat s0)))
      with (scheduled s0).
    change (isManualDisconnect (stopStableConnectionTimer (stopHeartbeat s0)))
      with (isManualDisconnect s0).
    rewrite Hi0, Hs0, Hm0. auto. }
  destruct e as [|m throws| |code|delay| |throws| |code]; try discriminate Hc;
    unfold PPEWebSocket.handle; cbn [fst snd].
  - destruct (ws s) as [st|].
    + exact (Hclose (set_ws (Some CLOSED) s) Hm eq_refl eq_refl).
    + exact (Hclose s Hm eq_refl eq_refl).
  - exact (Hclose s Hm eq_refl eq_refl).
Qed.

Lemma spec_backoff_cap (i k : nat) :
  (i <= 3)%nat -> spec_backoff (Nat.min (S i) 3 + k) = spec_backoff (i + S k).
Proof.
  intros Hi. rewrite Nat.add_succ_r.
  destruct i as [|[|[|[|i]]]]; try lia; reflexivity.
Qed.

Lemma run_ladder_from (evs : list (Z * Event)) :
  forall (s : t) (h : Host),
    isManualDisconnect s = false -> (currentDelayIndex s <= 3)%nat ->
    forallb (fun ne => negb (isStableElapsed ne)) evs = true ->
    scheduled (fst (run evs (s, h)))
    = scheduled s
      ++ map (fun k => spec_backoff (currentDelayIndex s + k))
             (seq 0 (List.length (filter isClosure evs))).
Proof.
  induction evs as [|[now e] evs IH]; intros s h Hm Hi Hst.
  - simpl. now rewrite app_nil_r.
  - simpl in Hst. apply andb_prop in Hst. destruct Hst as [Hne Hst].
    apply negb_true_iff in Hne.
    unfold PPEWebSocket.run. simpl fold_left.
    fold (run evs (handle now e (s, h))).
    destruct (handle now e (s, h)) as [s1 h1] eqn:Hstep.
    assert (s1 = fst (handle now e (s, h))) as Hs1 by now rewrite Hstep.
    simpl filter. destruct (isClosure (now, e)) eqn:Hcl.
    + destruct (handle_closure now e s h Hcl Hm Hi) as (Hsch & Hidx & Hm1).
      rewrite <- Hs1 in Hsch, Hidx, Hm1.
      rewrite (IH s1 h1 Hm1) by (rewrite ?Hidx; auto; lia).
      rewrite Hsch, Hidx, <- app_assoc. f_equal.
      simpl List.length. rewrite <- cons_seq, <- seq_shift, map_cons, map_map.
      simpl app. rewrite Nat.add_0_r. f_equal.
      apply map_ext. intros k. now apply spec_backoff_cap.
    + destruct (handle_other_event now e s h Hcl Hne Hm) as (Hsch & Hidx & Hm1).
      rewrite <- Hs1 in Hsch, Hidx, Hm1.
      rewrite (IH s1 h1 Hm1) by (rewrite ?Hidx; auto).
      now rewrite Hsch, Hidx.
Qed.

Lemma disconnect_spec (s : t) :
  let s' := disconnect s in
  reconnectAttempts s' = 0%nat /\ currentDelayIndex s' = 0%nat
  /\ isManualDisconnect s' = true
  /\ stableConnectionTimer s' = None /\ heartbeatInterval s' = None
  /\ ws s' = None
  /\ scheduled s' = scheduled s /\ pendingReconnects s' = pendingReconnects s.
Proof.
  unfold disconnect. destruct s as [[[]|] a i hb st t0 m p tr]; simpl;
    unfold scheduled; simpl; rewrite ?flat_map_app; simpl; rewrite ?app_nil_r;
    repeat split; reflexivity.
Qed.

(** What an event that is no closure leaves of the backoff: nothing is
    scheduled, the ladder index moves only to 0, and a stability timer
    that is armed stays armed until it fires, which resets the index. *)
Lemma handle_no_closure (now : Z) (e : Event) (s : t) (h : Host) :
  isClosure (now, e) = false -> isManualDisconnect s = false ->
  let s' := fst (handle now e (s, h)) in
  scheduled s' = scheduled s
  /\ isManualDisconnect s' = false
  /\ (currentDelayIndex s = 0%nat -> currentDelayIndex s' = 0%nat)
  /\ (stableConnectionTimer s <> None \/ currentDelayIndex s = 0%nat ->
      stableConnectionTimer s' <> None \/ currentDelayIndex s' = 0%nat)
  /\ (isStableElapsed (now, e) = true ->
      stableConnectionTimer s <> None \/ currentDelayIndex s = 0%nat ->
      currentDelayIndex s' = 0%nat).
Proof.
  intros Hc Hm. cbv zeta.
  destruct (isStableElapsed (now, e)) eqn:Hst.
  - destruct e; try discriminate Hst.
    unfold PPEWebSocket.handle. cbn [fst snd]. unfold stableElapsed.
    destruct (stableConnectionTimer s) as [d|] eqn:Ht.
    + repeat split; auto.
    + repeat split; auto.
      * intros [H|H]; [contradiction H; reflexivity|auto].
      * intros _ [H|H]; [contradiction H; reflexivity|exact H].
  - destruct (handle_other_event now e s h Hc Hst Hm) as (Hsch & Hidx & Hm').
    cbv zeta in Hsch, Hidx, Hm'.
    split; [exact Hsch|]. split; [exact Hm'|]. split; [congruence|].
    split; [|discriminate].
    intros [Harmed|H0]; [left|right; congruence].
    destruct e as [|m throws| |code|delay| |throws| |code];
      try discriminate Hc; try discriminate Hst;
      unfold PPEWebSocket.handle; cbn [fst snd].
    + destruct (ws s) as [[]|]; try exact Harmed; discriminate.
    + destruct m; cbn; try exact Harmed.
      unfold sendPong. destruct (isConnected s && negb throws); exact Harmed.
    + exact Harmed.
    + unfold reconnectDue.
      destruct (existsb (Z.eqb delay) (pendingReconnects s)); exact Harmed.
    + unfold heartbeat. destruct (heartbeatInterval s); [|exact Harmed].
      destruct (isConnected s); [|exact Harmed].
      destruct throws; exact Harmed.
    + discriminate.
Qed.

Lemma run_no_closure (evs : list (Z * Event)) :
  forall (s : t) (h : Host),
    forallb (fun ne => negb (isClosure ne)) evs = true ->
    isManualDisconnect s = false ->
    let s' := fst (run evs (s, h)) in
    scheduled s' = scheduled s
    /\ isManualDisconnect s' = false
    /\ (currentDelayIndex s = 0%nat -> currentDelayIndex s' = 0%nat)
    /\ (stableConnectionTimer s <> None \/ currentDelayIndex s = 0%nat ->
        stableConnectionTimer s' <> None \/ currentDelayIndex s' = 0%nat).
Proof.
  induction evs as [|[now e] evs IH]; intros s h Hq Hm; cbv zeta.
  - repeat split; auto.
  - cbn [forallb] in Hq. apply andb_prop in Hq. destruct Hq as (Hc & Hq).
    apply negb_true_iff in Hc.
    unfold PPEWebSocket.run. cbn [fold_left fst snd].
    fold (run evs (handle now e (s, h))).
    destruct (handle_no_closure now e s h Hc Hm) as (H1 & H2 & H3 & H4 & _).
    cbv zeta in H1, H2, H3, H4.
    destruct (handle now e (s, h)) as [s1 h1]. cbn [fst] in H1, H2, H3, H4.
    destruct (IH s1 h1 Hq H2) as (I1 & I2 & I3 & I4). cbv zeta in I1, I2, I3, I4.
    split; [congruence|]. split; [exact I2|]. split; auto.
Qed.

Lemma retry_left_pending (now : Z) (e : Event) (s : t) (h : Host) :
  isClosure (now, e) = true ->
  isManualDisconnect s = false -> (currentDelayIndex s <= 3)%nat ->
  In (spec_backoff (currentDelayIndex s))
     (pendingReconnects (fst (handle now e (s, h)))).
Proof.
  intros Hc Hm Hi.
  assert (forall s0,
            isManualDisconnect s0 = false -> currentDelayIndex s0 = currentDelayIndex s ->
            In (spec_backoff (currentDelayIndex s))
               (pendingReconnects (fst (onclose onDisconnect 0 (s0, h))))) as Hclose.
  { intros s0 Hm0 Hi0. unfold onclose. cbn [fst snd].
    change (isManualDisconnect (stopStableConnectionTimer (stopHeartbeat s0)))
      with (isManualDisconnect s0). rewrite Hm0.
    unfold attemptReconnect. cbv zeta.
    cbn [pendingReconnects emit set_trace set_pendingReconnects currentDelayIndex
         set_reconnectAttempts stopStableConnectionTimer stopHeartbeat
         set_stableConnectionTimer set_heartbeatInterval].
    rewrite Hi0.
    assert (nth (currentDelayIndex s) reconnectDelays 0%Z
            = spec_backoff (currentDelayIndex s)) as ->.
    { destruct (currentDelayIndex s) as [|[|[|[|i]]]]; try lia; reflexivity. }
    destruct (currentDelayIndex s <? List.length reconnectDelays - 1)%nat;
      cbn [pendingReconnects set_currentDelayIndex];
      apply in_or_app; right; now left. }
  destruct e as [|m throws| |code|delay| |throws| |code]; try discriminate Hc;
    unfold PPEWebSocket.handle; cbn [fst snd].
  - destruct (ws s) as [st|].
    + exact (Hclose (set_ws (Some CLOSED) s) Hm eq_refl).
    + exact (Hclose s Hm eq_refl).
  - exact (Hclose s Hm eq_refl).
Qed.

(** C6 on the code.  In any run of socket events without a manual
    disconnect and without the stability timer firing, the reconnects
    scheduled by the closures follow the ladder 2 s, 5 s, 10 s, 30 s,
    30 s, ... one step per closure, from whatever step the run starts at.
    Once a socket has opened, whatever arrives before and after the
    stability timer fires (messages, heartbeats, errors), if no closure
    comes in between, the next closure is retried after 2 s again,
    whatever the step was.  A manual disconnect clears the attempt
    counter and the ladder index at once, cancels both timers and
    schedules nothing, neither itself nor at the closure that follows it.
    But it does not cancel a retry that a closure had armed before: every
    non-manual closure leaves its retry pending, and when that retry
    fires after the disconnect it opens a new socket and clears the
    manual flag, so that the closures of this socket are retried
    again. *)
Theorem backoff_ladder_holds_but_disconnect_keeps_retry :
  (forall evs s h,
      isManualDisconnect s = false -> (currentDelayIndex s <= 3)%nat ->
      forallb (fun ne => negb (isStableElapsed ne)) evs = true ->
      scheduled (fst (run evs (s, h)))
      = scheduled s
        ++ map (fun k => spec_backoff (currentDelayIndex s + k))
               (seq 0 (List.length (filter isClosure evs))))
  /\ (forall evs s h,
         isManualDisconnect s = false -> currentDelayIndex s = 0%nat ->
         forallb (fun ne => negb (isStableElapsed ne)) evs = true ->
         scheduled (fst (run evs (s, h)))
         = scheduled s ++ spec_ladder (List.length (filter isClosure evs)))
  /\ (forall now0 now1 now2 mid after e s h,
         ws s = Some CONNECTING -> isManualDisconnect s = false ->
         forallb (fun ne => negb (isClosure ne)) mid = true ->
         forallb (fun ne => negb (isClosure ne)) after = true ->
         isClosure (now2, e) = true ->
         let stable :=
           run ((now0, Opened) :: mid ++ (now1, StableElapsed) :: after) (s, h) in
         currentDelayIndex (fst stable) = 0%nat
         /\ scheduled (fst stable) = scheduled s
         /\ scheduled (fst (handle now2 e stable)) = scheduled s ++ [2000%Z])
  /\ (forall s,
         let s' := disconnect s in
         reconnectAttempts s' = 0%nat /\ currentDelayIndex s' = 0%nat
         /\ isManualDisconnect s' = true
         /\ stableConnectionTimer s' = None /\ heartbeatInterval s' = None
         /\ scheduled s' = scheduled s
         /\ forall now e h,
              isClosure (now, e) = true ->
              scheduled (fst (handle now e (s', h))) = scheduled s)
  /\ (forall now e s h,
         isClosure (now, e) = true ->
         isManualDisconnect s = false -> (currentDelayIndex s <= 3)%nat ->
         In (spec_backoff (currentDelayIndex s))
            (pendingReconnects (fst (handle now e (s, h)))))
  /\ (forall now delay s h,
         In delay (pendingReconnects s) ->
         let s' := fst (handle now (ReconnectDue delay) (disconnect s, h)) in
         ws s' = Some CONNECTING
         /\ isManualDisconnect s' = false
         /\ trace s' = trace (disconnect s) ++ [NewSocket]
         /\ forall now' e,
              isClosure (now', e) = true ->
              scheduled (fst (handle now' e (s', h))) = scheduled s ++ [2000%Z]).
Proof.
  split; [|split; [|split; [|split; [|split]]]].
  - intros evs s h Hm Hi Hst. exact (run_ladder_from evs s h Hm Hi Hst).
  - intros evs s h Hm Hi Hst.
    rewrite (run_ladder_from evs s h Hm) by (auto; lia).
    rewrite Hi. reflexivity.
  - intros now0 now1 now2 mid after e s h Hws Hm Hmid Hafter Hc. cbv zeta.
    unfold PPEWebSocket.run. cbn [fold_left fst snd].
    rewrite fold_left_app. cbn [fold_left fst snd].
    fold (run mid (handle now0 Opened (s, h))).
    assert (exists s0 h0,
              handle now0 Opened (s, h) = (s0, h0)
              /\ scheduled s0 = scheduled s /\ isManualDisconnect s0 = false
              /\ stableConnectionTimer s0 <> None) as (s0 & h0 & -> & A1 & A2 & A3).
    { unfold PPEWebSocket.handle. cbn [fst snd]. rewrite Hws.
      eexists. eexists. split; [reflexivity|].
      repeat split; [exact Hm|discriminate]. }
    destruct (run_no_closure mid s0 h0 Hmid A2) as (B1 & B2 & _ & B4).
    cbv zeta in B1, B2, B4.
    destruct (run mid (s0, h0)) as [s1 h1]. cbn [fst] in B1, B2, B4.
    destruct (handle_no_closure now1 StableElapsed s1 h1 eq_refl B2)
      as (C1 & C2 & _ & _ & C5).
    cbv zeta in C1, C2, C5. specialize (C5 eq_refl (B4 (or_introl A3))).
    destruct (handle now1 StableElapsed (s1, h1)) as [s2 h2].
    cbn [fst] in C1, C2, C5.
    fold (run after (s2, h2)).
    destruct (run_no_closure after s2 h2 Hafter C2) as (D1 & D2 & D3 & _).
    cbv zeta in D1, D2, D3. specialize (D3 C5).
    destruct (run after (s2, h2)) as [s3 h3]. cbn [fst] in D1, D2, D3 |- *.
    split; [exact D3|]. split; [congruence|].
    destruct (handle_closure now2 e s3 h3 Hc D2) as (E1 & _); [lia|].
    cbv zeta in E1. rewrite E1, D3. cbn [spec_backoff]. congruence.
  - intros s. pose proof (disconnect_spec s) as H. cbv zeta in *.
    remember (disconnect s) as s' eqn:Hs'. clear Hs'.
    destruct H as (Ha & Hi & Hm & Hst & Hhb & Hws & Hsch & Hp).
    repeat (split; [assumption|]).
    intros now e h Hc.
    destruct e as [|m throws| |code|delay| |throws| |code]; try discriminate Hc;
      unfold PPEWebSocket.handle; cbn [fst snd]; rewrite ?Hws;
      unfold onclose; cbn [fst snd];
      change (isManualDisconnect (stopStableConnectionTimer (stopHeartbeat s')))
        with (isManualDisconnect s');
      rewrite Hm; exact Hsch.
  - exact retry_left_pending.
  - intros now delay s h Hin. cbv zeta.
    destruct (disconnect_spec s) as (_ & Hi & _ & _ & _ & _ & Hsch & Hp).
    cbv zeta in Hi, Hsch, Hp.
    assert (fst (handle now (ReconnectDue delay) (disconnect s, h))
            = connect (set_pendingReconnects
                         (remove_one delay (pendingReconnects s)) (disconnect s)))
      as ->.
    { unfold PPEWebSocket.handle. cbn [fst snd]. unfold reconnectDue.
      rewrite Hp.
      assert (existsb (Z.eqb delay) (pendingReconnects s) = true) as ->.
      { apply existsb_exists. exists delay. split; [exact Hin|apply Z.eqb_refl]. }
      reflexivity. }
    set (s1 := connect _).
    assert (isManualDisconnect s1 = false) as Hm1 by reflexivity.
    assert (currentDelayIndex s1 = 0%nat) as Hi1 by exact Hi.
    assert (scheduled s1 = scheduled s) as Hs1.
    { unfold s1, connect. rewrite scheduled_emit, app_nil_r. exact Hsch. }
    split; [reflexivity|]. split; [reflexivity|]. split; [reflexivity|].
    intros now' e Hc.
    destruct (handle_closure now' e s1 h Hc Hm1) as (E1 & _); [lia|].
    cbv zeta in E1. rewrite E1, Hi1, Hs1. reflexivity.
Qed.

Lemma tooLarge_iff (imageData : string) :
  tooLarge imageData = true
  <-> (5000 * 1024 < Z.of_nat (String.length imageData))%Z.
Proof.
  unfold tooLarge, payloadKB. rewrite negb_true_iff, <- not_true_iff_false, Qle_bool_iff.
  unfold Qle, Qdiv, Qmult, Qinv, inject_Z. cbn -[Z.mul Z.of_nat]. lia.
Qed.

(** C7, as the code has it: a frame is written on the socket exactly when
    the socket is OPEN, the image is at most 5000 KiB long and the write
    itself does not fail; a longer image is refused on the spot with no
    other effect; a call while there is no socket or a closing / closed
    one only reconnects at once, unless the disconnection was manual; a
    call while the socket is still CONNECTING does nothing at all. *)
Theorem send_cases (imageData : string) (confidence : Q) (throws : bool) (s : t) :
  let s' := send imageData confidence throws s in
  (trace s' = trace s ++ [Transmit (Request imageData confidence)]
   <-> ws s = Some OPEN /\ tooLarge imageData = false /\ throws = false)
  /\ (tooLarge imageData = true
      <-> (5000 * 1024 < Z.of_nat (String.length imageData))%Z)
  /\ (ws s = Some OPEN -> tooLarge imageData = true -> s' = s)
  /\ (ws s = Some CONNECTING -> s' = s)
  /\ (ws s <> Some OPEN -> ws s <> Some CONNECTING ->
      s' = if isManualDisconnect s then s else connect s).
Proof.
  cbv zeta. split; [|split; [apply tooLarge_iff|]].
  - unfold send. split.
    + destruct (ws s) as [[]|] eqn:Hws.
      * intros H. apply (f_equal (@List.length _)) in H.
        rewrite length_app in H. simpl in H. lia.
      * destruct (tooLarge imageData).
        { intros H. apply (f_equal (@List.length _)) in H.
          rewrite length_app in H. simpl in H. lia. }
        destruct throws; [|auto].
        destruct (isManualDisconnect s).
        { intros H. apply (f_equal (@List.length _)) in H.
          rewrite length_app in H. simpl in H. lia. }
        unfold attemptReconnect, emit. simpl.
        destruct (currentDelayIndex s <? 3)%nat; simpl; intros H;
          apply app_inv_head in H; discriminate.
      * destruct (isManualDisconnect s); unfold connect, emit; simpl; intros H.
        { apply (f_equal (@List.length _)) in H. rewrite length_app in H. simpl in H. lia. }
        apply app_inv_head in H. discriminate.
      * destruct (isManualDisconnect s); unfold connect, emit; simpl; intros H.
        { apply (f_equal (@List.length _)) in H. rewrite length_app in H. simpl in H. lia. }
        apply app_inv_head in H. discriminate.
      * destruct (isManualDisconnect s); unfold connect, emit; simpl; intros H.
        { apply (f_equal (@List.length _)) in H. rewrite length_app in H. simpl in H. lia. }
        apply app_inv_head in H. discriminate.
    + intros (-> & -> & ->). reflexivity.
  - unfold send. split; [|split].
    + now intros -> ->.
    + now intros ->.
    + intros H1 H2. destruct (ws s) as [[]|]; try reflexivity; congruence.
Qed.

End Transport.

Section TransportExamples.

Import PPEWebSocket.

Lemma backoff_ladder_holds_but_disconnect_keeps_retry_witness :
  (ws Samples.third_retry = Some CONNECTING
   /\ isManualDisconnect Samples.third_retry = false
   /\ currentDelayIndex Samples.third_retry = 3%nat
   /\ scheduled Samples.third_retry = [2000; 5000; 10000]%Z)
  /\ scheduled
       (fst (PPEWebSocket.handle Samples.noCallback None None None 400000 (Closed 1006)
               (PPEWebSocket.run Samples.noCallback None None None
                  ((17400, Opened) :: Samples.early_traffic
                     ++ (317400, StableElapsed) :: Samples.late_traffic)%Z
                  (Samples.third_retry, tt))))
     = [2000; 5000; 10000; 2000]%Z
  /\ scheduled
       (fst (PPEWebSocket.run Samples.noCallback None None None
               [ (17500, Closed 1006); (47500, ReconnectDue 30000);
                 (47600, Closed 1006) ]%Z
               (Samples.third_retry, tt)))
     = [2000; 5000; 10000; 30000; 30000]%Z
  /\ pendingReconnects Samples.dropped = [2000%Z]
  /\ (ws (fst (PPEWebSocket.handle Samples.noCallback None None None 2100
                 (ReconnectDue 2000) (disconnect Samples.dropped, tt)))
      = Some CONNECTING
      /\ isManualDisconnect
           (fst (PPEWebSocket.handle Samples.noCallback None None None 2100
                   (ReconnectDue 2000) (disconnect Samples.dropped, tt)))
         = false
      /\ scheduled
           (fst (PPEWebSocket.handle Samples.noCallback None None None 2200 (Closed 1006)
                   (fst (PPEWebSocket.handle Samples.noCallback None None None 2100
                           (ReconnectDue 2000) (disconnect Samples.dropped, tt)), tt)))
         = [2000; 2000]%Z).
Proof.
  destruct (backoff_ladder_holds_but_disconnect_keeps_retry
              unit Samples.noCallback None None None)
    as (Hfrom & _ & Hstable & _ & _ & Hretry).
  assert (ws Samples.third_retry = Some CONNECTING) as Hws
      by (vm_compute; reflexivity).
  assert (isManualDisconnect Samples.third_retry = false) as Hm
      by (vm_compute; reflexivity).
  assert (currentDelayIndex Samples.third_retry = 3%nat) as Hi
      by (vm_compute; reflexivity).
  assert (scheduled Samples.third_retry = [2000; 5000; 10000]%Z) as Hs
      by (vm_compute; reflexivity).
  assert (pendingReconnects Samples.dropped = [2000%Z]) as Hp
      by (vm_compute; reflexivity).
  assert (scheduled Samples.dropped = [2000%Z]) as Hsd
      by (vm_compute; reflexivity).
  split; [repeat split; assumption|]. split; [|split; [|split]].
  - destruct (Hstable 17400%Z 317400%Z 400000%Z Samples.early_traffic
                Samples.late_traffic (Closed 1006) Samples.third_retry tt
                Hws Hm eq_refl eq_refl eq_refl) as (_ & _ & H).
    rewrite H, Hs. reflexivity.
  - rewrite (Hfrom _ Samples.third_retry tt Hm) by (rewrite ?Hi; auto).
    rewrite Hs, Hi. reflexivity.
  - exact Hp.
  - assert (In 2000%Z (pendingReconnects Samples.dropped)) as Hin
        by (rewrite Hp; now left).
    destruct (Hretry 2100%Z 2000%Z Samples.dropped tt Hin) as (R1 & R2 & _ & R4).
    split; [exact R1|]. split; [exact R2|].
    rewrite (R4 2200%Z (Closed 1006) eq_refl), Hsd. reflexivity.
Defined.

(** C7 as stated fails: a call while the socket is still CONNECTING (and
    the disconnection was not manual) attempts no reconnect: it leaves the
    object as it was, where a call on a closed socket connects anew. *)
Lemma send_while_connecting_attempts_nothing :
  ws Samples.connecting = Some CONNECTING
  /\ isManualDisconnect Samples.connecting = false
  /\ send "frame" (3 # 10) false Samples.connecting = Samples.connecting
  /\ trace (send "frame" (3 # 10) false Samples.connecting) = [NewSocket]
  /\ trace (send "frame" (3 # 10) false (set_ws (Some CLOSED) Samples.connecting))
     = [NewSocket; NewSocket].
Proof. repeat split; reflexivity. Qed.

Lemma send_cases_witness :
  ws Samples.opened = Some OPEN
  /\ tooLarge "frame" = false
  /\ trace (send "frame" (3 # 10) false Samples.opened)
     = trace Samples.opened ++ [Transmit (Request "frame" (3 # 10))]
  /\ send "frame" (3 # 10) false Samples.connecting = Samples.connecting.
Proof.
  assert (ws Samples.opened = Some OPEN) as Hws by reflexivity.
  assert (tooLarge "frame" = false) as Hsz by reflexivity.
  split; [exact Hws|]. split; [exact Hsz|].
  split.
  - destruct (send_cases "frame" (3 # 10) false Samples.opened) as (Hiff & _).
    apply Hiff. repeat split; assumption.
  - destruct (send_cases "frame" (3 # 10) false Samples.connecting)
      as (_ & _ & _ & Hconn & _).
    apply Hconn. reflexivity.
Defined.

End TransportExamples.

(** ** The session manager *)

Section Session.

Import PPEService Dashboard.

Variable cfg : Config.

Lemma slice0_firstn (A : Type) (e : Z) (l : list A) :
  (0 <= e)%Z -> Js.slice0 e l = firstn (Z.to_nat e) l.
Proof.
  intros He. unfold Js.slice0.
  destruct (Z.ltb_spec e 0); [lia|].
  destruct (Z.le_gt_cases e (Z.of_nat (List.length l))) as [Hle|Hgt].
  - now rewrite Z.min_l.
  - rewrite Z.min_r by lia. rewrite Nat2Z.id.
    rewrite firstn_all. symmetry. apply firstn_all2. lia.
Qed.

(** The two identical [setDetectionRecords] updaters, run one after the
    other. *)
Lemma prependRecord_twice (r : DetectionRecord) (s : Dash) :
  (2 <= history_maxRecords cfg)%Z ->
  detectionRecords (prependRecord cfg r (prependRecord cfg r s))
  = r :: r :: Js.slice0 (history_maxRecords cfg - 2) (detectionRecords s).
Proof.
  intros Hm. unfold prependRecord. simpl.
  rewrite !slice0_firstn by lia.
  replace (Z.to_nat (history_maxRecords cfg - 1))
    with (S (Z.to_nat (history_maxRecords cfg - 2))) by lia.
  rewrite firstn_cons, firstn_firstn.
  now rewrite Nat.min_l by lia.
Qed.


(** C8: resuming clears the pause flag and, when the camera and the
    socket are available, arms one timeout whose delay is the adaptive
    interval of that moment; the latency window and the interval are left
    as they were, and every later timeout of the resumed scheduler is
    armed with the interval current at that time. *)
Theorem resume_rearms_with_adaptive_interval (env : Env) (s : Dash) :
  let s' := handleResume env s in
  isPaused s' = false
  /\ latencyHistoryRef s' = latencyHistoryRef s
  /\ adaptiveIntervalRef s' = adaptiveIntervalRef s
  /\ timers s'
     = timers s
       ++ (if cameraMounted env && wsConnected s
           then [ {| timer_id := nextTimerId s;
                     timer_delay := adaptiveIntervalRef s;
                     timer_chain := FromResume |} ]
           else [])
  /\ (forall env1 s1,
        cameraMounted env1 = true -> wsConnected s1 = true ->
        timers (resumeCallback env1 s1)
        = timers s1 ++ [ {| timer_id := nextTimerId s1;
                            timer_delay := adaptiveIntervalRef s1;
                            timer_chain := FromResume |} ]).
Proof.
  cbv zeta. unfold handleResume.
  assert (forall b : bool, wsConnected (if b then set_cameraActive true
                                              (set_isSafetyModalOpen false (set_isPaused false s))
                                 else set_isSafetyModalOpen false (set_isPaused false s))
                    = wsConnected s) as Hws by (intros []; reflexivity).
  rewrite Hws.
  destruct (cameraMounted env && wsConnected s), (cameraActive s); simpl;
    rewrite ?app_nil_r; (repeat split; try reflexivity).
  all: intros env1 s1 Hc Hw; unfold resumeCallback; rewrite Hc, Hw; simpl;
    unfold captureAndSend, wsSend, act;
    destruct (isProcessingRef s1); simpl; try reflexivity;
    destruct (cameraFeed env1) as [[img|]|]; simpl; try reflexivity;
    destruct (Js.truthy_string img); simpl; try reflexivity;
    destruct (wsRef s1); reflexivity.
Qed.

Ltac split_ifs :=
  repeat match goal with
         | |- context [match ?x with Some _ => _ | None => _ end] =>
             destruct x; simpl
         | |- context [if ?b then _ else _] => destruct b; simpl
         end.

Lemma recordLatency_records (latency : Z) (s : Dash) :
  detectionRecords (recordLatency latency s) = detectionRecords s.
Proof. unfold recordLatency. cbv zeta. split_ifs; reflexivity. Qed.

Lemma showVerdict_records (data : DetectionResponse) (status : PPEStatus) (s : Dash) :
  detectionRecords (showVerdict data status s) = detectionRecords s.
Proof. unfold showVerdict. cbv zeta. split_ifs; reflexivity. Qed.

Lemma pauseOnViolation_records (s : Dash) :
  detectionRecords (pauseOnViolation cfg s) = detectionRecords s.
Proof.
  unfold pauseOnViolation, cancelPauseTimeout, cancelDetectionInterval, act.
  cbv zeta. simpl. split_ifs; reflexivity.
Qed.

Lemma handler_records (now : Z) (data : DetectionResponse) (status : PPEStatus) (s : Dash) :
  ppe_status data = Some status ->
  has_person data <> Some false ->
  let r := crearRegistroDesdeDeteccion cfg now data status in
  detectionRecords (handleDetectionResponse cfg now data s)
  = r :: Js.slice0 (history_maxRecords cfg - 1)
         (r :: Js.slice0 (history_maxRecords cfg - 1) (detectionRecords s)).
Proof.
  intros Hst Hp. cbv zeta. unfold handleDetectionResponse. rewrite Hst.
  destruct (has_person data) as [[|]|]; try congruence;
    cbv zeta; destruct (is_compliant data); cbn [negb];
    rewrite ?pauseOnViolation_records; unfold prependRecord, act;
    cbn [detectionRecords set_detectionRecords set_log];
    rewrite showVerdict_records, recordLatency_records; reflexivity.
Qed.

(** C9 on the code: a verdict with a subject is recorded twice.  The
    handler runs the same prepend-and-trim updater two times in a row, so
    with room for at least two records the history begins with two copies
    of the new record, the older entries trimmed to make room for both. *)
Theorem verdict_recorded_twice
  (now : Z) (data : DetectionResponse) (status : PPEStatus) (s : Dash) :
  ppe_status data = Some status ->
  has_person data <> Some false ->
  (2 <= history_maxRecords cfg)%Z ->
  let r := crearRegistroDesdeDeteccion cfg now data status in
  detectionRecords (handleDetectionResponse cfg now data s)
  = r :: r :: Js.slice0 (history_maxRecords cfg - 2) (detectionRecords s).
Proof.
  intros Hst Hp Hm. cbv zeta.
  rewrite (handler_records now data status s Hst Hp).
  exact (prependRecord_twice _ s Hm).
Qed.

Lemma Qlt_bool_iff (a b : Q) : Qlt_bool a b = true <-> a < b.
Proof.
  unfold Qlt_bool. rewrite negb_true_iff, <- not_true_iff_false, Qle_bool_iff.
  split; [apply Qnot_le_lt|apply Qlt_not_le].
Qed.

Lemma Qlt_bool_false_iff (a b : Q) : Qlt_bool a b = false <-> b <= a.
Proof.
  unfold Qlt_bool. rewrite negb_false_iff. apply Qle_bool_iff.
Qed.

Lemma spec_window_length (samples : list Z) :
  List.length (spec_window samples) = Nat.min (List.length samples) 10.
Proof. unfold spec_window. rewrite length_skipn. lia. Qed.

Lemma tl_skipn (A : Type) (k : nat) (l : list A) : tl (skipn k l) = skipn (S k) l.
Proof.
  revert l. induction k as [|k IH]; intros [|a l]; simpl; try reflexivity.
  apply IH.
Qed.

(** Pushing a sample and dropping the oldest one beyond ten keeps the
    window equal to the ten most recent samples. *)
Lemma window_push (samples : list Z) (x : Z) :
  (let pushed := spec_window samples ++ [x] in
   if (10 <? List.length pushed)%nat then tl pushed else pushed)
  = spec_window (samples ++ [x]).
Proof.
  cbv zeta. rewrite length_app, spec_window_length. simpl List.length.
  unfold spec_window. rewrite length_app. simpl List.length.
  destruct (Nat.ltb_spec 10 (Nat.min (List.length samples) 10 + 1)) as [Hlt|Hge].
  - assert (10 <= List.length samples)%nat as Hn by lia.
    replace (List.length samples + 1 - 10)%nat with (S (List.length samples - 10)) by lia.
    rewrite <- tl_skipn. f_equal.
    rewrite skipn_app.
    replace (List.length samples - 10 - List.length samples)%nat with 0%nat by lia.
    reflexivity.
  - assert (List.length samples < 10)%nat as Hn by lia.
    replace (List.length samples - 10)%nat with 0%nat by lia.
    replace (List.length samples + 1 - 10)%nat with 0%nat by lia.
    reflexivity.
Qed.

Lemma recordLatency_history (latency : Z) (s : Dash) :
  latencyHistoryRef (recordLatency latency s)
  = (let pushed := latencyHistoryRef s ++ [latency] in
     if (10 <? List.length pushed)%nat then tl pushed else pushed).
Proof. unfold recordLatency. cbv zeta. split_ifs; reflexivity. Qed.

Lemma recordLatency_interval (latency : Z) (s : Dash) :
  adaptiveIntervalRef (recordLatency latency s)
  = (let history := latencyHistoryRef (recordLatency latency s) in
     if (5 <=? List.length history)%nat
     then if Qlt_bool (avgLatency history) 300 then 1000
          else if Qlt_bool (avgLatency history) 600 then 1500 else 2500
     else adaptiveIntervalRef s)%Z.
Proof.
  rewrite recordLatency_history. unfold recordLatency. cbv zeta.
  set (history := if (10 <? List.length (latencyHistoryRef s ++ [latency]))%nat
                  then tl (latencyHistoryRef s ++ [latency])
                  else latencyHistoryRef s ++ [latency]).
  destruct (5 <=? List.length history)%nat; [|reflexivity].
  destruct (Qlt_bool (avgLatency history) 300); [reflexivity|].
  destruct (Qlt_bool (avgLatency history) 600); reflexivity.
Qed.

(** The code's mean against the specification's: the handler's running
    sum is the sum of the window, and its quotient is below a bound
    exactly when the sum is below the bound times the size. *)
Lemma sumLatency_from (w : list Z) (a : Z) :
  fold_left Z.add w a = (a + spec_sum w)%Z.
Proof.
  revert a. induction w as [|x r IH]; intros a; simpl; [lia|].
  rewrite IH. lia.
Qed.

Lemma sumLatency_spec (w : list Z) : sumLatency w = spec_sum w.
Proof. unfold sumLatency. now rewrite sumLatency_from. Qed.

Lemma size_positive (w : list Z) :
  w <> [] -> Z.pos (Pos.of_nat (List.length w)) = Z.of_nat (List.length w).
Proof.
  intros Hw. rewrite <- positive_nat_Z, Nat2Pos.id; [reflexivity|].
  destruct w; [contradiction|discriminate].
Qed.

Lemma avgLatency_mean (w : list Z) : w <> [] -> avgLatency w == spec_mean w.
Proof.
  intros Hw. unfold avgLatency, spec_mean. rewrite sumLatency_spec.
  pose proof (size_positive w Hw) as Hn.
  assert (0 < Z.of_nat (List.length w))%Z as Hpos by lia.
  revert Hn Hpos.
  generalize (spec_sum w) (Pos.of_nat (List.length w)) (Z.of_nat (List.length w)).
  intros total p n Hn Hpos. subst n.
  unfold Qeq, Qdiv, Qmult, Qinv, inject_Z. cbn. lia.
Qed.

Lemma mean_below (w : list Z) (bound : Z) :
  w <> [] -> (spec_mean w < bound # 1 <-> spec_below w bound = true).
Proof.
  intros Hw. unfold spec_mean, spec_below, Qlt. cbn [Qnum Qden].
  rewrite Z.ltb_lt, (size_positive w Hw). lia.
Qed.

Lemma avg_below (w : list Z) (bound : Z) :
  w <> [] -> Qlt_bool (avgLatency w) (bound # 1) = spec_below w bound.
Proof.
  intros Hw. apply eq_true_iff_eq.
  rewrite Qlt_bool_iff, (avgLatency_mean w Hw). apply mean_below, Hw.
Qed.

Lemma feed_spec (samples : list Z) (s : Dash) :
  latencyHistoryRef s = [] -> adaptiveIntervalRef s = 1500%Z ->
  latencyHistoryRef (feed samples s) = spec_window samples
  /\ adaptiveIntervalRef (feed samples s) = spec_interval samples.
Proof.
  intros Hh Hi. induction samples as [|x samples [IHw IHi]] using rev_ind.
  - simpl. split; assumption.
  - unfold feed in *. rewrite fold_left_app. simpl fold_left.
    assert (latencyHistoryRef
              (recordLatency x (fold_left (fun s0 l => recordLatency l s0) samples s))
            = spec_window (samples ++ [x])) as Hw.
    { rewrite recordLatency_history, IHw. apply window_push. }
    split; [exact Hw|].
    rewrite recordLatency_interval, Hw, IHi. cbv zeta.
    unfold spec_interval at 2. cbv zeta.
    rewrite spec_window_length, length_app. simpl List.length.
    destruct (Nat.leb_spec 5 (Nat.min (List.length samples + 1) 10)) as [Hge|Hlt];
      destruct (Nat.ltb_spec (List.length samples + 1) 5) as [Hlt'|Hge'];
      try lia.
    + assert (spec_window (samples ++ [x]) <> []) as Hne.
      { intros Hnil. apply (f_equal (@List.length Z)) in Hnil.
        rewrite spec_window_length, length_app in Hnil. simpl in Hnil. lia. }
      now rewrite (avg_below _ 300 Hne), (avg_below _ 600 Hne).
    + unfold spec_interval.
      destruct (Nat.ltb_spec (List.length samples) 5); [reflexivity|lia].
Qed.

(** A verdict with a subject records its round trip, the time from the
    last send to the arrival of the response. *)
Lemma handler_records_latency
  (now : Z) (data : DetectionResponse) (status : PPEStatus) (s : Dash) :
  ppe_status data = Some status ->
  has_person data <> Some false ->
  let s1 := recordLatency (now - lastSendTimeRef s) s in
  latencyHistoryRef (handleDetectionResponse cfg now data s) = latencyHistoryRef s1
  /\ adaptiveIntervalRef (handleDetectionResponse cfg now data s) = adaptiveIntervalRef s1.
Proof.
  intros Hst Hp. cbv zeta. unfold handleDetectionResponse. rewrite Hst.
  destruct (has_person data) as [[|]|]; try congruence;
    unfold pauseOnViolation, showVerdict, cancelPauseTimeout, cancelDetectionInterval,
      act, prependRecord;
    simpl; split_ifs; split; reflexivity.
Qed.

(** *** The scheduler invariant *)

Lemma invariant_idle (c : Sched) :
  (1 <= sched_next c)%nat -> sched_pauseTimeout c = None -> sched_timers c = [] ->
  invariant c.
Proof. intros. repeat split; auto. Qed.

Lemma invariant_initial (stored : option (list DetectionRecord)) :
  invariant (sched (initial cfg stored)).
Proof. apply invariant_idle; simpl; auto. Qed.

(** Cancelling the tracked timeout empties the pool. *)
Lemma cancelDetectionInterval_clears (s : Dash) :
  timers s = [] \/ tracked (sched s) ->
  timers (cancelDetectionInterval s) = []
  /\ nextTimerId (cancelDetectionInterval s) = nextTimerId s
  /\ pauseTimeoutRef (cancelDetectionInterval s) = pauseTimeoutRef s
  /\ isPaused (cancelDetectionInterval s) = isPaused s
  /\ isSafetyModalOpen (cancelDetectionInterval s) = isSafetyModalOpen s
  /\ cameraActive (cancelDetectionInterval s) = cameraActive s
  /\ log (cancelDetectionInterval s) = log s
  /\ wsRef (cancelDetectionInterval s) = wsRef s.
Proof.
  intros [Hnil|(t & Ht & Href & Hid)]; simpl in *; unfold cancelDetectionInterval.
  - destruct (detectionIntervalRef s) as [i|]; [destruct (i =? 0)%nat|];
      simpl; rewrite ?Hnil; repeat split; reflexivity.
  - rewrite Href. destruct (Nat.eqb_spec (timer_id t) 0); [lia|].
    simpl. rewrite Ht. simpl. rewrite Nat.eqb_refl. simpl.
    repeat split; reflexivity.
Qed.

Lemma recordLatency_sched (latency : Z) (s : Dash) :
  sched (recordLatency latency s) = sched s
  /\ log (recordLatency latency s) = log s
  /\ wsRef (recordLatency latency s) = wsRef s.
Proof. unfold recordLatency. cbv zeta. split_ifs; repeat split; reflexivity. Qed.

Lemma showVerdict_sched (data : DetectionResponse) (status : PPEStatus) (s : Dash) :
  sched (showVerdict data status s) = sched s
  /\ log (showVerdict data status s) = log s
  /\ wsRef (showVerdict data status s) = wsRef s.
Proof. unfold showVerdict. cbv zeta. split_ifs; repeat split; reflexivity. Qed.

Lemma prependRecord_sched (r : DetectionRecord) (s : Dash) :
  sched (prependRecord cfg r s) = sched s
  /\ log (prependRecord cfg r s) = log s
  /\ wsRef (prependRecord cfg r s) = wsRef s.
Proof. repeat split; reflexivity. Qed.

Lemma captures_act (a : Action) (s : Dash) :
  captures (act a s) = captures s ++ (if isCapture a then [a] else []).
Proof.
  unfold captures, act. simpl. rewrite filter_app. simpl.
  destruct (isCapture a); reflexivity.
Qed.

(** The pause transition: flag set, modal open, alert raised, nothing
    left pending. *)
Lemma pauseOnViolation_spec (s : Dash) :
  timers s = [] \/ tracked (sched s) ->
  pauseTimeoutRef s = None ->
  let s' := pauseOnViolation cfg s in
  isPaused s' = true /\ isSafetyModalOpen s' = true
  /\ timers s' = []
  /\ nextTimerId s' = nextTimerId s /\ pauseTimeoutRef s' = None
  /\ cameraActive s' = cameraActive s
  /\ wsRef s' = wsRef s
  /\ log s' = log s ++ [AlertTrigger (alerts_type cfg) (alerts_volume cfg)
                                     (alerts_repeatInterval cfg)].
Proof.
  intros Hcase Hp. cbv zeta. unfold pauseOnViolation. cbv zeta.
  set (s2 := set_isSafetyModalOpen true (set_isPaused true (act _ s))).
  assert (timers s2 = [] \/ tracked (sched s2)) as Hcase2.
  { destruct Hcase as [Hnil|Htr]; [left; exact Hnil|right; exact Htr]. }
  destruct (cancelDetectionInterval_clears s2 Hcase2)
    as (Ht & Hn & Hpt & Hpa & Hmo & Hca & Hlg & Hws).
  unfold cancelPauseTimeout. rewrite Hpt. simpl. rewrite Hp.
  rewrite Ht, Hn, Hpa, Hmo, Hca, Hlg, Hws, Hpt. simpl. rewrite Hp.
  repeat split; reflexivity.
Qed.

(** What a verdict does to the scheduler: nothing, unless it is a
    non-compliant verdict with a subject, which pauses the gate and
    leaves no timeout pending.  It never captures and never touches the
    socket. *)
Lemma handler_sched (now : Z) (data : DetectionResponse) (s : Dash) :
  invariant (sched s) ->
  let s' := handleDetectionResponse cfg now data s in
  wsRef s' = wsRef s
  /\ captures s' = captures s
  /\ ((sched s' = sched s
       /\ (ppe_status data = None \/ has_person data = Some false
           \/ is_compliant data = true))
      \/ (is_compliant data = false /\ has_person data <> Some false
          /\ isPaused s' = true /\ isSafetyModalOpen s' = true
          /\ timers s' = []
          /\ nextTimerId s' = nextTimerId s /\ pauseTimeoutRef s' = None)).
Proof.
  intros (Hnext & Hpt & Hcase). cbv zeta. unfold handleDetectionResponse.
  destruct (ppe_status data) as [status|]; [|repeat split; left; auto].
  assert (has_person data = Some false \/ has_person data <> Some false) as [Hp|Hp].
  { destruct (has_person data) as [[|]|]; auto; right; discriminate. }
  { rewrite Hp. repeat split; left; auto. }
  set (r := crearRegistroDesdeDeteccion cfg now data status).
  set (s2 := prependRecord cfg r
               (prependRecord cfg r
                  (showVerdict data status (recordLatency (now - lastSendTimeRef s) s)))).
  assert (sched s2 = sched s /\ log s2 = log s /\ wsRef s2 = wsRef s) as (Hs & Hl & Hw).
  { destruct (recordLatency_sched (now - lastSendTimeRef s) s) as (A1 & A2 & A3).
    destruct (showVerdict_sched data status (recordLatency (now - lastSendTimeRef s) s))
      as (B1 & B2 & B3).
    unfold s2. simpl. unfold prependRecord at 1 2. simpl.
    split; [|split]; etransitivity; eauto. }
  assert (match has_person data with
          | Some false => showNoSubject s
          | _ => if negb (is_compliant data)
                 then pauseOnViolation cfg s2 else act AlertReset s2
          end
          = if negb (is_compliant data)
            then pauseOnViolation cfg s2 else act AlertReset s2) as ->.
  { destruct (has_person data) as [[|]|]; congruence. }
  destruct (is_compliant data); simpl.
  - rewrite captures_act. simpl. rewrite app_nil_r. unfold captures. rewrite Hl.
    split; [exact Hw|]. split; [reflexivity|]. left. auto.
  - assert (timers s2 = [] \/ tracked (sched s2)) as Hcase2.
    { rewrite Hs. destruct Hcase as [Hnil|(Htr & _)]; [left|right; exact Htr].
      change (sched_timers (sched s2) = []). now rewrite Hs. }
    assert (pauseTimeoutRef s2 = None) as Hpt2.
    { change (sched_pauseTimeout (sched s2) = None). now rewrite Hs. }
    destruct (pauseOnViolation_spec s2 Hcase2 Hpt2)
      as (Hpa & Hmo & Ht & Hn & Hpt' & Hca & Hws & Hlg).
    split; [now rewrite Hws|]. split.
    + unfold captures. rewrite Hlg, filter_app, Hl. simpl. apply app_nil_r.
    + right. repeat split; auto.
      rewrite Hn. change (sched_next (sched s2) = sched_next (sched s)).
      now rewrite Hs.
Qed.

Lemma handler_invariant (now : Z) (data : DetectionResponse) (s : Dash) :
  invariant (sched s) -> invariant (sched (handleDetectionResponse cfg now data s)).
Proof.
  intros Hinv. destruct (handler_sched now data s Hinv) as (_ & _ & [(Hs & _)|Hpause]).
  - now rewrite Hs.
  - destruct Hpause as (_ & _ & _ & _ & Ht & Hn & Hp).
    apply invariant_idle; simpl; auto.
    rewrite Hn. now destruct Hinv.
Qed.

Ltac sched_simpl :=
  cbn [sched sched_next sched_pauseTimeout sched_timers sched_ref
       sched_paused sched_active].

Lemma wsSend_sched (img : string) (env : Env) (s : Dash) :
  sched (wsSend img env s) = sched s /\ log (wsSend img env s) = log s.
Proof. unfold wsSend. destruct (wsRef s); split; reflexivity. Qed.

Lemma captureAndSend_sched (env : Env) (s : Dash) :
  sched (captureAndSend env s) = sched s.
Proof.
  unfold captureAndSend, act.
  destruct (isProcessingRef s); [reflexivity|].
  destruct (cameraFeed env) as [[img|]|]; simpl; try reflexivity.
  destruct (Js.truthy_string img); [|reflexivity].
  now destruct (wsSend_sched img env
                  (set_log (log s ++ [Capture (Some img)])
                     (set_lastSendTimeRef (now env)
                        (set_isDetecting true (set_isProcessingRef true s))))).
Qed.

(** Arming a timeout on an empty pool re-establishes the invariant. *)
Lemma schedule_invariant (c : Chain) (s : Dash) :
  (1 <= nextTimerId s)%nat -> pauseTimeoutRef s = None -> timers s = [] ->
  isPaused s = false -> cameraActive s = true ->
  invariant (sched (scheduleNextDetection c s)).
Proof.
  intros Hn Hp Ht Hpa Hca. unfold scheduleNextDetection, invariant, tracked. simpl.
  rewrite Ht. repeat split; auto.
  right. repeat split; auto.
  eexists. repeat split; simpl; auto.
Qed.

Lemma handleResume_invariant (env : Env) (s : Dash) :
  invariant (sched s) -> isPaused s = true ->
  invariant (sched (handleResume env s)).
Proof.
  intros (Hn & Hp & Hcase) Hpa.
  assert (timers s = []) as Ht.
  { destruct Hcase as [H|(_ & H & _)]; [exact H|]. simpl in H. congruence. }
  unfold handleResume. cbv zeta.
  set (s2 := if negb (cameraActive s) then _ else _).
  assert (nextTimerId s2 = nextTimerId s /\ pauseTimeoutRef s2 = pauseTimeoutRef s
          /\ timers s2 = timers s /\ isPaused s2 = false /\ cameraActive s2 = true)
    as (E1 & E2 & E3 & E4 & E5).
  { unfold s2. destruct (cameraActive s) eqn:Hc; simpl; repeat split; auto. }
  simpl in Hn, Hp.
  destruct (cameraMounted env && wsConnected s2).
  - apply schedule_invariant; congruence.
  - apply invariant_idle; simpl; congruence.
Qed.

Lemma startDetection_invariant (env : Env) (s : Dash) :
  invariant (sched s) -> isPaused s = false -> cameraActive s = false ->
  invariant (sched (startDetection env s)).
Proof.
  intros (Hn & Hp & Hcase) Hpa Hca.
  assert (timers s = []) as Ht.
  { destruct Hcase as [H|(_ & _ & H)]; [exact H|]. simpl in H. congruence. }
  unfold startDetection.
  destruct (negb (cameraMounted env) || negb (wsConnected s)).
  - apply invariant_idle; simpl; auto.
  - apply schedule_invariant; simpl; auto.
Qed.

Lemma stopDetection_spec (s : Dash) :
  invariant (sched s) ->
  timers (stopDetection s) = [] /\ isPaused (stopDetection s) = false
  /\ nextTimerId (stopDetection s) = nextTimerId s
  /\ pauseTimeoutRef (stopDetection s) = pauseTimeoutRef s
  /\ log (stopDetection s) = log s /\ wsRef (stopDetection s) = wsRef s
  /\ latencyHistoryRef (stopDetection s) = []
  /\ adaptiveIntervalRef (stopDetection s) = 1500%Z.
Proof.
  intros (Hn & Hp & Hcase). unfold stopDetection. cbv zeta. simpl.
  destruct Hcase as [Hnil|((t & Ht & Href & Hid) & _)]; simpl in *.
  - destruct (detectionIntervalRef s) as [i|]; [destruct (i =? 0)%nat|];
      simpl; rewrite ?Hnil; repeat split; reflexivity.
  - rewrite Href. destruct (Nat.eqb_spec (timer_id t) 0); [lia|].
    simpl. rewrite Ht. simpl. rewrite Nat.eqb_refl. simpl.
    repeat split; reflexivity.
Qed.

Lemma stopDetection_invariant (s : Dash) :
  invariant (sched s) -> invariant (sched (stopDetection s)).
Proof.
  intros Hinv. destruct (stopDetection_spec s Hinv) as (Ht & _ & Hn & Hp & _).
  destruct Hinv as (Hn0 & Hp0 & _). simpl in Hn0, Hp0.
  apply invariant_idle; sched_simpl; congruence.
Qed.

Lemma fire_invariant (i : nat) (env : Env) (s : Dash) :
  invariant (sched s) -> invariant (sched (fire i env s)).
Proof.
  intros Hinv. pose proof Hinv as (Hn & Hp & Hcase). unfold fire.
  destruct Hcase as [Hnil|((t & Ht & Href & Hid) & Hpa & Hca)]; simpl in *.
  - now rewrite Hnil.
  - rewrite Ht. simpl. destruct (Nat.eqb_spec (timer_id t) i) as [<-|Hne]; [|exact Hinv].
    set (s1 := clearTimeout (timer_id t) s).
    assert (timers s1 = [] /\ nextTimerId s1 = nextTimerId s
            /\ pauseTimeoutRef s1 = None /\ isPaused s1 = false
            /\ cameraActive s1 = true) as (E1 & E2 & E3 & E4 & E5).
    { unfold s1, clearTimeout. simpl. rewrite Ht. simpl. rewrite Nat.eqb_refl.
      simpl. repeat split; auto. }
    assert (invariant (sched s1)) as Hinv1
      by (apply invariant_idle; sched_simpl; congruence).
    pose proof (captureAndSend_sched env s1) as Hcs.
    assert (forall c, invariant (sched (scheduleNextDetection c (captureAndSend env s1))))
      as Hsch.
    { intros c.
      apply schedule_invariant;
        [ change (1 <= sched_next (sched (captureAndSend env s1)))%nat
        | change (sched_pauseTimeout (sched (captureAndSend env s1)) = None)
        | change (sched_timers (sched (captureAndSend env s1)) = [])
        | change (sched_paused (sched (captureAndSend env s1)) = false)
        | change (sched_active (sched (captureAndSend env s1)) = true) ];
        rewrite Hcs; sched_simpl; congruence. }
    destruct (timer_chain t) as [paused|].
    + unfold startCallback.
      destruct (negb (cameraMounted env) || negb (wsConnected s1) || paused) eqn:Hskip;
        [exact Hinv1|].
      destruct paused; [now rewrite !orb_true_r in Hskip|]. simpl. apply Hsch.
    + unfold resumeCallback.
      destruct (negb (cameraMounted env) || negb (wsConnected s1)); [exact Hinv1|].
      apply Hsch.
Qed.

(** A socket event reaches the component only through its callbacks. *)
Lemma handle_host (now : Z) (e : PPEWebSocket.Event) (w : PPEWebSocket.t) (s : Dash) :
  let r := PPEWebSocket.handle (handleDetectionResponse cfg now)
             (Some (set_isConnected false)) (Some (set_isConnected true))
             (Some (set_isConnected false)) now e (w, s) in
  snd r = s
  \/ (exists b, snd r = set_isConnected b s)
  \/ (exists data, snd r = handleDetectionResponse cfg now data s).
Proof.
  cbv zeta. destruct e as [|m throws| |code|delay| |throws| |code];
    unfold PPEWebSocket.handle; simpl; auto.
  - destruct (PPEWebSocket.ws w) as [[]|]; simpl; eauto.
  - destruct m; simpl; eauto.
  - eauto.
  - destruct (PPEWebSocket.ws w); simpl; eauto.
  - eauto.
  - eauto.
Qed.

Lemma socketEvent_spec (now : Z) (e : PPEWebSocket.Event) (s : Dash) :
  invariant (sched s) ->
  invariant (sched (socketEvent cfg now e s))
  /\ captures (socketEvent cfg now e s) = captures s
  /\ (isPaused s = true -> isPaused (socketEvent cfg now e s) = true).
Proof.
  intros Hinv. unfold socketEvent. destruct (wsRef s) as [w|]; [|auto].
  pose proof (handle_host now e w s) as H. cbv zeta in H.
  set (r := PPEWebSocket.handle _ _ _ _ now e (w, s)) in *.
  change (invariant (sched (snd r))
          /\ captures (snd r) = captures s
          /\ (isPaused s = true -> isPaused (snd r) = true)).
  destruct H as [->|[(b & ->)|(data & ->)]]; auto.
  destruct (handler_sched now data s Hinv) as (_ & Hc & Hcase).
  split; [exact (handler_invariant now data s Hinv)|]. split; [exact Hc|].
  intros Hpa. destruct Hcase as [(Hs & _)|(_ & _ & H & _)]; [|exact H].
  change (sched_paused (sched (handleDetectionResponse cfg now data s)) = true).
  now rewrite Hs.
Qed.

Lemma step_invariant (e : Event) (s : Dash) :
  invariant (sched s) -> invariant (sched (step cfg e s)).
Proof.
  intros Hinv. destruct e; simpl.
  - destruct (wsRef s); exact Hinv.
  - destruct (isConnected s); simpl; [|exact Hinv].
    destruct (isPaused s) eqn:Hpa; [now apply handleResume_invariant|].
    destruct (cameraActive s) eqn:Hca;
      [now apply stopDetection_invariant|now apply startDetection_invariant].
  - destruct (isSafetyModalOpen s && isPaused s) eqn:H; [|exact Hinv].
    apply andb_prop in H. now apply handleResume_invariant.
  - destruct (isSafetyModalOpen s); exact Hinv.
  - exact Hinv.
  - now apply stopDetection_invariant.
  - now apply fire_invariant.
  - now apply socketEvent_spec.
  - exact Hinv.
Qed.

(** Every state the mounted component can reach satisfies the invariant. *)
Lemma run_invariant (evs : list Event) (s : Dash) :
  invariant (sched s) -> invariant (sched (run cfg evs s)).
Proof.
  revert s. induction evs as [|e evs IH]; intros s Hinv; [exact Hinv|].
  simpl. apply IH. now apply step_invariant.
Qed.

Lemma paused_no_timers (s : Dash) :
  invariant (sched s) -> isPaused s = true -> timers s = [].
Proof.
  intros (_ & _ & [H|(_ & H & _)]) Hpa; [exact H|]. simpl in H. congruence.
Qed.

Lemma requests_emit (e : PPEWebSocket.Effect) (w : PPEWebSocket.t) :
  isRequest e = false ->
  filter isRequest (PPEWebSocket.trace (PPEWebSocket.emit e w))
  = filter isRequest (PPEWebSocket.trace w).
Proof.
  intros He. unfold PPEWebSocket.emit. simpl. rewrite filter_app. simpl.
  rewrite He. apply app_nil_r.
Qed.

Lemma requests_attemptReconnect (w : PPEWebSocket.t) :
  filter isRequest (PPEWebSocket.trace (PPEWebSocket.attemptReconnect w))
  = filter isRequest (PPEWebSocket.trace w).
Proof.
  unfold PPEWebSocket.attemptReconnect. cbv zeta.
  rewrite requests_emit by reflexivity. simpl.
  destruct (PPEWebSocket.currentDelayIndex w <? 3)%nat; reflexivity.
Qed.

(** No socket event writes a detection request. *)
Lemma handle_requests (now : Z) (e : PPEWebSocket.Event) (w : PPEWebSocket.t) (s : Dash) :
  filter isRequest
    (PPEWebSocket.trace
       (fst (PPEWebSocket.handle (handleDetectionResponse cfg now)
               (Some (set_isConnected false)) (Some (set_isConnected true))
               (Some (set_isConnected false)) now e (w, s))))
  = filter isRequest (PPEWebSocket.trace w).
Proof.
  destruct e as [|m throws| |code|delay| |throws| |code]; unfold PPEWebSocket.handle;
    cbn [fst snd].
  - destruct (PPEWebSocket.ws w) as [[]|]; reflexivity.
  - destruct m; cbn [PPEWebSocket.onmessage fst snd]; try reflexivity.
    unfold PPEWebSocket.sendPong.
    destruct (PPEWebSocket.isConnected w && negb throws); [|reflexivity].
    now apply requests_emit.
  - reflexivity.
  - destruct (PPEWebSocket.ws w); unfold PPEWebSocket.onclose; cbn [fst snd];
      match goal with |- context [if ?b then _ else _] => destruct b end;
      rewrite ?requests_attemptReconnect; reflexivity.
  - unfold PPEWebSocket.reconnectDue.
    destruct (existsb (Z.eqb delay) (PPEWebSocket.pendingReconnects w)); [|reflexivity].
    unfold PPEWebSocket.connect. now rewrite requests_emit.
  - unfold PPEWebSocket.stableElapsed.
    destruct (PPEWebSocket.stableConnectionTimer w); reflexivity.
  - unfold PPEWebSocket.heartbeat.
    destruct (PPEWebSocket.heartbeatInterval w); [|reflexivity].
    destruct (PPEWebSocket.isConnected w); [|reflexivity].
    destruct throws; [unfold PPEWebSocket.connect|]; now rewrite requests_emit.
  - reflexivity.
  - unfold PPEWebSocket.onclose; cbn [fst snd];
      match goal with |- context [if ?b then _ else _] => destruct b end;
      rewrite ?requests_attemptReconnect; reflexivity.
Qed.

Lemma socketEvent_requests (now : Z) (e : PPEWebSocket.Event) (s : Dash) :
  requests (socketEvent cfg now e s) = requests s.
Proof.
  unfold socketEvent, requests. destruct (wsRef s) as [w|] eqn:Hw.
  - simpl. apply handle_requests.
  - now rewrite Hw.
Qed.

(** With no timeout pending, no event captures a frame or writes a
    detection request. *)
Lemma idle_step_captures_nothing (e : Event) (s : Dash) :
  invariant (sched s) -> timers s = [] ->
  captures (step cfg e s) = captures s /\ requests (step cfg e s) = requests s.
Proof.
  intros Hinv Ht. destruct e; simpl.
  - unfold requests. destruct (wsRef s) eqn:Hw; simpl; rewrite ?Hw; auto.
  - destruct (isConnected s); simpl; [|auto].
    destruct (isPaused s).
    + unfold handleResume, scheduleNextDetection. cbv zeta.
      destruct (cameraActive s); simpl;
        match goal with |- context [if ?b then _ else _] => destruct b end; auto.
    + destruct (cameraActive s).
      * destruct (stopDetection_spec s Hinv) as (_ & _ & _ & _ & Hl & Hw & _).
        unfold captures, requests. now rewrite Hl, Hw.
      * unfold startDetection.
        destruct (negb (cameraMounted env) || negb (wsConnected s)); [|auto].
        rewrite captures_act. simpl. rewrite app_nil_r. auto.
  - destruct (isSafetyModalOpen s && isPaused s); [|auto].
    unfold handleResume, scheduleNextDetection. cbv zeta.
    destruct (cameraActive s); simpl;
      match goal with |- context [if ?b then _ else _] => destruct b end; auto.
  - destruct (isSafetyModalOpen s); auto.
  - auto.
  - unfold handleRefresh.
    destruct (stopDetection_spec s Hinv) as (_ & _ & _ & _ & Hl & Hw & _).
    unfold captures, requests. now rewrite Hl, Hw.
  - unfold fire. rewrite Ht. auto.
  - split; [apply socketEvent_spec; exact Hinv|apply socketEvent_requests].
  - auto.
Qed.

(** A paused gate stays paused under every event but a resume or a stop. *)
Lemma paused_step_stays_paused (e : Event) (s : Dash) :
  invariant (sched s) -> isPaused s = true -> leavesPause e = false ->
  isPaused (step cfg e s) = true.
Proof.
  intros Hinv Hpa He. destruct e; simpl in *; try discriminate.
  - destruct (wsRef s); exact Hpa.
  - destruct (isSafetyModalOpen s); exact Hpa.
  - exact Hpa.
  - unfold fire. now rewrite (paused_no_timers s Hinv Hpa).
  - now apply socketEvent_spec.
  - exact Hpa.
Qed.

(** C1, as the code has it: in every state the mounted component can
    reach, a paused gate has no capture pending; from there no event
    captures a frame or writes a detection request, and the gate stays
    paused with nothing pending until a resume button or the stop
    (refresh) is used; and in every reachable state a non-compliant
    verdict that does not report an empty scene sets the pause flag, opens
    the modal and leaves no timeout pending. *)
Theorem paused_gate_fires_no_capture
  (stored : option (list DetectionRecord)) (evs : list Event) :
  let s := run cfg evs (initial cfg stored) in
  isPaused s = true ->
  timers s = []
  /\ (forall e,
        let s' := step cfg e s in
        captures s' = captures s /\ requests s' = requests s
        /\ (leavesPause e = false -> isPaused s' = true /\ timers s' = []))
  /\ (forall stored0 evs0 now data status,
        ppe_status data = Some status ->
        has_person data <> Some false ->
        is_compliant data = false ->
        let s1 := handleDetectionResponse cfg now data
                    (run cfg evs0 (initial cfg stored0)) in
        isPaused s1 = true /\ isSafetyModalOpen s1 = true /\ timers s1 = []).
Proof.
  cbv zeta. intros Hpa.
  pose proof (run_invariant evs _ (invariant_initial stored)) as Hinv.
  pose proof (paused_no_timers _ Hinv Hpa) as Ht.
  split; [exact Ht|]. split.
  - intros e.
    destruct (idle_step_captures_nothing e _ Hinv Ht) as (Hc & Hr).
    split; [exact Hc|]. split; [exact Hr|].
    intros He. pose proof (paused_step_stays_paused e _ Hinv Hpa He) as Hpa'.
    split; [exact Hpa'|].
    exact (paused_no_timers _ (step_invariant e _ Hinv) Hpa').
  - intros stored0 evs0 now data status Hst Hp Hc.
    pose proof (run_invariant evs0 _ (invariant_initial stored0)) as Hinv0.
    destruct (handler_sched now data _ Hinv0)
      as (_ & _ & [(_ & [H|[H|H]])|Hpause]); try congruence.
    destruct Hpause as (_ & _ & H1 & H2 & H3 & _). auto.
Qed.

(** *** The latency policy along a session *)

Lemma recordLatency_policy (latency : Z) (s : Dash) :
  latencyPolicy s -> latencyPolicy (recordLatency latency s).
Proof.
  intros (Hlen & Hin & Hdef). unfold latencyPolicy.
  rewrite recordLatency_interval, recordLatency_history. cbv zeta.
  set (pushed := latencyHistoryRef s ++ [latency]).
  assert (List.length pushed = S (List.length (latencyHistoryRef s))) as Hp
    by (unfold pushed; rewrite length_app; simpl; lia).
  set (history := if (10 <? List.length pushed)%nat then tl pushed else pushed).
  assert (List.length history <= 10
          /\ List.length (latencyHistoryRef s) <= List.length history)%nat as (H10 & Hmono).
  { unfold history. destruct (Nat.ltb_spec 10 (List.length pushed)).
    - destruct pushed; simpl in *; lia.
    - lia. }
  split; [exact H10|].
  destruct (Nat.leb_spec 5 (List.length history)) as [H5|H5].
  - split; [|lia].
    destruct (Qlt_bool (avgLatency history) 300); [simpl; auto|].
    destruct (Qlt_bool (avgLatency history) 600); simpl; auto.
  - split; [exact Hin|]. intros _. apply Hdef. lia.
Qed.

Lemma handler_latency (now : Z) (data : DetectionResponse) (s : Dash) :
  let s' := handleDetectionResponse cfg now data s in
  (latencyHistoryRef s' = latencyHistoryRef s
   /\ adaptiveIntervalRef s' = adaptiveIntervalRef s)
  \/ (latencyHistoryRef s'
      = latencyHistoryRef (recordLatency (now - lastSendTimeRef s) s)
      /\ adaptiveIntervalRef s'
         = adaptiveIntervalRef (recordLatency (now - lastSendTimeRef s) s)).
Proof.
  cbv zeta. destruct (ppe_status data) as [status|] eqn:Hst.
  - assert (has_person data = Some false \/ has_person data <> Some false) as [Hp|Hp].
    { destruct (has_person data) as [[|]|]; auto; right; discriminate. }
    + left. unfold handleDetectionResponse. rewrite Hst, Hp. split; reflexivity.
    + right. exact (handler_records_latency now data status s Hst Hp).
  - left. unfold handleDetectionResponse. rewrite Hst. split; reflexivity.
Qed.

Lemma policy_ext (s s' : Dash) :
  latencyHistoryRef s' = latencyHistoryRef s ->
  adaptiveIntervalRef s' = adaptiveIntervalRef s ->
  latencyPolicy s -> latencyPolicy s'.
Proof. unfold latencyPolicy. intros -> ->. auto. Qed.

Lemma handler_policy (now : Z) (data : DetectionResponse) (s : Dash) :
  latencyPolicy s -> latencyPolicy (handleDetectionResponse cfg now data s).
Proof.
  intros Hpol. destruct (handler_latency now data s) as [(Hh & Hi)|(Hh & Hi)].
  - exact (policy_ext _ _ Hh Hi Hpol).
  - exact (policy_ext _ _ Hh Hi (recordLatency_policy _ s Hpol)).
Qed.

Lemma captureAndSend_latency (env : Env) (s : Dash) :
  latencyHistoryRef (captureAndSend env s) = latencyHistoryRef s
  /\ adaptiveIntervalRef (captureAndSend env s) = adaptiveIntervalRef s.
Proof.
  unfold captureAndSend, wsSend, act.
  destruct (isProcessingRef s); [auto|].
  destruct (cameraFeed env) as [[img|]|]; simpl; auto.
  destruct (Js.truthy_string img); simpl; auto.
  destruct (wsRef s); auto.
Qed.

Lemma fire_latency (i : nat) (env : Env) (s : Dash) :
  latencyHistoryRef (fire i env s) = latencyHistoryRef s
  /\ adaptiveIntervalRef (fire i env s) = adaptiveIntervalRef s.
Proof.
  unfold fire. destruct (find _ (timers s)) as [t|]; [|auto].
  pose proof (captureAndSend_latency env (clearTimeout i s)) as (Hh & Hi).
  destruct (timer_chain t) as [paused|].
  - unfold startCallback.
    destruct (negb (cameraMounted env) || negb (wsConnected (clearTimeout i s)) || paused);
      [auto|].
    destruct (negb paused); simpl; auto.
  - unfold resumeCallback.
    destruct (negb (cameraMounted env) || negb (wsConnected (clearTimeout i s)));
      simpl; auto.
Qed.

Lemma step_policy (e : Event) (s : Dash) :
  latencyPolicy s -> latencyPolicy (step cfg e s).
Proof.
  intros Hpol.
  assert (latencyPolicy (stopDetection s)) as Hstop.
  { unfold latencyPolicy, stopDetection. cbv zeta. simpl. repeat split; auto; lia. }
  assert (forall env, latencyPolicy (handleResume env s)) as Hres.
  { intros env. apply (policy_ext s); [| |exact Hpol];
      unfold handleResume, scheduleNextDetection; cbv zeta;
      destruct (cameraActive s); simpl;
        match goal with |- context [if ?b then _ else _] => destruct b end;
        reflexivity. }
  destruct e as [|env|env| |historical| |i env|now e|]; simpl.
  - destruct (wsRef s); exact Hpol.
  - destruct (isConnected s); simpl; [|exact Hpol].
    destruct (isPaused s); [apply Hres|].
    destruct (cameraActive s); [exact Hstop|].
    apply (policy_ext s); [| |exact Hpol];
      unfold startDetection; destruct (_ || _); reflexivity.
  - destruct (isSafetyModalOpen s && isPaused s); [apply Hres|exact Hpol].
  - destruct (isSafetyModalOpen s); exact Hpol.
  - exact Hpol.
  - exact Hstop.
  - destruct (fire_latency i env s) as (Hh & Hi). exact (policy_ext _ _ Hh Hi Hpol).
  - unfold socketEvent. destruct (wsRef s) as [w|]; [|exact Hpol].
    pose proof (handle_host now e w s) as H. cbv zeta in H.
    set (r := PPEWebSocket.handle _ _ _ _ now e (w, s)) in *.
    change (latencyPolicy (snd r)).
    destruct H as [->|[(b & ->)|(data & ->)]];
      [exact Hpol|exact Hpol|now apply handler_policy].
  - exact Hpol.
Qed.

Lemma run_policy (evs : list Event) (s : Dash) :
  latencyPolicy s -> latencyPolicy (run cfg evs s).
Proof.
  revert s. induction evs as [|e evs IH]; intros s Hpol; [exact Hpol|].
  simpl. apply IH. now apply step_policy.
Qed.

Lemma policy_initial (stored : option (list DetectionRecord)) :
  latencyPolicy (initial cfg stored).
Proof. unfold latencyPolicy. simpl. repeat split; auto; lia. Qed.

(** C5: starting from an empty window and the default interval, after any
    run of round-trip samples the window holds the ten most recent ones in
    order of arrival; with fewer than 5 samples the interval is still
    1500 ms whatever the samples are, and from 5 samples on it is 1000 ms
    when the mean of the window (its sum over its size) is below 300 ms,
    1500 ms when the mean is from 300 ms up to but not including 600 ms,
    and 2500 ms when it is 600 ms or more.  A verdict with a subject
    records exactly one sample, its round trip; and in every state a
    session can reach the window holds at most 10 samples and the
    interval is the default while it holds fewer than 5. *)
Theorem latency_window_and_tiers (samples : list Z) (s : Dash) :
  latencyHistoryRef s = [] -> adaptiveIntervalRef s = 1500%Z ->
  let s' := feed samples s in
  let window := latencyHistoryRef s' in
  window = spec_window samples
  /\ List.length window = Nat.min (List.length samples) 10
  /\ adaptiveIntervalRef s' = spec_interval samples
  /\ ((List.length samples < 5)%nat -> adaptiveIntervalRef s' = 1500%Z)
  /\ ((5 <= List.length samples)%nat ->
      (spec_mean window < 300 -> adaptiveIntervalRef s' = 1000%Z)
      /\ (300 <= spec_mean window -> spec_mean window < 600 ->
          adaptiveIntervalRef s' = 1500%Z)
      /\ (600 <= spec_mean window -> adaptiveIntervalRef s' = 2500%Z))
  /\ (forall now data status s0,
        ppe_status data = Some status -> has_person data <> Some false ->
        let s1 := recordLatency (now - lastSendTimeRef s0) s0 in
        latencyHistoryRef (handleDetectionResponse cfg now data s0) = latencyHistoryRef s1
        /\ adaptiveIntervalRef (handleDetectionResponse cfg now data s0)
           = adaptiveIntervalRef s1)
  /\ (forall stored evs, latencyPolicy (run cfg evs (initial cfg stored))).
Proof.
  intros Hh Hi. cbv zeta. destruct (feed_spec samples s Hh Hi) as [Hw Hint].
  rewrite Hw, Hint. split; [reflexivity|].
  split; [apply spec_window_length|]. split; [reflexivity|].
  unfold spec_interval. cbv zeta. split; [|split; [|split]].
  - intros Hn. destruct (Nat.ltb_spec (List.length samples) 5); [reflexivity|lia].
  - intros Hn. destruct (Nat.ltb_spec (List.length samples) 5); [lia|].
    assert (spec_window samples <> []) as Hne.
    { intros Hnil. apply (f_equal (@List.length Z)) in Hnil.
      rewrite spec_window_length in Hnil. simpl in Hnil. lia. }
    pose proof (mean_below (spec_window samples) 300 Hne) as H300.
    pose proof (mean_below (spec_window samples) 600 Hne) as H600.
    destruct (spec_below (spec_window samples) 300);
      destruct (spec_below (spec_window samples) 600);
      repeat split; intros; try reflexivity; exfalso;
      repeat match goal with
             | H : _ <-> true = true |- _ => apply proj2 in H; specialize (H eq_refl)
             | H : ?a < ?b <-> false = true |- _ =>
                 assert (b <= a)
                   by (apply Qnot_lt_le; intros Hlt; apply H in Hlt; discriminate Hlt);
                 clear H
             end;
      lra.
  - intros now data status s0 Hst Hp.
    exact (handler_records_latency now data status s0 Hst Hp).
  - intros stored evs. apply run_policy, policy_initial.
Qed.

End Session.


Section SessionExamples.

Import PPEService Dashboard.

Lemma paused_gate_fires_no_capture_witness :
  let s := run Samples.config Samples.toPause (initial Samples.config None) in
  let s' := step Samples.config (TimerFires 2 (Samples.env 4000)) s in
  isPaused s = true
  /\ timers s = []
  /\ captures s' = captures s
  /\ requests s' = requests s
  /\ isPaused s' = true.
Proof.
  cbv zeta.
  assert (isPaused (run Samples.config Samples.toPause (initial Samples.config None))
          = true) as Hpa by (vm_compute; reflexivity).
  destruct (paused_gate_fires_no_capture Samples.config None Samples.toPause Hpa)
    as (Ht & Hstep & _).
  destruct (Hstep (TimerFires 2 (Samples.env 4000))) as (Hc & Hr & Hstay).
  destruct (Hstay eq_refl) as (Hpa' & _).
  split; [exact Hpa|]. split; [exact Ht|]. split; [exact Hc|].
  split; [exact Hr|exact Hpa'].
Defined.

(** C1 as stated fails on two counts.  Neither scheduler consults the live
    gate before a capture: run on the paused state, the callback armed by
    [handleResume] (which has no check) and the one armed by
    [startDetection] (which checks the [isPaused] captured at the click)
    both capture and send a frame.  And captures do not wait for a resume:
    after the pause, a refresh stops the session, the main button then
    starts it again, and its timeout captures a second frame. *)
Lemma scheduler_callbacks_ignore_gate :
  isPaused Samples.paused = true
  /\ captures (resumeCallback (Samples.env 4000) Samples.paused)
     = captures Samples.paused ++ [Capture (Some "frame")]
  /\ captures (startCallback false (Samples.env 4000) Samples.paused)
     = captures Samples.paused ++ [Capture (Some "frame")]
  /\ List.length (requests (resumeCallback (Samples.env 4000) Samples.paused)) = 2%nat
  /\ (let stopped := step Samples.config ClickRefresh Samples.paused in
      isPaused stopped = false
      /\ step Samples.config (ClickMain (Samples.env 20000)) stopped
         = startDetection (Samples.env 20000) stopped)
  /\ captures (run Samples.config Samples.pauseStopStart Samples.fresh)
     = captures Samples.paused ++ [Capture (Some "frame")].
Proof. cbv zeta. repeat apply conj; vm_compute; reflexivity. Qed.


Lemma latency_window_and_tiers_witness :
  adaptiveIntervalRef (feed [310; 180; 420; 150; 240]%Z Samples.fresh) = 1000%Z
  /\ adaptiveIntervalRef (feed [100; 100; 100; 100; 2000]%Z Samples.fresh) = 1500%Z
  /\ adaptiveIntervalRef (feed [100; 500; 300; 200; 400]%Z Samples.fresh) = 1500%Z
  /\ adaptiveIntervalRef (feed [0; 0; 0; 0; 3000]%Z Samples.fresh) = 2500%Z
  /\ adaptiveIntervalRef (feed [2000; 900; 700; 800; 100]%Z Samples.fresh) = 2500%Z
  /\ adaptiveIntervalRef (feed [9000; 20; 7000; 1]%Z Samples.fresh) = 1500%Z
  /\ latencyHistoryRef
       (feed [5000; 4000; 100; 200; 300; 100; 200; 300; 100; 200; 300; 250]%Z
             Samples.fresh)
     = [100; 200; 300; 100; 200; 300; 100; 200; 300; 250]%Z
  /\ adaptiveIntervalRef
       (feed [5000; 4000; 100; 200; 300; 100; 200; 300; 100; 200; 300; 250]%Z
             Samples.fresh)
     = 1000%Z.
Proof.
  assert (latencyHistoryRef Samples.fresh = []) as Hh by reflexivity.
  assert (adaptiveIntervalRef Samples.fresh = 1500%Z) as Hi by reflexivity.
  split; [|split; [|split; [|split; [|split; [|split; [|split]]]]]].
  - destruct (latency_window_and_tiers Samples.config [310; 180; 420; 150; 240]%Z
                Samples.fresh Hh Hi) as (Hw & _ & _ & _ & Hge & _).
    cbv zeta in Hw, Hge.
    destruct (Hge (le_n 5)) as (Hfast & _ & _). apply Hfast. rewrite Hw. reflexivity.
  - destruct (latency_window_and_tiers Samples.config [100; 100; 100; 100; 2000]%Z
                Samples.fresh Hh Hi) as (Hw & _ & _ & _ & Hge & _).
    cbv zeta in Hw, Hge.
    destruct (Hge (le_n 5)) as (_ & Hmid & _).
    apply Hmid; rewrite Hw; [discriminate|reflexivity].
  - destruct (latency_window_and_tiers Samples.config [100; 500; 300; 200; 400]%Z
                Samples.fresh Hh Hi) as (Hw & _ & _ & _ & Hge & _).
    cbv zeta in Hw, Hge.
    destruct (Hge (le_n 5)) as (_ & Hmid & _).
    apply Hmid; rewrite Hw; [discriminate|reflexivity].
  - destruct (latency_window_and_tiers Samples.config [0; 0; 0; 0; 3000]%Z
                Samples.fresh Hh Hi) as (Hw & _ & _ & _ & Hge & _).
    cbv zeta in Hw, Hge.
    destruct (Hge (le_n 5)) as (_ & _ & Hslow). apply Hslow. rewrite Hw. discriminate.
  - destruct (latency_window_and_tiers Samples.config [2000; 900; 700; 800; 100]%Z
                Samples.fresh Hh Hi) as (Hw & _ & _ & _ & Hge & _).
    cbv zeta in Hw, Hge.
    destruct (Hge (le_n 5)) as (_ & _ & Hslow). apply Hslow. rewrite Hw. discriminate.
  - destruct (latency_window_and_tiers Samples.config [9000; 20; 7000; 1]%Z
                Samples.fresh Hh Hi) as (_ & _ & _ & Hlt & _).
    cbv zeta in Hlt. apply Hlt. exact (le_n 5).
  - destruct (latency_window_and_tiers Samples.config
                [5000; 4000; 100; 200; 300; 100; 200; 300; 100; 200; 300; 250]%Z
                Samples.fresh Hh Hi) as (Hw & _).
    exact Hw.
  - destruct (latency_window_and_tiers Samples.config
                [5000; 4000; 100; 200; 300; 100; 200; 300; 100; 200; 300; 250]%Z
                Samples.fresh Hh Hi) as (Hw & _ & _ & _ & Hge & _).
    cbv zeta in Hw, Hge.
    assert (5 <= 12)%nat as H12 by (repeat constructor).
    destruct (Hge H12) as (Hfast & _ & _). apply Hfast. rewrite Hw. reflexivity.
Defined.

Lemma resume_rearms_with_adaptive_interval_witness :
  let s := run Samples.config Samples.fastThenPause Samples.fresh in
  isPaused s = true
  /\ adaptiveIntervalRef s = 1000%Z
  /\ timers (handleResume (Samples.env 12000) s)
     = [ {| timer_id := 8; timer_delay := 1000; timer_chain := FromResume |} ]
  /\ latencyHistoryRef (handleResume (Samples.env 12000) s)
     = [200; 200; 200; 200; 200; 200]%Z.
Proof.
  cbv zeta.
  destruct (resume_rearms_with_adaptive_interval (Samples.env 12000)
              (run Samples.config Samples.fastThenPause Samples.fresh))
    as (_ & Hh & _ & Ht & _).
  split; [vm_compute; reflexivity|]. split; [vm_compute; reflexivity|].
  rewrite Ht, Hh. split; vm_compute; reflexivity.
Defined.

(** C8 as stated fails: when the connection has dropped during the
    pause, resuming (from the modal, whose button stays enabled) clears
    the pause and shows the session as active, but arms no timeout at
    all, neither with the adaptive interval nor with the default: no
    frame is captured until the operator stops and starts again. *)
Lemma resume_without_socket_arms_nothing :
  let s := run Samples.config Samples.pausedOffline Samples.fresh in
  let s' := step Samples.config (ClickModalResume (Samples.env 5000)) s in
  (isPaused s = true /\ isSafetyModalOpen s = true /\ cameraActive s = true)
  /\ cameraMounted (Samples.env 5000) = true
  /\ wsConnected s = false
  /\ s' = handleResume (Samples.env 5000) s
  /\ isPaused s' = false
  /\ cameraActive s' = true
  /\ timers s' = []
  /\ captures (run Samples.config
                 [ TimerFires 1 (Samples.env 6500); TimerFires 2 (Samples.env 6500);
                   Socket 7000 PPEWebSocket.Opened ] s')
     = captures s.
Proof.
  cbv zeta.
  split; [split; [|split]; vm_compute; reflexivity|].
  do 6 (split; [vm_compute; reflexivity|]).
  vm_compute; reflexivity.
Qed.

Lemma verdict_recorded_twice_witness :
  let r := crearRegistroDesdeDeteccion Samples.config 2700 Samples.violation
             Samples.noGlasses in
  ppe_status Samples.violation = Some Samples.noGlasses
  /\ has_person Samples.violation <> Some false
  /\ (2 <= history_maxRecords Samples.config)%Z
  /\ detectionRecords
       (handleDetectionResponse Samples.config 2700 Samples.violation Samples.fresh)
     = [r; r].
Proof.
  cbv zeta.
  assert (ppe_status Samples.violation = Some Samples.noGlasses) as Hst by reflexivity.
  assert (has_person Samples.violation <> Some false) as Hp by discriminate.
  assert (2 <= history_maxRecords Samples.config)%Z as Hm by (simpl; lia).
  split; [exact Hst|]. split; [exact Hp|]. split; [exact Hm|].
  rewrite (verdict_recorded_twice Samples.config 2700 Samples.violation Samples.noGlasses
             Samples.fresh Hst Hp Hm).
  vm_compute. reflexivity.
Defined.

End SessionExamples.

(* ================================================================== *)
(** * Further properties *)

(** ** The aggregation microservice *)

Section AggregationMore.

Import Aggregator Grouping.

Lemma includes_In (l : list string) (c : string) :
  Js.includes l c = true <-> In c l.
Proof.
  unfold Js.includes. rewrite existsb_exists. split.
  - intros (x & Hin & Heq). apply String.eqb_eq in Heq. now subst.
  - intros Hin. exists c. split; [exact Hin|apply String.eqb_refl].
Qed.

Lemma push_group_keys (k : string) (it : Item) (g : list (string * list Item)) :
  map fst (push_group k it g)
  = if Js.includes (map fst g) k then map fst g else map fst g ++ [k].
Proof.
  induction g as [|[k' its] r IH]; simpl; [reflexivity|].
  destruct (String.eqb_spec k k') as [->|Hne]; simpl; [reflexivity|].
  rewrite IH. unfold Js.includes. destruct (existsb (String.eqb k) (map fst r)); reflexivity.
Qed.

Lemma push_group_NoDup (k : string) (it : Item) (g : list (string * list Item)) :
  NoDup (map fst g) -> NoDup (map fst (push_group k it g)).
Proof.
  intros Hnd. rewrite push_group_keys.
  destruct (Js.includes (map fst g) k) eqn:Hin; [exact Hnd|].
  apply NoDup_app; [exact Hnd|repeat constructor; simpl; tauto|].
  intros x Hx [<-|[]]. apply includes_In in Hx. congruence.
Qed.

Lemma push_group_sizes (k : string) (it : Item) (g : list (string * list Item)) :
  list_sum (map (fun kv => List.length (snd kv)) (push_group k it g))
  = S (list_sum (map (fun kv => List.length (snd kv)) g)).
Proof.
  induction g as [|[k' its] r IH]; simpl; [reflexivity|].
  destruct (String.eqb k k'); simpl.
  - rewrite length_app. simpl. lia.
  - rewrite IH. lia.
Qed.

Lemma push_group_groups (det : Prediction) (g : list (string * list Item)) :
  Forall groupOf g ->
  Forall groupOf (push_group (propertyKey (normalize det)) (item_of det) g).
Proof.
  induction g as [|[k' its] r IH]; simpl; intros Hg.
  - constructor; [|constructor]. split; simpl; [discriminate|].
    constructor; [reflexivity|constructor].
  - inversion Hg as [|? ? [Hne Hall] Hr]; subst.
    destruct (String.eqb_spec (propertyKey (normalize det)) k') as [Heq|Hneq].
    + constructor; [|exact Hr]. split; simpl in *.
      * destruct its; discriminate.
      * apply Forall_app. split; [exact Hall|].
        repeat constructor. exact Heq.
    + constructor; [split; assumption|]. now apply IH.
Qed.

Lemma grouped_facts (dets : list Prediction) :
  forall g,
    NoDup (map fst g) -> Forall groupOf g ->
    let g' := fold_left group_step dets g in
    NoDup (map fst g') /\ Forall groupOf g'
    /\ list_sum (map (fun kv => List.length (snd kv)) g')
       = (list_sum (map (fun kv => List.length (snd kv)) g) + List.length dets)%nat.
Proof.
  induction dets as [|d r IH]; intros g Hnd Hg; simpl.
  - repeat split; auto.
  - destruct (IH (group_step g d)) as (H1 & H2 & H3).
    + now apply push_group_NoDup.
    + now apply push_group_groups.
    + repeat split; auto. rewrite H3. unfold group_step.
      rewrite push_group_sizes. lia.
Qed.

Lemma objects_all (dets : list Prediction) :
  objects (map EObject dets) = Some dets.
Proof.
  induction dets as [|d r IH]; [reflexivity|].
  cbn [map objects]. rewrite IH. reflexivity.
Qed.

Lemma objects_raises (l : list Element) :
  objects l = None <-> In ERaises l.
Proof.
  induction l as [|[|d] r IH]; cbn [objects In].
  - split; [discriminate|contradiction].
  - split; auto.
  - destruct (objects r) as [ds|]; cbn [option_map].
    + split; [discriminate|].
      intros [H|H]; [discriminate H|]. apply IH in H. discriminate H.
    + split; [|reflexivity]. intros _. right. now apply IH.
Qed.

Lemma objects_values (l : list Element) (dets : list Prediction) :
  objects l = Some dets <-> l = map EObject dets.
Proof.
  split; [|intros ->; apply objects_all].
  revert dets. induction l as [|[|d] r IH]; cbn [objects]; intros dets.
  - now intros [= <-].
  - discriminate.
  - destruct (objects r) as [ds|]; cbn [option_map]; [|discriminate].
    intros [= <-]. cbn [map]. now rewrite (IH ds eq_refl).
Qed.

Lemma returns_unless_raising (r : RoboflowResponse) :
  processDetections r = None
  <-> r = RNull
      \/ (exists rest, r = RValue (Some (ONull :: rest)))
      \/ (exists l rest,
            In ERaises l
            /\ (r = RValue (Some (OValue (PArray l) :: rest))
                \/ r = RValue (Some (OValue (PNested l) :: rest)))).
Proof.
  unfold processDetections. split.
  - destruct r as [|[[|[|[l|l|]] rest]|]]; try discriminate; auto.
    + right. left. eauto.
    + intros H. right. right. exists l, rest.
      destruct (objects l) eqn:Ho; [discriminate H|].
      apply objects_raises in Ho. auto.
    + intros H. right. right. exists l, rest.
      destruct (objects l) eqn:Ho; [discriminate H|].
      apply objects_raises in Ho. auto.
  - intros [->|[(rest & ->)|(l & rest & Hin & [->| ->])]]; try reflexivity;
      apply objects_raises in Hin; now rewrite Hin.
Qed.

Lemma returned_partition (r : RoboflowResponse) (p : Processed) :
  processDetections r = Some p ->
  NoDup (map fst (detectionsByClass p))
  /\ Forall aggregateOf (detectionsByClass p)
  /\ list_sum (map (fun kv => count (snd kv)) (detectionsByClass p)) = totalDetections p
  /\ totalDetections p = List.length (allDetections p).
Proof.
  assert (forall l, let p := process_array l in
            NoDup (map fst (detectionsByClass p))
            /\ Forall aggregateOf (detectionsByClass p)
            /\ list_sum (map (fun kv => count (snd kv)) (detectionsByClass p))
               = totalDetections p
            /\ totalDetections p = List.length (allDetections p)) as Harr.
  { intros l. cbv zeta. unfold process_array, groupedDetections. simpl.
    destruct (grouped_facts l [] (NoDup_nil _) (Forall_nil _)) as (Hnd & Hg & Hsum).
    cbv zeta in Hnd, Hg, Hsum. simpl in Hsum.
    rewrite !map_map. simpl. repeat split; auto.
    apply Forall_map. revert Hg. apply Forall_impl.
    intros [k its] (Hne & Hall). unfold aggregateOf. simpl in *.
    repeat split; auto. destruct its; [contradiction|simpl; lia]. }
  assert (let p := empty_result in
          NoDup (map fst (detectionsByClass p))
          /\ Forall aggregateOf (detectionsByClass p)
          /\ list_sum (map (fun kv => count (snd kv)) (detectionsByClass p))
             = totalDetections p
          /\ totalDetections p = List.length (allDetections p)) as Hempty.
  { cbv zeta. simpl. repeat split; constructor. }
  cbv zeta in *. unfold processDetections.
  destruct r as [|[[|[|[l|l|]] rest]|]]; try discriminate;
    try (intros [= <-]; exact Hempty);
    destruct (objects l) as [dets|]; cbn [option_map]; try discriminate;
    intros [= <-]; apply Harr.
Qed.

(** X1: [processDetections] returns the aggregation of the detection
    objects of the first output, in the flat and in the nested shape,
    whatever the later outputs are; and whatever the response, the groups
    of the [detectionsByClass] it returns have distinct keys, none is
    empty, each one's count is the number of its members, every member
    normalises to the key of its group, and the counts add up to
    [totalDetections], the length of [allDetections]: every detection is
    filed in exactly one group. *)
Theorem groups_partition_detections (r : RoboflowResponse) :
  (forall dets rest,
      r = RValue (Some (OValue (PArray (map EObject dets)) :: rest))
      \/ r = RValue (Some (OValue (PNested (map EObject dets)) :: rest)) ->
      processDetections r = Some (process_array dets))
  /\ (forall p,
        processDetections r = Some p ->
        NoDup (map fst (detectionsByClass p))
        /\ Forall aggregateOf (detectionsByClass p)
        /\ list_sum (map (fun kv => count (snd kv)) (detectionsByClass p))
           = totalDetections p
        /\ totalDetections p = List.length (allDetections p)).
Proof.
  split; [|exact (returned_partition r)].
  intros dets rest [->| ->]; cbn [processDetections];
    now rewrite objects_all.
Qed.

Lemma positive_counts_sum (g : list (string * ClassAggregate)) :
  Forall aggregateOf g ->
  list_sum (map (fun kv => count (snd kv)) g) = 0%nat -> g = [].
Proof.
  intros Hg Hsum. destruct g as [|kv g']; [reflexivity|].
  apply Forall_inv in Hg. destruct Hg as (_ & Hpos & _).
  simpl in Hsum. lia.
Qed.

(** X2: [processDetections] raises exactly when the body is [null],
    when the first output is [null] or [undefined], or when its
    prediction array holds an element the grouping raises on; it returns
    the empty result for a body without outputs, with an empty output
    list, or whose first output holds no prediction array.  In whatever
    it returns there is no detection exactly when there is no group, and
    then the validation reports nothing detected, all eight classes
    missing in the canonical order and the rate "0.00".  Only the first
    output is read, and the flat and the nested shape of its predictions
    are aggregated alike. *)
Theorem unusable_response_counts_nothing (r : RoboflowResponse) :
  (processDetections r = None
   <-> r = RNull
       \/ (exists rest, r = RValue (Some (ONull :: rest)))
       \/ (exists l rest,
             In ERaises l
             /\ (r = RValue (Some (OValue (PArray l) :: rest))
                 \/ r = RValue (Some (OValue (PNested l) :: rest)))))
  /\ ((r = RValue None \/ r = RValue (Some [])
       \/ exists rest, r = RValue (Some (OValue POther :: rest))) ->
      processDetections r = Some empty_result)
  /\ (forall p,
        processDetections r = Some p ->
        (totalDetections p = 0%nat <-> detectionsByClass p = [])
        /\ (allDetections p = [] <-> detectionsByClass p = [])
        /\ (detectionsByClass p = [] ->
            validateCompletePPE (detectionsByClass p)
            = {| isComplete := false; detected := [];
                 missing := EPP_CLASSES; completionRate := "0.00" |}))
  /\ (forall o rest rest',
        processDetections (RValue (Some (o :: rest)))
        = processDetections (RValue (Some (o :: rest'))))
  /\ (forall l rest,
        processDetections (RValue (Some (OValue (PArray l) :: rest)))
        = processDetections (RValue (Some (OValue (PNested l) :: rest)))).
Proof.
  split; [exact (returns_unless_raising r)|]. split; [|split; [|split]].
  - unfold processDetections. intros [->|[->|(rest & ->)]]; reflexivity.
  - intros p Hp. destruct (returned_partition r p Hp) as (_ & Hg & Hsum & Hlen).
    assert (totalDetections p = 0%nat <-> detectionsByClass p = []) as Hzero.
    { split.
      - intros H0. apply positive_counts_sum; [exact Hg|]. now rewrite Hsum.
      - intros Hnil. rewrite <- Hsum, Hnil. reflexivity. }
    split; [exact Hzero|]. split.
    + rewrite <- Hzero, Hlen. split.
      * now intros ->.
      * apply length_zero_iff_nil.
    + intros ->. reflexivity.
  - intros [|b] rest rest'; reflexivity.
  - intros l rest. reflexivity.
Qed.

Lemma filter_In_missing (detected : list string) (c : string) :
  In c (filter (fun cls => negb (Js.includes detected cls)) EPP_CLASSES)
  <-> In c EPP_CLASSES /\ ~ In c detected.
Proof.
  rewrite filter_In, negb_true_iff, <- not_true_iff_false, includes_In. tauto.
Qed.

Lemma EPP_CLASSES_NoDup : NoDup EPP_CLASSES.
Proof.
  unfold EPP_CLASSES.
  repeat (constructor; [simpl; intuition discriminate|]). constructor.
Qed.

Lemma complete_iff_all_detected (A : Type) (dbc : list (string * A)) :
  isComplete (validateCompletePPE dbc) = true
  <-> (forall c, In c EPP_CLASSES -> In c (map fst dbc)).
Proof.
  unfold validateCompletePPE. cbn [isComplete].
  rewrite Nat.eqb_eq, length_zero_iff_nil.
  split.
  - intros Hnil c Hc.
    destruct (Js.includes (map fst dbc) c) eqn:Hin; [now apply includes_In|].
    assert (In c (filter (fun cls => negb (Js.includes (map fst dbc) cls)) EPP_CLASSES))
      as Hm by (apply filter_In; split; [exact Hc|now rewrite Hin]).
    rewrite Hnil in Hm. contradiction.
  - intros Hall.
    destruct (filter (fun cls => negb (Js.includes (map fst dbc) cls)) EPP_CLASSES)
      as [|c m] eqn:Hf; [reflexivity|].
    assert (In c (c :: m)) as Hc by now left.
    rewrite <- Hf in Hc. apply filter_In_missing in Hc. destruct Hc as (Hc & Hn).
    exfalso. apply Hn, Hall, Hc.
Qed.

(** X3: the verdict looks only at which required classes are among the
    keys: [missing] is exactly the required classes that are not keys,
    without repetition, and [isComplete] says that all eight are keys.  A
    key that is no required class changes neither, but it raises the rate
    by 12.5 points all the same. *)
Theorem verdict_depends_on_required_keys (A : Type) (dbc : list (string * A)) :
  let v := validateCompletePPE dbc in
  (forall c, In c (missing v) <-> In c EPP_CLASSES /\ ~ In c (map fst dbc))
  /\ NoDup (missing v)
  /\ (List.length (missing v) <= 8)%nat
  /\ (isComplete v = true <-> forall c, In c EPP_CLASSES -> In c (map fst dbc))
  /\ (forall k x,
        ~ In k EPP_CLASSES ->
        let v' := validateCompletePPE (dbc ++ [(k, x)]) in
        missing v' = missing v
        /\ isComplete v' = isComplete v
        /\ completion_value (List.length (detected v'))
           == completion_value (List.length (detected v)) + (25 # 2)).
Proof.
  cbv zeta. split; [|split; [|split; [|split]]].
  - intros c. apply filter_In_missing.
  - apply NoDup_filter, EPP_CLASSES_NoDup.
  - unfold validateCompletePPE; cbn [missing].
    etransitivity; [apply filter_length_le|]. simpl. lia.
  - apply complete_iff_all_detected.
  - intros k x Hk.
    assert (filter (fun cls => negb (Js.includes (map fst (dbc ++ [(k, x)])) cls)) EPP_CLASSES
            = filter (fun cls => negb (Js.includes (map fst dbc) cls)) EPP_CLASSES) as Hm.
    { apply filter_ext_in. intros c Hc. f_equal.
      rewrite map_app. simpl. unfold Js.includes. rewrite existsb_app. simpl.
      destruct (String.eqb_spec c k) as [->|_]; [contradiction|].
      now rewrite !orb_false_r. }
    unfold validateCompletePPE; cbn [missing isComplete detected]. rewrite Hm.
    split; [reflexivity|]. split; [reflexivity|].
    rewrite !completion_value_percent, map_app, length_app.
    cbn [List.length map]. rewrite Nat2Z.inj_add.
    unfold Qeq, Qplus, Qmult, inject_Z. cbn -[Z.mul Z.add Z.of_nat]. lia.
Qed.

Lemma group_keys (dets : list Prediction) :
  forall g k,
    In k (map fst (fold_left group_step dets g))
    <-> In k (map fst g)
        \/ exists det, In det dets /\ propertyKey (normalize det) = k.
Proof.
  induction dets as [|d r IH]; intros g k; simpl.
  - split; [auto|]. intros [H|(det & [] & _)]. exact H.
  - rewrite IH. unfold group_step. rewrite push_group_keys.
    destruct (Js.includes (map fst g) (propertyKey (normalize d))) eqn:Hin.
    + apply includes_In in Hin. split.
      * intros [H|(det & Hd & Hk)]; [auto|right; eauto].
      * intros [H|(det & [->|Hd] & Hk)]; [auto| |right; eauto].
        left. now rewrite <- Hk.
    + rewrite in_app_iff. simpl. split.
      * intros [[H|[<-|[]]]|(det & Hd & Hk)]; [auto|right; eauto|right; eauto].
      * intros [H|(det & [->|Hd] & Hk)]; [auto|left; right; now left|right; eauto].
Qed.

Lemma key_is_class (det : Prediction) (c : string) :
  In c EPP_CLASSES ->
  (propertyKey (normalize det) = c <-> countsFor c det).
Proof.
  intros Hc. unfold countsFor.
  destruct (Js.own (originalClass_of det) CLASS_MAPPING) as [c'|] eqn:Hown.
  - assert (propertyKey (normalize det) = c') as ->.
    { unfold normalize, normalizeLabel, className_of. fold (originalClass_of det).
      rewrite Hown. destruct (table_values_fixed _ _ Hown) as (Hin & _).
      simpl in Hin.
      repeat (destruct Hin as [<-|Hin]; [reflexivity|]). contradiction. }
    split; congruence.
  - split; [|discriminate]. intros Hk.
    exfalso. apply (unmapped_not_canonical det Hown). now rewrite Hk.
Qed.

(** X4: through [processDetections] and [validateCompletePPE], a required
    class is reported as detected exactly when some detection of the
    frame carries a label that the table, after lower-casing, maps to
    that class; it is missing exactly when none does, and the verdict is
    complete exactly when each of the eight classes has such a
    detection. *)
Theorem class_present_iff_label_maps_to_it (dets : list Prediction) :
  let v := validateCompletePPE (detectionsByClass (process_array dets)) in
  (forall c, In c EPP_CLASSES ->
             (In c (detected v) <-> exists det, In det dets /\ countsFor c det))
  /\ (forall c, In c (missing v)
                <-> In c EPP_CLASSES /\ forall det, In det dets -> ~ countsFor c det)
  /\ (isComplete v = true
      <-> forall c, In c EPP_CLASSES -> exists det, In det dets /\ countsFor c det).
Proof.
  cbv zeta.
  assert (forall c, In c EPP_CLASSES ->
            (In c (map fst (detectionsByClass (process_array dets)))
             <-> exists det, In det dets /\ countsFor c det)) as Hkeys.
  { intros c Hc. unfold process_array, groupedDetections. simpl.
    rewrite map_map. simpl. rewrite (group_keys dets [] c). simpl. split.
    - intros [[]|(det & Hd & Hk)]. exists det. split; [exact Hd|].
      now apply key_is_class.
    - intros (det & Hd & Hk). right. exists det. split; [exact Hd|].
      now apply key_is_class. }
  split; [exact Hkeys|]. split.
  - intros c. unfold validateCompletePPE. cbn [missing].
    rewrite filter_In_missing. split.
    + intros (Hc & Hn). split; [exact Hc|]. intros det Hd Hk.
      apply Hn, (Hkeys c Hc). eauto.
    + intros (Hc & Hn). split; [exact Hc|]. intros Hin.
      apply (Hkeys c Hc) in Hin. destruct Hin as (det & Hd & Hk).
      exact (Hn det Hd Hk).
  - rewrite complete_iff_all_detected. split.
    + intros H c Hc. apply (Hkeys c Hc), H, Hc.
    + intros H c Hc. apply (Hkeys c Hc), H, Hc.
Qed.

End AggregationMore.

(* ================================================================== *)
(** ** The legacy adapter and the views *)

Section ViewsMore.

Import PPEService Views.

Lemma panelIsCompliant_flags (p : PPEStatus) :
  panelIsCompliant p
  = casco p && lentes p && guantes p && botas p && chaleco p
    && camisa p && pantalon p && barbijo p.
Proof.
  destruct p as [c l g b ch ca pa ba e].
  destruct c, l, g, b, ch, ca, pa, ba; reflexivity.
Qed.

Lemma panelIsCompliant_all (p : PPEStatus) :
  panelIsCompliant p = true
  <-> casco p = true /\ lentes p = true /\ guantes p = true /\ botas p = true
      /\ chaleco p = true /\ camisa p = true /\ pantalon p = true
      /\ barbijo p = true.
Proof.
  rewrite panelIsCompliant_flags, !andb_true_iff. tauto.
Qed.

(** X5: when the validation block of a result is the one
    [validateCompletePPE] computes, the legacy status has a flag set
    exactly for the required classes among the keys ([camisa] standing for
    [camisa_jean]), [epp_completo] and [is_compliant] hold exactly when
    all eight flags are set, which is also when the status panel finds
    the status compliant and when the status message announces complete
    equipment; [has_person] is always true. *)
Theorem legacy_status_reflects_verdict
  (A : Type) (dbc : list (string * A)) (r : Orchestration.PPEResult) :
  Orchestration.validation r = Aggregator.validateCompletePPE dbc ->
  let l := Orchestration.convertToLegacyFormat r in
  let p := Orchestration.ppe_status l in
  (casco p = true <-> In "casco" (map fst dbc))
  /\ (lentes p = true <-> In "lentes" (map fst dbc))
  /\ (guantes p = true <-> In "guantes" (map fst dbc))
  /\ (botas p = true <-> In "botas" (map fst dbc))
  /\ (chaleco p = true <-> In "chaleco" (map fst dbc))
  /\ (camisa p = true <-> In "camisa_jean" (map fst dbc))
  /\ (pantalon p = true <-> In "pantalon" (map fst dbc))
  /\ (barbijo p = true <-> In "barbijo" (map fst dbc))
  /\ (epp_completo p = true <-> panelIsCompliant p = true)
  /\ Orchestration.is_compliant l = epp_completo p
  /\ Orchestration.has_person l = true
  /\ (Orchestration.getPPEStatusMessage (Orchestration.validation r)
      = "EPP Completo - Trabajador seguro"
      <-> Orchestration.is_compliant l = true).
Proof.
  intros Hv. cbv zeta. unfold Orchestration.convertToLegacyFormat.
  cbn [Orchestration.ppe_status Orchestration.is_compliant Orchestration.has_person
       casco lentes guantes botas chaleco camisa pantalon barbijo epp_completo].
  rewrite Hv.
  change (Aggregator.detected (Aggregator.validateCompletePPE dbc)) with (map fst dbc).
  repeat (split; [apply includes_In|]).
  split; [|split; [reflexivity|split; [reflexivity|]]].
  - rewrite complete_iff_all_detected, panelIsCompliant_all.
    cbn [casco lentes guantes botas chaleco camisa pantalon barbijo].
    rewrite !includes_In. split.
    + intros Hall. repeat split; apply Hall; simpl; tauto.
    + intros (H1 & H2 & H3 & H4 & H5 & H6 & H7 & H8) c Hc. simpl in Hc.
      repeat (destruct Hc as [<-|Hc]; [assumption|]). contradiction.
  - unfold Orchestration.getPPEStatusMessage.
    destruct (Aggregator.isComplete (Aggregator.validateCompletePPE dbc)).
    + split; reflexivity.
    + split; intros H; [|discriminate H]. simpl in H. discriminate H.
Qed.

(** X6: for every status, the status panel, the safety modal, the history
    row and the record builder count the same missing items: the flags
    other than [epp_completo] that are false.  The panel is compliant,
    and the modal shows its complete block, exactly when that count is
    zero, that is when the eight item flags are set whatever
    [epp_completo] says; the modal never lists the norm of
    [epp_completo]. *)
Theorem views_agree_on_missing_items (p : PPEStatus) :
  panelMissingItems p = List.length (getMissingPPENorms p)
  /\ panelMissingItems p = List.length (faltantesOf p)
  /\ panelMissingItems p = List.length (Dashboard.faltantesArray p)
  /\ (panelIsCompliant p = true <-> panelMissingItems p = 0%nat)
  /\ modalShowsComplete p = panelIsCompliant p
  /\ (panelIsCompliant p = true
      <-> casco p = true /\ lentes p = true /\ guantes p = true
          /\ botas p = true /\ chaleco p = true /\ camisa p = true
          /\ pantalon p = true /\ barbijo p = true)
  /\ ~ In "epp_completo" (map key (getMissingPPENorms p)).
Proof.
  split; [|split; [|split; [|split; [|split; [|split; [apply panelIsCompliant_all|]]]]]];
    destruct p as [c l g b ch ca pa ba e];
    destruct c, l, g, b, ch, ca, pa, ba, e; vm_compute;
    try reflexivity; try (split; [reflexivity|reflexivity]);
    try (split; intros H; discriminate H);
    intuition discriminate.
Qed.

(** X7: a history row built from a verdict is displayed from the flags of
    its status, not from the verdict stored with it: the row reads
    "Completo" exactly when [epp_completo] is set and lists "Ninguno"
    exactly when the eight item flags are set, while the stored [estado]
    and [faltantes] follow [is_compliant]; the row offers its risks
    button exactly when [epp_completo] is not set. *)
Theorem history_row_reads_flags_not_verdict
  (cfg : Dashboard.Config) (now : Z) (data : DetectionResponse) (p : PPEStatus) :
  let r := Dashboard.crearRegistroDesdeDeteccion cfg now data p in
  (getEstado r = Dashboard.Completo <-> epp_completo p = true)
  /\ (getFaltantes r = "Ninguno" <-> panelIsCompliant p = true)
  /\ offersViewRisks r = negb (epp_completo p)
  /\ (Dashboard.estado r = Dashboard.Completo <-> is_compliant data = true)
  /\ (Dashboard.faltantes r = "Ninguno"
      <-> is_compliant data = true \/ panelIsCompliant p = true).
Proof.
  cbv zeta. unfold Dashboard.crearRegistroDesdeDeteccion, getEstado, getFaltantes,
    offersViewRisks, getEstado.
  cbn [Dashboard.rec_ppeStatus Dashboard.estado Dashboard.faltantes].
  split; [|split; [|split; [|split]]].
  - destruct (epp_completo p); split; intros H; try reflexivity; discriminate H.
  - destruct p as [c l g b ch ca pa ba e].
    destruct c, l, g, b, ch, ca, pa, ba; vm_compute;
      split; intros H; try reflexivity; discriminate H.
  - destruct (epp_completo p); reflexivity.
  - destruct (is_compliant data); split; intros H; try reflexivity; discriminate H.
  - destruct (is_compliant data); [split; [now left|reflexivity]|].
    rewrite orb_false_l.
    destruct p as [c l g b ch ca pa ba e].
    destruct c, l, g, b, ch, ca, pa, ba; vm_compute;
      split; intros H; try reflexivity; try (now right);
      try discriminate H; destruct H as [H|H]; discriminate H.
Qed.

(** X8: the warning banner receives nothing while no person is detected;
    otherwise it receives, for each item flag that is false, the label
    the record builder prints for it: every name it shows is defined,
    and there are as many as the status panel counts. *)
Theorem banner_lists_labels_of_missing_flags (s : Dashboard.Dash) :
  (Dashboard.hasDetection s = false -> missingItems s = [])
  /\ (Dashboard.hasDetection s = true ->
      missingItems s = map Some (Dashboard.faltantesArray (Dashboard.ppeStatus s))
      /\ List.length (missingItems s) = panelMissingItems (Dashboard.ppeStatus s)).
Proof.
  unfold missingItems. split; intros ->; [reflexivity|].
  destruct (Dashboard.ppeStatus s) as [c l g b ch ca pa ba e].
  destruct c, l, g, b, ch, ca, pa, ba, e; vm_compute; split; reflexivity.
Qed.

End ViewsMore.

(* ================================================================== *)
(** ** The socket client, over any use of its public interface *)

Section TransportMore.

Import PPEService PPEWebSocket PPEClient.

Variable Host : Type.
Variable onMessageCallback : DetectionResponse -> Host -> Host.
Variable onErrorCallback : option (Host -> Host).
Variable onConnectCallback : option (Host -> Host).
Variable onDisconnectCallback : option (Host -> Host).

Local Notation "'exec'" :=
  (PPEClient.exec onMessageCallback onErrorCallback onConnectCallback
                  onDisconnectCallback).
Local Notation "'session'" :=
  (PPEClient.session onMessageCallback onErrorCallback onConnectCallback
                     onDisconnectCallback).

Lemma session_cons (c : Call) (calls : list Call) (sh : t * Host) :
  session (c :: calls) sh = session calls (exec c sh).
Proof. reflexivity. Qed.

Lemma sound_emit (e : Effect) (s : t) :
  wellFormed e -> sound s -> sound (emit e s).
Proof.
  intros He (Hi & Ha & Ht). unfold sound, emit. cbn.
  repeat split; try assumption.
  apply Forall_app. split; [assumption|]. constructor; [assumption|constructor].
Qed.

Lemma sound_connect (s : t) : sound s -> sound (connect s).
Proof.
  intros (Hi & Ha & Ht). unfold connect. apply sound_emit; [exact I|].
  repeat split; assumption.
Qed.

Lemma sound_attemptReconnect (s : t) : sound s -> sound (attemptReconnect s).
Proof.
  intros (Hi & Ha & Ht). unfold attemptReconnect. cbn zeta.
  cbn [currentDelayIndex set_reconnectAttempts].
  assert (In (nth (currentDelayIndex s) reconnectDelays 0%Z) reconnectDelays) as Hin.
  { apply nth_In. simpl. lia. }
  apply sound_emit; [exact Hin|].
  destruct (currentDelayIndex s <? List.length reconnectDelays - 1)%nat eqn:Hlt.
  - apply Nat.ltb_lt in Hlt. simpl in Hlt.
    unfold sound. cbn. repeat split; try assumption; lia.
  - unfold sound. cbn. repeat split; try assumption; lia.
Qed.

Lemma sound_disconnect (s : t) : sound s -> sound (disconnect s).
Proof.
  intros (Hi & Ha & Ht). unfold disconnect, sound.
  destruct s as [w ra di hb sc st md pr tr]. cbn in *.
  destruct w as [[]|]; cbn; repeat split; try lia; try assumption;
    apply Forall_app; (split; [assumption|]); repeat constructor.
Qed.

Lemma sound_send (imageData : string) (confidence : Q) (throws : bool) (s : t) :
  sound s -> sound (send imageData confidence throws s).
Proof.
  intros Hs. unfold send.
  destruct (ws s) as [[]|]; try assumption;
    try (destruct (isManualDisconnect s); [assumption|now apply sound_connect]).
  destruct (tooLarge imageData) eqn:Hl; [assumption|].
  destruct throws.
  - destruct (isManualDisconnect s); [assumption|now apply sound_attemptReconnect].
  - apply sound_emit; [exact Hl|assumption].
Qed.

Lemma sound_handle (now : Z) (e : Event) (s : t) (h : Host) :
  sound s ->
  sound (fst (handle onMessageCallback onErrorCallback onConnectCallback
                     onDisconnectCallback now e (s, h))).
Proof.
  intros Hs. destruct e as [|m throws| |code|delay| |throws| |code]; cbn [handle fst snd].
  - destruct (ws s) as [[]|]; assumption.
  - destruct m; cbn; try assumption.
    unfold sendPong. destruct (isConnected s && negb throws); [|assumption].
    apply sound_emit; [exact I|assumption].
  - assumption.
  - assert (forall s0, sound s0 ->
              sound (fst (onclose onDisconnectCallback code (s0, h)))) as Hc.
    { intros s0 Hs0. unfold onclose. cbn [fst snd].
      set (s1 := stopStableConnectionTimer (stopHeartbeat s0)).
      assert (sound s1) as H1
        by (destruct Hs0 as (Hi & Ha & Ht); repeat split; assumption).
      destruct (isManualDisconnect s1); [assumption|now apply sound_attemptReconnect]. }
    destruct (ws s); apply Hc; [|assumption].
    destruct Hs as (Hi & Ha & Ht). repeat split; assumption.
  - unfold reconnectDue. destruct (existsb (Z.eqb delay) (pendingReconnects s)); [|assumption].
    apply sound_connect. destruct Hs as (Hi & Ha & Ht). repeat split; assumption.
  - unfold stableElapsed. destruct (stableConnectionTimer s); [|assumption].
    destruct Hs as (Hi & Ha & Ht). unfold sound. cbn. repeat split; try lia; assumption.
  - unfold heartbeat. destruct (heartbeatInterval s); [|assumption].
    destruct (isConnected s); [|assumption].
    destruct throws; [now apply sound_connect|].
    apply sound_emit; [exact I|assumption].
  - assumption.
  - unfold onclose. cbn [fst snd].
    set (s1 := stopStableConnectionTimer (stopHeartbeat s)).
    assert (sound s1) as H1
      by (destruct Hs as (Hi & Ha & Ht); repeat split; assumption).
    destruct (isManualDisconnect s1); [assumption|now apply sound_attemptReconnect].
Qed.

Lemma sound_exec (c : Call) (sh : t * Host) :
  sound (fst sh) -> sound (fst (exec c sh)).
Proof.
  destruct sh as [s h]. intros Hs. destruct c as [now e| |img cf throws|]; cbn [PPEClient.exec fst snd].
  - now apply sound_handle.
  - now apply sound_connect.
  - now apply sound_send.
  - now apply sound_disconnect.
Qed.

(** X9: however the client is used from its creation (events delivered,
    [connect], [send] and [disconnect] called in any order), the ladder
    index stays within the four delays and never exceeds the attempt
    counter, every reconnect is scheduled after one of the four ladder
    delays, and every detection request written on the socket respects
    the size limit. *)
Theorem session_effects_well_formed (calls : list Call) (h : Host) :
  let s := fst (session calls (new, h)) in
  (currentDelayIndex s <= 3)%nat
  /\ (currentDelayIndex s <= reconnectAttempts s)%nat
  /\ (forall d, In (SetTimeoutConnect d) (trace s) -> In d reconnectDelays)
  /\ (forall img cf, In (Transmit (Request img cf)) (trace s) ->
                     payloadKB img <= 5000).
Proof.
  cbv zeta.
  assert (forall sh, sound (fst sh) -> sound (fst (session calls sh))) as Hrun.
  { induction calls as [|c r IH]; intros sh Hs; [exact Hs|].
    rewrite session_cons. apply IH, sound_exec, Hs. }
  destruct (Hrun (new, h)) as (Hi & Ha & Ht).
  { unfold sound. cbn. repeat split; try lia. constructor. }
  rewrite Forall_forall in Ht.
  repeat split; try assumption.
  - intros d Hd. exact (Ht _ Hd).
  - intros img cf Hin. specialize (Ht _ Hin). cbn in Ht.
    unfold tooLarge in Ht. apply negb_false_iff in Ht.
    now apply Qle_bool_iff.
Qed.

Lemma skipn_own_length (A : Type) (l fx : list A) :
  skipn (List.length l) (l ++ fx) = fx.
Proof.
  rewrite skipn_app, skipn_all, Nat.sub_diag. reflexivity.
Qed.

Lemma quiet_refl (s s' : t) : trace s' = trace s -> quiet s s'.
Proof.
  intros H. exists []. rewrite app_nil_r. repeat split; auto.
Qed.

Lemma quiet_one (e : Effect) (s s' : t) :
  trace s' = trace s ++ [e] ->
  (isTransmit e = true -> isConnected s = true) ->
  quiet s s'.
Proof.
  intros H Hc. exists [e]. repeat split; auto.
  intros Hn. simpl. destruct (isTransmit e); [|reflexivity].
  rewrite (Hc eq_refl) in Hn. discriminate Hn.
Qed.

Lemma trace_attemptReconnect (s : t) :
  trace (attemptReconnect s)
  = trace s ++ [SetTimeoutConnect (nth (currentDelayIndex s) reconnectDelays 0%Z)].
Proof.
  unfold attemptReconnect. cbn zeta. cbn [currentDelayIndex set_reconnectAttempts].
  destruct (currentDelayIndex s <? List.length reconnectDelays - 1)%nat; reflexivity.
Qed.

Lemma quiet_exec (c : Call) (s : t) (h : Host) :
  quiet s (fst (exec c (s, h))).
Proof.
  destruct c as [now e| |img cf throws|]; cbn [PPEClient.exec fst snd].
  - destruct e as [|m throws| |code|delay| |throws| |code]; cbn [handle fst snd].
    + destruct (ws s) as [[]|]; now apply quiet_refl.
    + destruct m; cbn; try (now apply quiet_refl).
      unfold sendPong. destruct (isConnected s) eqn:Hc; [|now apply quiet_refl].
      destruct throws; cbn; [now apply quiet_refl|].
      now apply (quiet_one (Transmit (Pong now))).
    + now apply quiet_refl.
    + destruct (ws s) as [st|]; unfold onclose; cbn;
        destruct (isManualDisconnect s); try (now apply quiet_refl);
        (eapply quiet_one; [rewrite trace_attemptReconnect; reflexivity|discriminate]).
    + unfold reconnectDue.
      destruct (existsb (Z.eqb delay) (pendingReconnects s)); [|now apply quiet_refl].
      apply (quiet_one NewSocket); [reflexivity|discriminate].
    + unfold stableElapsed. destruct (stableConnectionTimer s); now apply quiet_refl.
    + unfold heartbeat. destruct (heartbeatInterval s); [|now apply quiet_refl].
      destruct (isConnected s) eqn:Hc; [|now apply quiet_refl].
      destruct throws.
      * apply (quiet_one NewSocket); [reflexivity|discriminate].
      * now apply (quiet_one (Transmit Ping)).
    + now apply quiet_refl.
    + unfold onclose; cbn;
        destruct (isManualDisconnect s); try (now apply quiet_refl);
        (eapply quiet_one; [rewrite trace_attemptReconnect; reflexivity|discriminate]).
  - apply (quiet_one NewSocket); [reflexivity|discriminate].
  - unfold send.
    destruct (ws s) as [[]|] eqn:Hws;
      try (destruct (isManualDisconnect s);
           [now apply quiet_refl|apply (quiet_one NewSocket); [reflexivity|discriminate]]);
      try (now apply quiet_refl).
    destruct (tooLarge img); [now apply quiet_refl|].
    destruct throws.
    + destruct (isManualDisconnect s); [now apply quiet_refl|].
      eapply quiet_one; [rewrite trace_attemptReconnect; reflexivity|discriminate].
    + eapply quiet_one; [reflexivity|].
      intros _. unfold isConnected. now rewrite Hws.
  - unfold disconnect. destruct s as [w ra di hb sc st md pr tr].
    destruct w as [[]|]; cbn;
      try (now apply quiet_refl);
      (apply (quiet_one (CloseCall 1000)); [reflexivity|discriminate]).
Qed.

(** X10: one call on the client, or one event delivered to it, only
    appends to what it has done, and appends at most one effect; it
    writes a frame (request, ping or pong) only if the socket was open
    when the call began. *)
Theorem writes_only_on_open_socket (c : Call) (s : t) (h : Host) :
  let s' := fst (exec c (s, h)) in
  trace s' = trace s ++ added s s'
  /\ (List.length (added s s') <= 1)%nat
  /\ (isConnected s = false -> filter isTransmit (added s s') = []).
Proof.
  cbv zeta. destruct (quiet_exec c s h) as (fx & Ht & Hl & Hn).
  unfold added. rewrite Ht, skipn_own_length. auto.
Qed.

Lemma host_exec (c : Call) (s : t) (h : Host) :
  onErrorCallback = None -> onConnectCallback = None ->
  onDisconnectCallback = None ->
  snd (exec c (s, h))
  = fold_left (fun h d => onMessageCallback d h) (results [c]) h.
Proof.
  intros He Hc Hd. destruct c as [now e| |img cf throws|]; try reflexivity.
  cbn [PPEClient.exec].
  destruct e as [|m throws| |code|delay| |throws| |code]; cbn [handle fst snd]; try reflexivity.
  - destruct (ws s) as [[]|]; try reflexivity. cbn. now rewrite Hc.
  - destruct m; reflexivity.
  - cbn. now rewrite He.
  - destruct (ws s); cbn; now rewrite Hd.
  - cbn. now rewrite Hc.
  - cbn. now rewrite Hd.
Qed.

(** X11: with no other callback registered, the owner of the client sees
    exactly the detection results that were delivered, each once and in
    order of arrival: control messages (connected, processing, ping,
    pong), unparsable messages and the calls of the public methods never
    reach the message callback. *)
Theorem results_reach_callback_in_order (calls : list Call) (s : t) (h : Host) :
  onErrorCallback = None -> onConnectCallback = None ->
  onDisconnectCallback = None ->
  snd (session calls (s, h))
  = fold_left (fun h d => onMessageCallback d h) (results calls) h.
Proof.
  intros He Hc Hd. revert s h.
  induction calls as [|c r IH]; intros s h; [reflexivity|].
  rewrite session_cons.
  destruct (exec c (s, h)) as [s' h'] eqn:Hx.
  rewrite IH.
  assert (results (c :: r) = results [c] ++ results r) as ->
    by (unfold results; simpl; now rewrite app_nil_r).
  rewrite fold_left_app. f_equal.
  rewrite <- (host_exec c s h He Hc Hd), Hx. reflexivity.
Qed.

Lemma existsb_Zeqb_false (d : Z) (l : list Z) :
  ~ In d l -> existsb (Z.eqb d) l = false.
Proof.
  intros Hn. apply not_true_iff_false. intros Hex.
  apply existsb_exists in Hex. destruct Hex as (x & Hx & Heq).
  apply Z.eqb_eq in Heq. subst x. contradiction.
Qed.

Lemma inert_exec (c : Call) (o : t) (h : Host) :
  ws o = None -> isManualDisconnect o = true ->
  heartbeatInterval o = None -> stableConnectionTimer o = None ->
  reconnectAttempts o = 0%nat -> currentDelayIndex o = 0%nat ->
  c <> Connect ->
  (forall now, c <> Deliver now StaleOpened) ->
  (forall now delay, c = Deliver now (ReconnectDue delay) ->
                     ~ In delay (pendingReconnects o)) ->
  fst (exec c (o, h)) = o.
Proof.
  destruct o as [w ra di hb sc st md pr tr].
  cbn [ws isManualDisconnect heartbeatInterval stableConnectionTimer
       reconnectAttempts currentDelayIndex pendingReconnects].
  intros -> -> -> -> -> -> Hc Hopen Hstale.
  destruct c as [now e| |img cf throws|]; cbn [PPEClient.exec fst snd].
  - destruct e as [|m throws| |code|delay| |throws| |code]; cbn [handle fst snd];
      try reflexivity.
    + destruct m; reflexivity.
    + unfold reconnectDue. cbn [pendingReconnects].
      now rewrite (existsb_Zeqb_false _ _ (Hstale now delay eq_refl)).
    + contradiction (Hopen now). reflexivity.
  - contradiction Hc. reflexivity.
  - reflexivity.
  - reflexivity.
Qed.

(** X12: after [disconnect()] the object holds no socket and is inert:
    sending, heartbeat ticks, the stability timer, incoming messages,
    errors and close events of any socket leave it as it is.  Three
    things still change it.  [connect()] does.  A reconnect timeout armed
    before the disconnect does: [disconnect] cancels none of them, and
    such a timeout opens a new socket and clears the manual flag.  And
    the opening of a socket that an earlier [connect()] had replaced
    does: its handler arms the heartbeat and the stability timer again,
    although the object holds no socket; a heartbeat tick then writes
    nothing. *)
Theorem what_changes_a_disconnected_client
  (c : Call) (s : t) (h : Host) :
  let off := disconnect s in
  pendingReconnects off = pendingReconnects s
  /\ (c <> Connect ->
      (forall now, c <> Deliver now StaleOpened) ->
      (forall now delay, c = Deliver now (ReconnectDue delay) ->
                         ~ In delay (pendingReconnects s)) ->
      fst (exec c (off, h)) = off)
  /\ (forall now delay,
        In delay (pendingReconnects s) ->
        let s' := fst (exec (Deliver now (ReconnectDue delay)) (off, h)) in
        ws s' = Some CONNECTING
        /\ isManualDisconnect s' = false
        /\ trace s' = trace off ++ [NewSocket])
  /\ (forall now throws,
        let s' := fst (exec (Deliver now StaleOpened) (off, h)) in
        ws s' = None
        /\ isManualDisconnect s' = true
        /\ heartbeatInterval s' = Some 30000%Z
        /\ stableConnectionTimer s' = Some 300000%Z
        /\ connectionStartTime s' = now
        /\ trace s' = trace off
        /\ fst (exec (Deliver now (HeartbeatTick throws)) (s', h)) = s').
Proof.
  cbv zeta.
  destruct (disconnect_spec s) as (Hra & Hdi & Hmd & Hsc & Hhb & Hws & _ & Hp).
  split; [exact Hp|]. split; [|split].
  - intros Hc Hopen Hstale. apply inert_exec; try assumption.
    intros now delay He. rewrite Hp. exact (Hstale now delay He).
  - intros now delay Hin. cbn [PPEClient.exec handle fst snd]. unfold reconnectDue.
    rewrite Hp.
    assert (existsb (Z.eqb delay) (pendingReconnects s) = true) as ->.
    { apply existsb_exists. exists delay. split; [exact Hin|apply Z.eqb_refl]. }
    repeat split.
  - intros now throws.
    revert Hmd Hws. generalize (disconnect s) as o. intros o Hmd Hws.
    cbn [PPEClient.exec handle fst snd]. unfold onopen. cbn [fst snd].
    repeat (split; [first [exact Hws | exact Hmd | reflexivity]|]).
    unfold heartbeat, isConnected.
    cbn [heartbeatInterval ws startStableConnectionTimer startHeartbeat
         stopHeartbeat stopStableConnectionTimer set_heartbeatInterval
         set_stableConnectionTimer set_connectionStartTime].
    rewrite Hws. reflexivity.
Qed.

End TransportMore.

(* ================================================================== *)
(** ** The session manager, over any run of events *)

Section SessionMore.

Import PPEService Dashboard SessionLog.

Variable cfg : Config.

Ltac case_ifs :=
  repeat match goal with
         | |- context [match ?x with Some _ => _ | None => _ end] =>
             destruct x; simpl
         | |- context [if ?b then _ else _] => destruct b; simpl
         end.

(** *** The history *)

Lemma slice0_length (A : Type) (e : Z) (l : list A) :
  (0 <= e)%Z -> (Z.of_nat (List.length (Js.slice0 e l)) <= e)%Z.
Proof.
  intros He. rewrite slice0_firstn by exact He.
  pose proof (firstn_le_length (Z.to_nat e) l) as H1.
  rewrite length_firstn. lia.
Qed.

Lemma handler_records_cases (now : Z) (data : DetectionResponse) (s : Dash) :
  detectionRecords (handleDetectionResponse cfg now data s) = detectionRecords s
  \/ exists r,
       detectionRecords (handleDetectionResponse cfg now data s)
       = r :: Js.slice0 (history_maxRecords cfg - 1)
              (r :: Js.slice0 (history_maxRecords cfg - 1) (detectionRecords s)).
Proof.
  destruct (ppe_status data) as [status|] eqn:Hst.
  - assert (has_person data = Some false \/ has_person data <> Some false) as [Hp|Hp].
    { destruct (has_person data) as [[|]|]; auto; right; discriminate. }
    + left. unfold handleDetectionResponse. rewrite Hst, Hp. reflexivity.
    + right. eexists. exact (handler_records cfg now data status s Hst Hp).
  - left. unfold handleDetectionResponse. rewrite Hst. reflexivity.
Qed.

Lemma captureAndSend_records (env : Env) (s : Dash) :
  detectionRecords (captureAndSend env s) = detectionRecords s.
Proof.
  unfold captureAndSend, wsSend, act.
  destruct (isProcessingRef s); [reflexivity|].
  destruct (cameraFeed env) as [[img|]|]; simpl; try reflexivity.
  destruct (Js.truthy_string img); simpl; try reflexivity.
  destruct (wsRef s); reflexivity.
Qed.

Lemma fire_records (i : nat) (env : Env) (s : Dash) :
  detectionRecords (fire i env s) = detectionRecords s.
Proof.
  unfold fire. destruct (find _ (timers s)) as [t|]; [|reflexivity].
  pose proof (captureAndSend_records env (clearTimeout i s)) as Hc.
  destruct (timer_chain t) as [paused|].
  - unfold startCallback.
    destruct (negb (cameraMounted env) || negb (wsConnected (clearTimeout i s)) || paused);
      [reflexivity|].
    destruct (negb paused); simpl; exact Hc.
  - unfold resumeCallback.
    destruct (negb (cameraMounted env) || negb (wsConnected (clearTimeout i s)));
      [reflexivity|]. simpl. exact Hc.
Qed.

Lemma step_records (e : Event) (s : Dash) :
  detectionRecords (step cfg e s) = detectionRecords s
  \/ detectionRecords (step cfg e s) = []
  \/ exists r,
       detectionRecords (step cfg e s)
       = r :: Js.slice0 (history_maxRecords cfg - 1)
              (r :: Js.slice0 (history_maxRecords cfg - 1) (detectionRecords s)).
Proof.
  destruct e as [|env|env| |historical| |i env|now e|]; cbn [step].
  - left. destruct (wsRef s); reflexivity.
  - left. unfold handleResume, stopDetection, startDetection, scheduleNextDetection, act.
    cbv zeta. case_ifs; reflexivity.
  - left. unfold handleResume, scheduleNextDetection. cbv zeta. case_ifs; reflexivity.
  - left. destruct (isSafetyModalOpen s); reflexivity.
  - left. reflexivity.
  - left. unfold handleRefresh, stopDetection. cbv zeta. case_ifs; reflexivity.
  - left. apply fire_records.
  - unfold socketEvent. destruct (wsRef s) as [w|]; [|now left].
    pose proof (handle_host cfg now e w s) as H. cbv zeta in H.
    set (r := PPEWebSocket.handle _ _ _ _ now e (w, s)) in *.
    change (detectionRecords (set_wsRef (Some (fst r)) (snd r)))
      with (detectionRecords (snd r)).
    destruct H as [->|[(b & ->)|(data & ->)]]; [now left|now left|].
    destruct (handler_records_cases now data s) as [H|H]; [now left|now right; right].
  - right. left. reflexivity.
Qed.

(** X13: with a history bound of at least one record, the history never
    holds more than [maxRecords] records, whatever was found in local
    storage and whatever happens afterwards. *)
Theorem history_never_exceeds_bound
  (stored : option (list DetectionRecord)) (evs : list Event) :
  (1 <= history_maxRecords cfg)%Z ->
  (Z.of_nat (List.length (detectionRecords (run cfg evs (initial cfg stored))))
   <= history_maxRecords cfg)%Z.
Proof.
  intros Hm.
  assert (forall s,
            (Z.of_nat (List.length (detectionRecords s)) <= history_maxRecords cfg)%Z ->
            (Z.of_nat (List.length (detectionRecords (run cfg evs s)))
             <= history_maxRecords cfg)%Z) as Hrun.
  { induction evs as [|e r IH]; intros s Hs; [exact Hs|].
    simpl. apply IH.
    destruct (step_records e s) as [->|[->|(rec & ->)]]; [exact Hs|simpl; lia|].
    cbn [List.length]. rewrite Nat2Z.inj_succ.
    pose proof (slice0_length _ (history_maxRecords cfg - 1)
                  (rec :: Js.slice0 (history_maxRecords cfg - 1) (detectionRecords s))).
    lia. }
  apply Hrun. destruct stored as [parsed|]; simpl; [|lia].
  apply slice0_length. lia.
Qed.

(** *** What a timer callback does *)

Lemma requests_ext (s s' : Dash) : wsRef s' = wsRef s -> requests s' = requests s.
Proof. unfold requests. intros ->. reflexivity. Qed.

Lemma captures_ext (s s' : Dash) : log s' = log s -> captures s' = captures s.
Proof. unfold captures. intros ->. reflexivity. Qed.

Lemma send_requests (img : string) (cf : Q) (throws : bool) (w : PPEWebSocket.t) :
  filter isRequest (PPEWebSocket.trace (PPEWebSocket.send img cf throws w))
  = filter isRequest (PPEWebSocket.trace w)
  \/ filter isRequest (PPEWebSocket.trace (PPEWebSocket.send img cf throws w))
     = filter isRequest (PPEWebSocket.trace w)
       ++ [PPEWebSocket.Transmit (PPEWebSocket.Request img cf)].
Proof.
  unfold PPEWebSocket.send.
  destruct (PPEWebSocket.ws w) as [[]|];
    try (destruct (PPEWebSocket.isManualDisconnect w); [now left|];
         left; unfold PPEWebSocket.connect; now rewrite requests_emit);
    try (now left).
  destruct (PPEWebSocket.tooLarge img); [now left|].
  destruct throws.
  - left. destruct (PPEWebSocket.isManualDisconnect w); [reflexivity|].
    apply requests_attemptReconnect.
  - right. unfold PPEWebSocket.emit. cbn [PPEWebSocket.trace PPEWebSocket.set_trace].
    now rewrite filter_app.
Qed.

Lemma captureAndSend_busy (env : Env) (s : Dash) :
  isProcessingRef s = true -> captureAndSend env s = s.
Proof. unfold captureAndSend. now intros ->. Qed.

Lemma captureAndSend_free (env : Env) (s : Dash) :
  isProcessingRef s = false ->
  captures (captureAndSend env s) = captures s ++ [Capture (shot env)]
  /\ lastSendTimeRef (captureAndSend env s) = now env
  /\ (requests (captureAndSend env s) = requests s
      \/ exists img,
           shot env = Some img
           /\ requests (captureAndSend env s)
              = requests s
                ++ [PPEWebSocket.Transmit (PPEWebSocket.Request img (3 # 10))]).
Proof.
  intros Hfree. unfold captureAndSend. rewrite Hfree. cbv zeta.
  fold (shot env).
  set (s1 := set_lastSendTimeRef (now env)
               (set_isDetecting true (set_isProcessingRef true s))).
  assert (captures (act (Capture (shot env)) s1) = captures s ++ [Capture (shot env)])
    as Hcap by (rewrite captures_act; reflexivity).
  destruct (shot env) as [img|] eqn:Hshot.
  - destruct (Js.truthy_string img).
    + set (s2 := act (Capture (Some img)) s1) in *.
      destruct (wsSend_sched img env s2) as (_ & Hlog).
      split; [rewrite (captures_ext _ _ Hlog); exact Hcap|].
      split; [unfold wsSend; destruct (wsRef s2); reflexivity|].
      unfold wsSend, requests.
      change (wsRef s2) with (wsRef s).
      destruct (wsRef s) as [w|] eqn:Hw.
      * cbn [wsRef set_wsRef].
        destruct (send_requests img (3 # 10) (sendThrows env) w) as [H|H];
          [left; exact H|right; exists img; split; [reflexivity|exact H]].
      * change (wsRef s2) with (wsRef s). rewrite Hw. now left.
    + split; [exact Hcap|]. split; [reflexivity|]. now left.
  - split; [exact Hcap|]. split; [reflexivity|]. now left.
Qed.

Lemma fire_cases (t : Timer) (env : Env) (s : Dash) :
  invariant (sched s) -> In t (timers s) -> closureUnpaused t ->
  let s' := fire (timer_id t) env s in
  timers s = [t]
  /\ (cameraMounted env = false \/ wsConnected s = false ->
      timers s' = [] /\ log s' = log s /\ wsRef s' = wsRef s
      /\ cameraActive s' = true /\ isProcessingRef s' = isProcessingRef s)
  /\ (cameraMounted env = true -> wsConnected s = true ->
      timers s' = [rearmed t s]
      /\ (isProcessingRef s = true ->
          log s' = log s /\ wsRef s' = wsRef s /\ isProcessingRef s' = true)
      /\ (isProcessingRef s = false ->
          captures s' = captures s ++ [Capture (shot env)]
          /\ lastSendTimeRef s' = now env
          /\ (requests s' = requests s
              \/ exists img,
                   shot env = Some img
                   /\ requests s'
                      = requests s
                        ++ [PPEWebSocket.Transmit (PPEWebSocket.Request img (3 # 10))]))).
Proof.
  intros (Hn & Hp & Hcase) Hin Hchain. cbv zeta.
  destruct Hcase as [Hnil|((t0 & Ht & Href & Hid) & Hpa & Hca)]; cbn in *.
  { rewrite Hnil in Hin. contradiction. }
  rewrite Ht in Hin. destruct Hin as [<-|[]].
  split; [exact Ht|].
  unfold fire. rewrite Ht. cbn [find]. rewrite Nat.eqb_refl.
  set (s1 := clearTimeout (timer_id t0) s).
  assert (timers s1 = []) as Ht1.
  { unfold s1, clearTimeout. cbn. rewrite Ht. cbn. now rewrite Nat.eqb_refl. }
  assert (wsConnected s1 = wsConnected s) as Hws1 by reflexivity.
  assert (forall c, timers (scheduleNextDetection c (captureAndSend env s1))
                    = [ {| timer_id := nextTimerId s;
                           timer_delay := adaptiveIntervalRef s;
                           timer_chain := c |} ]) as Harm.
  { intros c. unfold scheduleNextDetection. cbn.
    destruct (captureAndSend_latency env s1) as (_ & ->).
    pose proof (captureAndSend_sched env s1) as Hs.
    change (timers (captureAndSend env s1))
      with (sched_timers (sched (captureAndSend env s1))).
    change (nextTimerId (captureAndSend env s1))
      with (sched_next (sched (captureAndSend env s1))).
    rewrite Hs. cbn [sched sched_timers sched_next]. rewrite Ht1. reflexivity. }
  assert (forall c,
            let s' := scheduleNextDetection c (captureAndSend env s1) in
            (isProcessingRef s = true ->
             log s' = log s /\ wsRef s' = wsRef s /\ isProcessingRef s' = true)
            /\ (isProcessingRef s = false ->
                captures s' = captures s ++ [Capture (shot env)]
                /\ lastSendTimeRef s' = now env
                /\ (requests s' = requests s
                    \/ exists img,
                         shot env = Some img
                         /\ requests s'
                            = requests s
                              ++ [PPEWebSocket.Transmit
                                    (PPEWebSocket.Request img (3 # 10))]))) as Hshot.
  { intros c. cbv zeta. split.
    - intros Hbusy. rewrite (captureAndSend_busy env s1 Hbusy). auto.
    - intros Hfree. exact (captureAndSend_free env s1 Hfree). }
  destruct (timer_chain t0) as [[|]|] eqn:Hc.
  - contradiction (Hchain Hc).
  - unfold startCallback. rewrite Hws1, orb_false_r. cbn [negb]. split.
    + intros Hoff.
      assert (negb (cameraMounted env) || negb (wsConnected s) = true) as ->
        by (destruct Hoff as [-> | ->]; [reflexivity|apply orb_true_r]).
      repeat split; auto.
    + intros Hm Hw. rewrite Hm, Hw. cbn [negb orb].
      split; [rewrite Harm; unfold rearmed; now rewrite Hc|]. apply Hshot.
  - unfold resumeCallback. rewrite Hws1. split.
    + intros Hoff.
      assert (negb (cameraMounted env) || negb (wsConnected s) = true) as ->
        by (destruct Hoff as [-> | ->]; [reflexivity|apply orb_true_r]).
      repeat split; auto.
    + intros Hm Hw. rewrite Hm, Hw. cbn [negb orb].
      split; [rewrite Harm; unfold rearmed; now rewrite Hc|]. apply Hshot.
Qed.

(** *** Invariants of the pending timeouts *)

Lemma schedule_timers (c : Chain) (s : Dash) :
  timers (scheduleNextDetection c s)
  = timers s ++ [ {| timer_id := nextTimerId s;
                     timer_delay := adaptiveIntervalRef s;
                     timer_chain := c |} ].
Proof. reflexivity. Qed.

Lemma handleResume_timers (env : Env) (s : Dash) :
  timers (handleResume env s) = timers s
  \/ timers (handleResume env s)
     = timers s ++ [ {| timer_id := nextTimerId s;
                        timer_delay := adaptiveIntervalRef s;
                        timer_chain := FromResume |} ].
Proof.
  unfold handleResume. cbv zeta.
  destruct (cameraActive s); cbn [negb];
    match goal with |- context [if ?b then _ else _] => destruct b end;
    [right|left|right|left]; reflexivity.
Qed.

Lemma startDetection_timers (env : Env) (s : Dash) :
  timers (startDetection env s) = timers s
  \/ timers (startDetection env s)
     = timers s ++ [ {| timer_id := nextTimerId s;
                        timer_delay := adaptiveIntervalRef s;
                        timer_chain := FromStart (isPaused s) |} ].
Proof.
  unfold startDetection.
  destruct (negb (cameraMounted env) || negb (wsConnected s)); [left|right]; reflexivity.
Qed.

(** The owner of a socket event; a verdict reaches the handler only as a
    delivered result. *)
Lemma handle_host_result
  (now : Z) (e : PPEWebSocket.Event) (w : PPEWebSocket.t) (s : Dash) :
  let r := PPEWebSocket.handle (handleDetectionResponse cfg now)
             (Some (set_isConnected false)) (Some (set_isConnected true))
             (Some (set_isConnected false)) now e (w, s) in
  (deliversResult (Socket now e) = false
   /\ (snd r = s \/ exists b, snd r = set_isConnected b s))
  \/ (exists data throws,
        e = PPEWebSocket.Received (PPEWebSocket.Result data) throws
        /\ snd r = handleDetectionResponse cfg now data s).
Proof.
  cbv zeta. destruct e as [|m throws| |code|delay| |throws| |code];
    unfold PPEWebSocket.handle; cbn [fst snd deliversResult].
  - left. split; [reflexivity|].
    destruct (PPEWebSocket.ws w) as [[]|]; cbn; eauto.
  - destruct m; cbn; eauto.
  - left. cbn. eauto.
  - left. split; [reflexivity|]. destruct (PPEWebSocket.ws w); cbn; eauto.
  - left. cbn. eauto.
  - left. cbn. eauto.
  - left. cbn. eauto.
  - left. cbn. eauto.
  - left. cbn. eauto.
Qed.

Lemma socketEvent_timers (now : Z) (e : PPEWebSocket.Event) (s : Dash) :
  invariant (sched s) ->
  timers (socketEvent cfg now e s) = timers s \/ timers (socketEvent cfg now e s) = [].
Proof.
  intros Hinv. unfold socketEvent. destruct (wsRef s) as [w|]; [|now left].
  pose proof (handle_host cfg now e w s) as H. cbv zeta in H.
  set (r := PPEWebSocket.handle _ _ _ _ now e (w, s)) in *.
  change (timers (set_wsRef (Some (fst r)) (snd r))) with (timers (snd r)).
  destruct H as [->|[(b & ->)|(data & ->)]]; [now left|now left|].
  destruct (handler_sched cfg now data s Hinv) as (_ & _ & [(Hs & _)|Hpause]).
  - left. change (sched_timers (sched (handleDetectionResponse cfg now data s))
                  = sched_timers (sched s)). now rewrite Hs.
  - right. now destruct Hpause as (_ & _ & _ & _ & Ht & _).
Qed.

Lemma fire_found (i : nat) (env : Env) (s : Dash) :
  fire i env s = s
  \/ exists t, In t (timers s) /\ timer_id t = i.
Proof.
  unfold fire. destruct (find _ (timers s)) as [t|] eqn:Hf; [|now left].
  right. apply find_some in Hf. destruct Hf as (Hin & Hid).
  apply Nat.eqb_eq in Hid. eauto.
Qed.

Lemma fire_timers (i : nat) (env : Env) (s : Dash) :
  invariant (sched s) -> Forall closureUnpaused (timers s) ->
  Forall closureUnpaused (timers (fire i env s)).
Proof.
  intros Hinv Hch. destruct (fire_found i env s) as [->|(t & Hin & <-)]; [exact Hch|].
  assert (closureUnpaused t) as Ht by (rewrite Forall_forall in Hch; now apply Hch).
  destruct (fire_cases t env s Hinv Hin Ht) as (_ & Hoff & Hon).
  destruct (cameraMounted env) eqn:Hm; [|destruct Hoff as (-> & _); auto].
  destruct (wsConnected s) eqn:Hw; [|destruct Hoff as (-> & _); auto].
  destruct (Hon eq_refl eq_refl) as (-> & _).
  constructor; [exact Ht|constructor].
Qed.

Lemma step_chains (e : Event) (s : Dash) :
  invariant (sched s) -> Forall closureUnpaused (timers s) ->
  Forall closureUnpaused (timers (step cfg e s)).
Proof.
  intros Hinv Hch.
  assert (forall env, Forall closureUnpaused (timers (handleResume env s))) as Hres.
  { intros env. destruct (handleResume_timers env s) as [-> | ->]; [exact Hch|].
    apply Forall_app. split; [exact Hch|]. constructor; [discriminate|constructor]. }
  assert (Forall closureUnpaused (timers (stopDetection s))) as Hstop.
  { destruct (stopDetection_spec s Hinv) as (-> & _). constructor. }
  destruct e as [|env|env| |historical| |i env|now e|]; cbn [step].
  - destruct (wsRef s); exact Hch.
  - destruct (isConnected s); cbn [negb]; [|exact Hch].
    destruct (isPaused s) eqn:Hpa; [apply Hres|].
    destruct (cameraActive s); [exact Hstop|].
    destruct (startDetection_timers env s) as [-> | ->]; [exact Hch|].
    apply Forall_app. split; [exact Hch|]. rewrite Hpa.
    constructor; [discriminate|constructor].
  - destruct (isSafetyModalOpen s && isPaused s); [apply Hres|exact Hch].
  - destruct (isSafetyModalOpen s); exact Hch.
  - exact Hch.
  - exact Hstop.
  - now apply fire_timers.
  - destruct (socketEvent_timers now e s Hinv) as [-> | ->]; [exact Hch|constructor].
  - exact Hch.
Qed.

(** What holds in every state the mounted component can reach. *)
Lemma reachable (stored : option (list DetectionRecord)) (evs : list Event) :
  invariant (sched (run cfg evs (initial cfg stored)))
  /\ Forall closureUnpaused (timers (run cfg evs (initial cfg stored))).
Proof.
  assert (forall s, invariant (sched s) /\ Forall closureUnpaused (timers s) ->
                    invariant (sched (run cfg evs s))
                    /\ Forall closureUnpaused (timers (run cfg evs s))) as Hrun.
  { induction evs as [|e r IH]; intros s Hs; [exact Hs|].
    simpl. apply IH. destruct Hs as (Hinv & Hch).
    split; [now apply step_invariant|now apply step_chains]. }
  apply Hrun. split; [apply invariant_initial|constructor].
Qed.

(** X14: in every reachable state at most one capture timeout is pending,
    and its callback never reads a paused gate.  When it fires with the
    camera unmounted or the socket not connected, the capture loop ends:
    nothing is captured or sent, no timeout is armed, and the session
    still counts as active.  Otherwise exactly one timeout is armed anew,
    with the current adaptive interval; a frame is captured, and the send
    time stamped, only if no frame is in flight. *)
Theorem timer_callback_cases
  (stored : option (list DetectionRecord)) (evs : list Event)
  (t : Timer) (env : Env) :
  let s := run cfg evs (initial cfg stored) in
  let s' := step cfg (TimerFires (timer_id t) env) s in
  In t (timers s) ->
  timers s = [t] /\ closureUnpaused t
  /\ (cameraMounted env = false \/ wsConnected s = false ->
      timers s' = [] /\ captures s' = captures s /\ requests s' = requests s
      /\ cameraActive s' = true)
  /\ (cameraMounted env = true -> wsConnected s = true ->
      timers s' = [rearmed t s]
      /\ (isProcessingRef s = true ->
          captures s' = captures s /\ requests s' = requests s)
      /\ (isProcessingRef s = false ->
          captures s' = captures s ++ [Capture (shot env)]
          /\ lastSendTimeRef s' = now env)).
Proof.
  cbv zeta. intros Hin. cbn [step].
  destruct (reachable stored evs) as (Hinv & Hch).
  assert (closureUnpaused t) as Ht by (rewrite Forall_forall in Hch; now apply Hch).
  destruct (fire_cases t env _ Hinv Hin Ht) as (Hone & Hoff & Hon).
  split; [exact Hone|]. split; [exact Ht|]. split.
  - intros H. destruct (Hoff H) as (H1 & H2 & H3 & H4 & _).
    split; [exact H1|]. split; [now apply captures_ext|].
    split; [now apply requests_ext|exact H4].
  - intros Hm Hw. destruct (Hon Hm Hw) as (H1 & Hbusy & Hfree).
    split; [exact H1|]. split.
    + intros Hb. destruct (Hbusy Hb) as (H2 & H3 & _).
      split; [now apply captures_ext|now apply requests_ext].
    + intros Hf. destruct (Hfree Hf) as (H2 & H3 & _). auto.
Qed.

Lemma idle_step_timers (e : Event) (s : Dash) :
  invariant (sched s) -> timers s = [] -> arms e = false ->
  timers (step cfg e s) = [].
Proof.
  intros Hinv Ht He.
  destruct e as [|env|env| |historical| |i env|now e|]; cbn [step];
    try discriminate He.
  - destruct (wsRef s); exact Ht.
  - destruct (isSafetyModalOpen s); exact Ht.
  - exact Ht.
  - unfold handleRefresh. now destruct (stopDetection_spec s Hinv) as (-> & _).
  - unfold fire. now rewrite Ht.
  - destruct (socketEvent_timers now e s Hinv) as [-> | ->]; [exact Ht|reflexivity].
  - exact Ht.
Qed.

(** X15: once no capture timeout is pending (before the first start,
    after a stop, during a pause, or after a timer found the camera or
    the socket unavailable), nothing is captured or sent and no timeout
    is armed until the main button or the modal's resume button is
    clicked: socket events, reconnections included, never restart the
    capture loop. *)
Theorem idle_scheduler_needs_a_click
  (stored : option (list DetectionRecord)) (evs more : list Event) :
  let s := run cfg evs (initial cfg stored) in
  let s' := run cfg more s in
  timers s = [] ->
  forallb (fun e => negb (arms e)) more = true ->
  timers s' = [] /\ captures s' = captures s /\ requests s' = requests s.
Proof.
  cbv zeta. intros Ht Hmore.
  destruct (reachable stored evs) as (Hinv & _).
  revert Hinv Ht Hmore. generalize (run cfg evs (initial cfg stored)) as s.
  induction more as [|e r IH]; intros s Hinv Ht Hmore; [auto|].
  cbn [forallb] in Hmore. apply andb_prop in Hmore. destruct Hmore as (He & Hr).
  apply negb_true_iff in He.
  destruct (idle_step_captures_nothing cfg e s Hinv Ht) as (Hc & Hq).
  change (run cfg (e :: r) s) with (run cfg r (step cfg e s)).
  destruct (IH (step cfg e s) (step_invariant cfg e s Hinv)
               (idle_step_timers e s Hinv Ht He) Hr) as (H1 & H2 & H3).
  split; [exact H1|]. split; congruence.
Qed.

(** X16: a stop followed by a start begins a fresh session at the default
    cadence: whatever the latencies seen before, the first timeout of
    the new session is armed with 1500 ms, by the start scheduler with
    an unpaused closure; the latency window is empty, no frame is in
    flight, and nothing was captured or sent on the way. *)
Theorem restart_begins_at_default_interval
  (stored : option (list DetectionRecord)) (evs : list Event) (env : Env) :
  let s := run cfg evs (initial cfg stored) in
  let s' := run cfg [ClickRefresh; ClickMain env] s in
  isConnected s = true -> cameraMounted env = true -> wsConnected s = true ->
  timers s' = [ {| timer_id := nextTimerId s;
                   timer_delay := 1500;
                   timer_chain := FromStart false |} ]
  /\ latencyHistoryRef s' = []
  /\ adaptiveIntervalRef s' = 1500%Z
  /\ isProcessingRef s' = false
  /\ cameraActive s' = true /\ isPaused s' = false
  /\ captures s' = captures s /\ requests s' = requests s.
Proof.
  cbv zeta. intros Hc Hm Hw.
  destruct (reachable stored evs) as (Hinv & _).
  revert Hinv Hc Hw. generalize (run cfg evs (initial cfg stored)) as s.
  intros s Hinv Hc Hw.
  change (run cfg [ClickRefresh; ClickMain env] s)
    with (step cfg (ClickMain env) (stopDetection s)).
  destruct (stopDetection_spec s Hinv) as (Ht & Hpa & Hn & _ & Hl & Hws & Hh & Ha).
  assert (isConnected (stopDetection s) = true) as Hc'.
  { unfold stopDetection. cbv zeta. case_ifs; exact Hc. }
  assert (cameraActive (stopDetection s) = false) as Hca.
  { unfold stopDetection. cbv zeta. case_ifs; reflexivity. }
  assert (isProcessingRef (stopDetection s) = false) as Hpr.
  { unfold stopDetection. cbv zeta. case_ifs; reflexivity. }
  assert (wsConnected (stopDetection s) = true) as Hw'.
  { unfold wsConnected. rewrite Hws. exact Hw. }
  assert (captures (stopDetection s) = captures s) as Hcap by now apply captures_ext.
  assert (requests (stopDetection s) = requests s) as Hreq by now apply requests_ext.
  revert Ht Hpa Hn Hh Ha Hc' Hca Hpr Hw' Hcap Hreq.
  generalize (stopDetection s) as s1.
  intros s1 Ht Hpa Hn Hh Ha Hc' Hca Hpr Hw' Hcap Hreq.
  cbn [step]. rewrite Hc', Hpa, Hca. cbn [negb].
  unfold startDetection. rewrite Hm, Hw'. cbn [negb orb].
  split.
  { rewrite schedule_timers.
    cbn [timers set_cameraActive nextTimerId adaptiveIntervalRef].
    now rewrite Ht, Hn, Ha, Hpa. }
  split; [exact Hh|]. split; [exact Ha|]. split; [exact Hpr|].
  split; [reflexivity|]. split; [exact Hpa|].
  split; [exact Hcap|exact Hreq].
Qed.

(** *** The gate *)

Lemma fire_gate (i : nat) (env : Env) (s : Dash) :
  isPaused (fire i env s) = isPaused s.
Proof.
  unfold fire. destruct (find _ (timers s)) as [t|]; [|reflexivity].
  pose proof (captureAndSend_sched env (clearTimeout i s)) as Hs.
  assert (isPaused (captureAndSend env (clearTimeout i s)) = isPaused s) as Hp.
  { change (sched_paused (sched (captureAndSend env (clearTimeout i s)))
            = sched_paused (sched (clearTimeout i s))). now rewrite Hs. }
  destruct (timer_chain t) as [paused|].
  - unfold startCallback.
    destruct (negb (cameraMounted env) || negb (wsConnected (clearTimeout i s)) || paused);
      [reflexivity|].
    destruct (negb paused); [exact Hp|exact Hp].
  - unfold resumeCallback.
    destruct (negb (cameraMounted env) || negb (wsConnected (clearTimeout i s)));
      [reflexivity|exact Hp].
Qed.

Lemma handler_pauses (now : Z) (data : DetectionResponse) (s : Dash) :
  invariant (sched s) ->
  (isViolation data = true ->
   isPaused (handleDetectionResponse cfg now data s) = true
   /\ isSafetyModalOpen (handleDetectionResponse cfg now data s) = true
   /\ timers (handleDetectionResponse cfg now data s) = [])
  /\ (isViolation data = false ->
      isPaused (handleDetectionResponse cfg now data s) = isPaused s).
Proof.
  intros Hinv.
  destruct (handler_sched cfg now data s Hinv) as (_ & _ & [(Hs & Hwhy)|Hpause]).
  - split.
    + intros Hv. unfold isViolation in Hv.
      destruct Hwhy as [Hn|[Hp|Hc]].
      * rewrite Hn in Hv. discriminate Hv.
      * rewrite Hp in Hv. destruct (ppe_status data); discriminate Hv.
      * rewrite Hc in Hv. destruct (ppe_status data); [|discriminate Hv].
        destruct (has_person data) as [[|]|]; discriminate Hv.
    + intros _. change (sched_paused (sched (handleDetectionResponse cfg now data s))
                        = sched_paused (sched s)). now rewrite Hs.
  - destruct Hpause as (Hc & Hp & Hpa & Hmo & Ht & _). split; [auto|].
    intros Hv. unfold isViolation in Hv.
    destruct (ppe_status data) as [status|] eqn:Hst.
    + rewrite Hc in Hv. destruct (has_person data) as [[|]|]; try discriminate Hv.
      contradiction Hp. reflexivity.
    + unfold handleDetectionResponse. rewrite Hst. reflexivity.
Qed.

(** X17: in every reachable state, the one event that pauses an unpaused
    gate is the delivery of a violation: a detection result that carries
    a status, does not report an empty scene and is not compliant.  No
    click, timer or other socket event sets the pause flag; and once the
    socket object exists, every delivered violation pauses the gate,
    opens the safety modal and leaves no capture pending. *)
Theorem only_a_violation_pauses
  (stored : option (list DetectionRecord)) (evs : list Event) (e : Event) :
  let s := run cfg evs (initial cfg stored) in
  let s' := step cfg e s in
  (isPaused s = false -> isPaused s' = true -> deliversViolation e = true)
  /\ (wsRef s <> None -> deliversViolation e = true ->
      isPaused s' = true /\ isSafetyModalOpen s' = true /\ timers s' = []).
Proof.
  cbv zeta. destruct (reachable stored evs) as (Hinv & _).
  revert Hinv. generalize (run cfg evs (initial cfg stored)) as s. intros s Hinv.
  split.
  - intros Hpa Hpa'.
    destruct e as [|env|env| |historical| |i env|now e|]; cbn [step] in Hpa'.
    + destruct (wsRef s); cbn in Hpa'; congruence.
    + destruct (isConnected s); cbn [negb] in Hpa'; [|congruence].
      rewrite Hpa in Hpa'. destruct (cameraActive s).
      * destruct (stopDetection_spec s Hinv) as (_ & H & _). congruence.
      * unfold startDetection in Hpa'.
        destruct (negb (cameraMounted env) || negb (wsConnected s));
          cbn in Hpa'; congruence.
    + rewrite Hpa, andb_false_r in Hpa'. congruence.
    + destruct (isSafetyModalOpen s); cbn in Hpa'; congruence.
    + cbn in Hpa'. congruence.
    + unfold handleRefresh in Hpa'.
      destruct (stopDetection_spec s Hinv) as (_ & H & _). congruence.
    + rewrite fire_gate in Hpa'. congruence.
    + unfold socketEvent in Hpa'. destruct (wsRef s) as [w|]; [|congruence].
      pose proof (handle_host_result now e w s) as H. cbv zeta in H.
      set (r := PPEWebSocket.handle _ _ _ _ now e (w, s)) in *.
      change (isPaused (snd r) = true) in Hpa'.
      destruct H as [(_ & [Hr|(b & Hr)])|(data & throws & -> & Hr)];
        rewrite Hr in Hpa'; try (cbn in Hpa'; congruence).
      cbn [deliversViolation].
      destruct (isViolation data) eqn:Hv; [reflexivity|].
      destruct (handler_pauses now data s Hinv) as (_ & Hsame).
      rewrite (Hsame Hv) in Hpa'. congruence.
    + cbn in Hpa'. congruence.
  - intros Hws Hv.
    destruct e as [|env|env| |historical| |i env|now e|]; try discriminate Hv.
    destruct e as [|m throws| |code|delay| |throws| |code]; try discriminate Hv.
    destruct m as [| | | | |data]; try discriminate Hv.
    cbn [deliversViolation] in Hv. cbn [step]. unfold socketEvent.
    destruct (wsRef s) as [w|]; [|contradiction Hws; reflexivity].
    destruct (handler_pauses now data s Hinv) as (Hyes & _).
    exact (Hyes Hv).
Qed.

(** *** Frames captured and frames sent *)

Lemma nonfire_step_quiet (e : Event) (s : Dash) :
  invariant (sched s) -> isTimerFires e = false ->
  captures (step cfg e s) = captures s /\ requests (step cfg e s) = requests s.
Proof.
  intros Hinv He.
  assert (forall env, captures (handleResume env s) = captures s
                      /\ requests (handleResume env s) = requests s) as Hres.
  { intros env. unfold handleResume, scheduleNextDetection. cbv zeta.
    destruct (cameraActive s); cbn [negb];
      match goal with |- context [if ?b then _ else _] => destruct b end;
      split; reflexivity. }
  assert (captures (stopDetection s) = captures s
          /\ requests (stopDetection s) = requests s) as Hstop.
  { destruct (stopDetection_spec s Hinv) as (_ & _ & _ & _ & Hl & Hw & _).
    split; [now apply captures_ext|now apply requests_ext]. }
  destruct e as [|env|env| |historical| |i env|now e|]; cbn [step];
    try discriminate He.
  - unfold requests. destruct (wsRef s) eqn:Hw; cbn; rewrite ?Hw; auto.
  - destruct (isConnected s); cbn [negb]; [|auto].
    destruct (isPaused s); [apply Hres|].
    destruct (cameraActive s); [exact Hstop|].
    unfold startDetection.
    destruct (negb (cameraMounted env) || negb (wsConnected s)); [|auto].
    rewrite captures_act. cbn. rewrite app_nil_r. auto.
  - destruct (isSafetyModalOpen s && isPaused s); [apply Hres|auto].
  - destruct (isSafetyModalOpen s); auto.
  - auto.
  - exact Hstop.
  - split; [apply socketEvent_spec; exact Hinv|apply socketEvent_requests].
  - auto.
Qed.

Lemma step_counts (e : Event) (s : Dash) :
  invariant (sched s) -> Forall closureUnpaused (timers s) ->
  (List.length (captures (step cfg e s))
   <= List.length (captures s) + (if isTimerFires e then 1 else 0))%nat
  /\ (List.length (captures s) <= List.length (captures (step cfg e s)))%nat
  /\ (List.length (requests (step cfg e s)) + List.length (captures s)
      <= List.length (requests s) + List.length (captures (step cfg e s)))%nat.
Proof.
  intros Hinv Hch. destruct (isTimerFires e) eqn:He.
  - destruct e as [|env|env| |historical| |i env|now e|]; try discriminate He.
    cbn [step].
    destruct (fire_found i env s) as [->|(t & Hin & <-)]; [lia|].
    assert (closureUnpaused t) as Ht by (rewrite Forall_forall in Hch; now apply Hch).
    destruct (fire_cases t env s Hinv Hin Ht) as (_ & Hoff & Hon).
    assert (cameraMounted env = false \/ wsConnected s = false
            \/ (cameraMounted env = true /\ wsConnected s = true)) as [H|[H|(Hm & Hw)]]
      by (destruct (cameraMounted env), (wsConnected s); auto).
    + destruct (Hoff (or_introl H)) as (_ & Hl & Hw & _).
      rewrite (captures_ext _ _ Hl), (requests_ext _ _ Hw). lia.
    + destruct (Hoff (or_intror H)) as (_ & Hl & Hw & _).
      rewrite (captures_ext _ _ Hl), (requests_ext _ _ Hw). lia.
    + destruct (Hon Hm Hw) as (_ & Hbusy & Hfree).
      destruct (isProcessingRef s).
      * destruct (Hbusy eq_refl) as (Hl & Hw' & _).
        rewrite (captures_ext _ _ Hl), (requests_ext _ _ Hw'). lia.
      * destruct (Hfree eq_refl) as (Hc & _ & [Hr|(img & _ & Hr)]);
          rewrite Hc, Hr, ?length_app; cbn [List.length]; lia.
  - destruct (nonfire_step_quiet e s Hinv He) as (-> & ->). lia.
Qed.

(** X18: frames are captured only by timer callbacks and sent only after
    a capture: over any session, the detection requests written on the
    socket are at most as many as the frames captured, and these at most
    as many as the timeouts that fired. *)
Theorem no_request_without_capture
  (stored : option (list DetectionRecord)) (evs : list Event) :
  let s := run cfg evs (initial cfg stored) in
  (List.length (requests s) <= List.length (captures s))%nat
  /\ (List.length (captures s) <= firings evs)%nat.
Proof.
  cbv zeta.
  assert (forall s,
            invariant (sched s) -> Forall closureUnpaused (timers s) ->
            (List.length (captures (run cfg evs s))
             <= List.length (captures s) + firings evs)%nat
            /\ (List.length (requests (run cfg evs s)) + List.length (captures s)
                <= List.length (requests s) + List.length (captures (run cfg evs s)))%nat)
    as Hrun.
  { induction evs as [|e r IH]; intros s Hinv Hch.
    - unfold firings. cbn. lia.
    - change (run cfg (e :: r) s) with (run cfg r (step cfg e s)).
      destruct (step_counts e s Hinv Hch) as (H1 & H2 & H3).
      destruct (IH (step cfg e s) (step_invariant cfg e s Hinv) (step_chains e s Hinv Hch))
        as (H4 & H5).
      assert (firings (e :: r) = ((if isTimerFires e then 1 else 0) + firings r)%nat) as ->
        by (unfold firings; cbn [filter]; destruct (isTimerFires e); reflexivity).
      lia. }
  destruct (Hrun (initial cfg stored) (invariant_initial cfg stored)) as (H1 & H2);
    [constructor|].
  change (captures (initial cfg stored)) with (@nil Action) in *.
  change (requests (initial cfg stored)) with (@nil PPEWebSocket.Effect) in *.
  cbn [List.length] in *. lia.
Qed.



End SessionMore.

(* ================================================================== *)
(** ** The status shown in the safety modal *)

Section ModalMore.

Import PPEService Dashboard SessionLog Views.

Variable cfg : Config.











End ModalMore.

Section ModalExamples.

Import PPEService Dashboard SessionLog Views.


End ModalExamples.

(* ================================================================== *)
(** ** The further properties on concrete inputs *)

Section FurtherExamples.

Import PPEService Aggregator Grouping.

Lemma groups_partition_detections_witness :
  processDetections (Samples.roboflow Samples.helmet_and_person)
  = Some (process_array Samples.helmet_and_person)
  /\ map fst (detectionsByClass (process_array Samples.helmet_and_person))
     = ["casco"; "person"]
  /\ list_sum (map (fun kv => count (snd kv))
                 (detectionsByClass (process_array Samples.helmet_and_person)))
     = List.length (allDetections (process_array Samples.helmet_and_person)).
Proof.
  destruct (groups_partition_detections
              (Samples.roboflow Samples.helmet_and_person)) as (Hret & Hall).
  assert (processDetections (Samples.roboflow Samples.helmet_and_person)
          = Some (process_array Samples.helmet_and_person)) as Hp.
  { apply (Hret Samples.helmet_and_person []). left. reflexivity. }
  destruct (Hall _ Hp) as (_ & _ & Hsum & Hlen).
  split; [exact Hp|].
  split; [vm_compute; reflexivity|]. rewrite Hsum. exact Hlen.
Defined.

Lemma unusable_response_counts_nothing_witness :
  processDetections
    (RValue (Some [OValue POther;
                   OValue (PArray (map EObject Samples.helmet_and_person))]))
  = Some empty_result
  /\ processDetections
       (RValue (Some [ONull; OValue (PArray (map EObject Samples.helmet_and_person))]))
     = None
  /\ processDetections
       (RValue (Some [OValue (PNested
                                (EObject (Samples.prediction "Helmet" (9 # 10))
                                 :: ERaises :: nil))]))
     = None
  /\ validateCompletePPE (detectionsByClass empty_result)
     = {| isComplete := false; detected := [];
          missing := EPP_CLASSES; completionRate := "0.00" |}.
Proof.
  destruct (unusable_response_counts_nothing
              (RValue (Some [OValue POther;
                             OValue (PArray (map EObject Samples.helmet_and_person))])))
    as (_ & Hempty & Hzero & _).
  destruct (unusable_response_counts_nothing
              (RValue (Some [ONull;
                             OValue (PArray (map EObject Samples.helmet_and_person))])))
    as (Hnull & _).
  destruct (unusable_response_counts_nothing
              (RValue (Some [OValue (PNested
                                       (EObject (Samples.prediction "Helmet" (9 # 10))
                                        :: ERaises :: nil))])))
    as (Hbad & _).
  assert (processDetections
            (RValue (Some [OValue POther;
                           OValue (PArray (map EObject Samples.helmet_and_person))]))
          = Some empty_result) as He.
  { apply Hempty. right. right.
    exists [OValue (PArray (map EObject Samples.helmet_and_person))]. reflexivity. }
  split; [exact He|]. split; [|split].
  - apply Hnull. right. left.
    exists [OValue (PArray (map EObject Samples.helmet_and_person))]. reflexivity.
  - apply Hbad. right. right.
    exists (EObject (Samples.prediction "Helmet" (9 # 10)) :: ERaises :: nil), [].
    split; [right; left; reflexivity|right; reflexivity].
  - destruct (Hzero _ He) as (_ & _ & Hv). exact (Hv eq_refl).
Defined.

Lemma verdict_depends_on_required_keys_witness :
  ~ In "person" EPP_CLASSES
  /\ missing (validateCompletePPE ([("casco", tt)] ++ [("person", tt)]))
     = missing (validateCompletePPE [("casco", tt)])
  /\ completionRate (validateCompletePPE ([("casco", tt)] ++ [("person", tt)]))
     = "25.00".
Proof.
  assert (~ In "person" EPP_CLASSES) as Hk
    by (simpl; intuition discriminate).
  destruct (verdict_depends_on_required_keys unit [("casco", tt)])
    as (_ & _ & _ & _ & Hextra).
  destruct (Hextra "person" tt Hk) as (Hm & _ & _).
  split; [exact Hk|]. split; [exact Hm|reflexivity].
Defined.

Lemma class_present_iff_label_maps_to_it_witness :
  In "casco" EPP_CLASSES
  /\ In "casco"
        (detected (validateCompletePPE
                     (detectionsByClass (process_array Samples.helmet_and_person)))).
Proof.
  assert (In "casco" EPP_CLASSES) as Hc by (simpl; tauto).
  destruct (class_present_iff_label_maps_to_it Samples.helmet_and_person)
    as (Hiff & _).
  split; [exact Hc|]. apply (Hiff "casco" Hc).
  exists (Samples.prediction "Helmet" (9 # 10)).
  split; [now left|reflexivity].
Defined.

Lemma legacy_status_reflects_verdict_witness :
  casco (Orchestration.ppe_status
           (Orchestration.convertToLegacyFormat Samples.ppeResult)) = true
  /\ Orchestration.is_compliant
       (Orchestration.convertToLegacyFormat Samples.ppeResult) = false.
Proof.
  destruct (legacy_status_reflects_verdict _
              (detectionsByClass (process_array Samples.helmet_and_person))
              Samples.ppeResult eq_refl)
    as (Hcasco & _ & _ & _ & _ & _ & _ & _ & _ & _ & _ & _).
  split; [|reflexivity].
  apply Hcasco. vm_compute. tauto.
Defined.

Lemma banner_lists_labels_of_missing_flags_witness :
  Dashboard.hasDetection
    (Dashboard.run Samples.config Samples.toPause (Dashboard.initial Samples.config None))
  = true
  /\ Views.missingItems
       (Dashboard.run Samples.config Samples.toPause
          (Dashboard.initial Samples.config None))
     = [Some "Lentes"].
Proof.
  assert (Dashboard.hasDetection
            (Dashboard.run Samples.config Samples.toPause
               (Dashboard.initial Samples.config None)) = true) as Hd
    by (vm_compute; reflexivity).
  destruct (banner_lists_labels_of_missing_flags
              (Dashboard.run Samples.config Samples.toPause
                 (Dashboard.initial Samples.config None))) as (_ & Hon).
  destruct (Hon Hd) as (Hl & _).
  split; [exact Hd|]. rewrite Hl. vm_compute. reflexivity.
Defined.

Import PPEWebSocket PPEClient.

Lemma session_effects_well_formed_witness :
  In (SetTimeoutConnect 5000)
     (trace (fst (session Samples.noCallback None None None Samples.calls (new, tt))))
  /\ In 5000%Z reconnectDelays.
Proof.
  assert (In (SetTimeoutConnect 5000)
            (trace (fst (session Samples.noCallback None None None Samples.calls
                           (new, tt))))) as Hin
    by (vm_compute; tauto).
  destruct (session_effects_well_formed unit Samples.noCallback None None None
              Samples.calls tt) as (_ & _ & Hd & _).
  split; [exact Hin|exact (Hd _ Hin)].
Defined.

Lemma writes_only_on_open_socket_witness :
  isConnected Samples.connecting = false
  /\ filter isTransmit
       (added Samples.connecting
          (fst (exec Samples.noCallback None None None (Send "frame" (3 # 10) false)
                  (Samples.connecting, tt))))
     = [].
Proof.
  assert (isConnected Samples.connecting = false) as Hc by reflexivity.
  destruct (writes_only_on_open_socket unit Samples.noCallback None None None
              (Send "frame" (3 # 10) false) Samples.connecting tt) as (_ & _ & Hn).
  split; [exact Hc|exact (Hn Hc)].
Defined.

Lemma results_reach_callback_in_order_witness :
  snd (session Samples.collect None None None Samples.calls (new, []))
  = [Samples.violation].
Proof.
  rewrite (results_reach_callback_in_order _ Samples.collect None None None
             Samples.calls new [] eq_refl eq_refl eq_refl).
  reflexivity.
Defined.

Lemma what_changes_a_disconnected_client_witness :
  In 2000%Z (pendingReconnects Samples.dropped)
  /\ ws (fst (exec Samples.noCallback None None None
                (Deliver 2100 (ReconnectDue 2000))
                (disconnect Samples.dropped, tt)))
     = Some CONNECTING
  /\ fst (exec Samples.noCallback None None None (Send "frame" (3 # 10) false)
            (disconnect Samples.dropped, tt))
     = disconnect Samples.dropped
  /\ fst (exec Samples.noCallback None None None (Deliver 2100 (ReconnectDue 5000))
            (disconnect Samples.dropped, tt))
     = disconnect Samples.dropped
  /\ heartbeatInterval
       (fst (exec Samples.noCallback None None None (Deliver 2100 StaleOpened)
               (disconnect Samples.dropped, tt)))
     = Some 30000%Z.
Proof.
  assert (In 2000%Z (pendingReconnects Samples.dropped)) as Hin
    by (vm_compute; tauto).
  assert (~ In 5000%Z (pendingReconnects Samples.dropped)) as Hout.
  { vm_compute. intros [H|[]]. discriminate H. }
  destruct (what_changes_a_disconnected_client
              unit Samples.noCallback None None None
              (Send "frame" (3 # 10) false) Samples.dropped tt)
    as (_ & Hinert & Hwake & Hopen).
  destruct (what_changes_a_disconnected_client
              unit Samples.noCallback None None None
              (Deliver 2100 (ReconnectDue 5000)) Samples.dropped tt)
    as (_ & Hother & _).
  destruct (Hwake 2100%Z 2000%Z Hin) as (Hws & _).
  destruct (Hopen 2100%Z false) as (_ & _ & Hhb & _).
  split; [exact Hin|]. split; [exact Hws|]. split; [|split; [|exact Hhb]].
  - apply Hinert; [discriminate| |].
    + intros now H. discriminate H.
    + intros now delay H. discriminate H.
  - apply Hother; [discriminate| |].
    + intros now H. discriminate H.
    + intros now delay H. injection H as _ <-. exact Hout.
Defined.

Import Dashboard SessionLog.

Lemma history_never_exceeds_bound_witness :
  (1 <= history_maxRecords Samples.config)%Z
  /\ (Z.of_nat (List.length
                  (detectionRecords
                     (run Samples.config Samples.fastThenPause
                        (initial Samples.config None))))
      <= 50)%Z.
Proof.
  assert (1 <= history_maxRecords Samples.config)%Z as Hm by (vm_compute; discriminate).
  split; [exact Hm|].
  exact (history_never_exceeds_bound Samples.config None Samples.fastThenPause Hm).
Defined.

Lemma timer_callback_cases_witness :
  In Samples.firstTimer
     (timers (run Samples.config Samples.started (initial Samples.config None)))
  /\ captures (step Samples.config (TimerFires 1 (Samples.env 2500))
                 (run Samples.config Samples.started (initial Samples.config None)))
     = captures (run Samples.config Samples.started (initial Samples.config None))
       ++ [Capture (Some "frame")].
Proof.
  assert (In Samples.firstTimer
            (timers (run Samples.config Samples.started (initial Samples.config None))))
    as Hin by (vm_compute; tauto).
  assert (wsConnected (run Samples.config Samples.started (initial Samples.config None))
          = true) as Hw by (vm_compute; reflexivity).
  assert (isProcessingRef
            (run Samples.config Samples.started (initial Samples.config None))
          = false) as Hf by (vm_compute; reflexivity).
  destruct (timer_callback_cases Samples.config None Samples.started
              Samples.firstTimer (Samples.env 2500) Hin)
    as (_ & _ & _ & Hon).
  destruct (Hon eq_refl Hw) as (_ & _ & Hfree).
  destruct (Hfree Hf) as (Hc & _).
  split; [exact Hin|exact Hc].
Defined.

Lemma idle_scheduler_needs_a_click_witness :
  timers (run Samples.config Samples.toPause (initial Samples.config None)) = []
  /\ captures (run Samples.config Samples.untouched
                 (run Samples.config Samples.toPause (initial Samples.config None)))
     = captures (run Samples.config Samples.toPause (initial Samples.config None)).
Proof.
  assert (timers (run Samples.config Samples.toPause (initial Samples.config None)) = [])
    as Ht by (vm_compute; reflexivity).
  assert (forallb (fun e => negb (arms e)) Samples.untouched = true)
    as Hm by (vm_compute; reflexivity).
  destruct (idle_scheduler_needs_a_click Samples.config None Samples.toPause
              Samples.untouched Ht Hm) as (_ & Hc & _).
  split; [exact Ht|exact Hc].
Defined.

Lemma restart_begins_at_default_interval_witness :
  adaptiveIntervalRef
    (run Samples.config Samples.fastThenPause (initial Samples.config None))
  = 1000%Z
  /\ map timer_delay
       (timers (run Samples.config [ClickRefresh; ClickMain (Samples.env 20000)]
                  (run Samples.config Samples.fastThenPause
                     (initial Samples.config None))))
     = [1500%Z].
Proof.
  assert (adaptiveIntervalRef
            (run Samples.config Samples.fastThenPause (initial Samples.config None))
          = 1000%Z) as Ha by (vm_compute; reflexivity).
  assert (isConnected
            (run Samples.config Samples.fastThenPause (initial Samples.config None))
          = true) as Hc by (vm_compute; reflexivity).
  assert (wsConnected
            (run Samples.config Samples.fastThenPause (initial Samples.config None))
          = true) as Hw by (vm_compute; reflexivity).
  destruct (restart_begins_at_default_interval Samples.config None
              Samples.fastThenPause (Samples.env 20000) Hc eq_refl Hw) as (Ht & _).
  split; [exact Ha|]. rewrite Ht. reflexivity.
Defined.

Lemma only_a_violation_pauses_witness :
  isPaused (run Samples.config Samples.inFlight (initial Samples.config None)) = false
  /\ deliversViolation (Samples.received 2700 Samples.violation) = true
  /\ isPaused (step Samples.config (Samples.received 2700 Samples.violation)
                 (run Samples.config Samples.inFlight (initial Samples.config None)))
     = true.
Proof.
  assert (isPaused (run Samples.config Samples.inFlight (initial Samples.config None))
          = false) as Hpa by (vm_compute; reflexivity).
  assert (wsRef (run Samples.config Samples.inFlight (initial Samples.config None))
          <> None) as Hws by (vm_compute; discriminate).
  destruct (only_a_violation_pauses Samples.config None Samples.inFlight
              (Samples.received 2700 Samples.violation)) as (Honly & Hevery).
  destruct (Hevery Hws eq_refl) as (Hpa' & _).
  split; [exact Hpa|]. split; [exact (Honly Hpa Hpa')|exact Hpa'].
Defined.


End FurtherExamples.
